(** * notmuchfs: a shallow embedding of [notmuchfs.c]

    The development models the FUSE operations of [notmuchfs.c] as Rocq
    functions and checks the statements of the specification against them.

    Conventions.
    - A C string is the list of its bytes before the terminating NUL
      ([cstr]); a [char *] into a string is an index into that list.
    - The operating system and the notmuch library are external: their
      answers are given by the records [OS] and [Notmuch], and every
      theorem quantifies over them.
    - An operation yields the list of external effects it performed (its
      [event]s) together with an [outcome].
    - [LOG_TRACE] is kept, under the flag [NOTMUCHFS_DEBUG], in the
      operations whose messages the specification speaks of (the database
      session, open and rename); getattr, opendir and readdir are given
      without their trace lines. *)

From Stdlib Require Import ZArith Ascii String List Bool Lia.
Import ListNotations.
Local Open Scope Z_scope.

(* ===================================================================== *)
(** ** C strings and buffers *)
(* ===================================================================== *)

Definition cstr := list ascii.

Definition NUL : ascii := "000"%char.
Definition LF : ascii := "010"%char.
Definition SP : ascii := " "%char.

(** A string literal of the source. *)
Definition lit (s : string) : cstr := list_ascii_of_string s.

(** Well-formed C string contents: no embedded terminator. *)
Definition cstring (s : cstr) : Prop := ~ In NUL s.

Definition strlen (s : cstr) : Z := Z.of_nat (length s).

Fixpoint cstr_eqb (a b : cstr) : bool :=
  match a, b with
  | [], [] => true
  | x :: a', y :: b' => Ascii.eqb x y && cstr_eqb a' b'
  | _, _ => false
  end.

(** [strcmp(a, b) == 0]. *)
Definition strcmp_eq (a b : cstr) : bool := cstr_eqb a b.

(** [strncmp(a, b, n) == 0]: the first [n] bytes agree, a shorter string
    ending where the other goes on counts as a difference. *)
Definition strncmp_eq (a b : cstr) (n : nat) : bool :=
  cstr_eqb (firstn n a) (firstn n b).

(** [memcmp(a + i, b, n) == 0] for a window that lies inside [a]. *)
Definition memcmp_eq (a : cstr) (i : nat) (b : cstr) (n : nat) : bool :=
  cstr_eqb (firstn n (skipn i a)) (firstn n b).

(** [strchr(s, c)]: index of the first [c]. *)
Fixpoint strchr (s : cstr) (c : ascii) : option nat :=
  match s with
  | [] => None
  | a :: s' => if Ascii.eqb a c then Some O else option_map S (strchr s' c)
  end.

(** [strrchr(s, c)]: index of the last [c]. *)
Fixpoint strrchr (s : cstr) (c : ascii) : option nat :=
  match s with
  | [] => None
  | a :: s' =>
      match strrchr s' c with
      | Some i => Some (S i)
      | None => if Ascii.eqb a c then Some O else None
      end
  end.

(** [strchr(s + 1, c)] and [strrchr(s + 1, c)], as indices into [s]. *)
Definition strchr1 (s : cstr) (c : ascii) : option nat :=
  option_map S (strchr (skipn 1 s) c).
Definition strrchr1 (s : cstr) (c : ascii) : option nat :=
  option_map S (strrchr (skipn 1 s) c).

(** [string_replace]: every [old] becomes [new], in place. *)
Definition string_replace (str_in : cstr) (old new : ascii) : cstr :=
  map (fun a => if Ascii.eqb a old then new else a) str_in.

(** [PATH_MAX] of <limits.h> (Linux). *)
Definition PATH_MAX : nat := 4096.

(** [strncpy(dst, src, PATH_MAX - 1); dst[PATH_MAX - 1] = '\0'] *)
Definition strncpy_path (src : cstr) : cstr := firstn (PATH_MAX - 1) src.

(** The translation used on every encoded name: copy the bytes after
    index [slash] and turn each '#' back into '/'. *)
Definition trans_name_of (path : cstr) (slash : nat) : cstr :=
  string_replace (strncpy_path (skipn (S slash) path)) "#"%char "/"%char.

(** The inverse direction, used by readdir. *)
Definition encode_name (fname : cstr) : cstr :=
  string_replace (strncpy_path fname) "/"%char "#"%char.

(** [memcpy(buf + pos, src, strlen(src))] on a byte array. *)
Definition memcpy_at (buf : list ascii) (pos : nat) (src : list ascii)
  : list ascii :=
  firstn pos buf ++ src ++ skipn (pos + length src) buf.

(** [buf[pos] = c]. *)
Definition store (buf : list ascii) (pos : nat) (c : ascii) : list ascii :=
  memcpy_at buf pos [c].

(* ===================================================================== *)
(** ** Constants of the source *)
(* ===================================================================== *)

Definition MAX_XLABEL_LENGTH : Z := 1024.
Definition XLABEL : cstr := lit "X-Label: ".
Definition TAG_ERROR_STRING : cstr := lit "ERROR".
Definition EXCLUDED_TAGS_MAX_LENGTH : nat := 128.
Definition INT_MAX : Z := 2147483647.

(** errno values of <errno.h> (Linux). *)
Definition ENOENT : Z := 2.
Definition EIO : Z := 5.
Definition EACCES : Z := 13.
Definition EDOM : Z := 33.
Definition ENOTSUP : Z := 95.

Definition O_RDONLY : Z := 0.

(** Conversion of a byte count to the [int] a FUSE operation returns. *)
Definition to_int (z : Z) : Z := (z + 2 ^ 31) mod 2 ^ 32 - 2 ^ 31.

(* ===================================================================== *)
(** ** The environment: operating system and notmuch library *)
(* ===================================================================== *)

Record stat_t := mk_stat { st_ino : Z; st_mode : Z; st_size : Z }.

(** [memset(stbuf, 0, sizeof(struct stat))] *)
Definition zero_stat : stat_t := mk_stat 0 0 0.

Definition S_IFMT : Z := 61440.
Definition S_IFLNK : Z := 40960.
Definition S_ISLNK (mode : Z) : bool := Z.land mode S_IFMT =? S_IFLNK.

(** [struct dirent] as [readdir(3)] hands it out, with the [telldir]
    value that follows it. *)
Record dirent := mk_dirent {
  d_name : cstr; d_ino : Z; d_type : Z; d_tell : Z
}.

(** A system call answers with [inl errno] or [inr value]; [rename]
    answers with the errno of a failure.  An open directory stream is
    the function from a [seekdir] position to the entries that
    [readdir(3)] then returns. *)
Record OS := mk_OS {
  os_stat : cstr -> Z + stat_t;
  os_lstat : cstr -> Z + stat_t;
  os_readlink : cstr -> Z + cstr;
  os_open_rdonly : cstr -> Z + Z;
  os_pread : Z -> Z -> Z -> Z + list ascii;
  os_rename : cstr -> cstr -> option Z;
  os_opendir : cstr -> option (Z -> list dirent)
}.

Inductive notmuch_status :=
| NOTMUCH_STATUS_SUCCESS
| NOTMUCH_STATUS_OUT_OF_MEMORY
| NOTMUCH_STATUS_READ_ONLY_DATABASE
| NOTMUCH_STATUS_XAPIAN_EXCEPTION
| NOTMUCH_STATUS_FILE_ERROR
| NOTMUCH_STATUS_FILE_NOT_EMAIL
| NOTMUCH_STATUS_DUPLICATE_MESSAGE_ID
| NOTMUCH_STATUS_NULL_POINTER
| NOTMUCH_STATUS_UNBALANCED_ATOMIC.

Definition status_eqb (a b : notmuch_status) : bool :=
  match a, b with
  | NOTMUCH_STATUS_SUCCESS, NOTMUCH_STATUS_SUCCESS
  | NOTMUCH_STATUS_OUT_OF_MEMORY, NOTMUCH_STATUS_OUT_OF_MEMORY
  | NOTMUCH_STATUS_READ_ONLY_DATABASE, NOTMUCH_STATUS_READ_ONLY_DATABASE
  | NOTMUCH_STATUS_XAPIAN_EXCEPTION, NOTMUCH_STATUS_XAPIAN_EXCEPTION
  | NOTMUCH_STATUS_FILE_ERROR, NOTMUCH_STATUS_FILE_ERROR
  | NOTMUCH_STATUS_FILE_NOT_EMAIL, NOTMUCH_STATUS_FILE_NOT_EMAIL
  | NOTMUCH_STATUS_DUPLICATE_MESSAGE_ID, NOTMUCH_STATUS_DUPLICATE_MESSAGE_ID
  | NOTMUCH_STATUS_NULL_POINTER, NOTMUCH_STATUS_NULL_POINTER
  | NOTMUCH_STATUS_UNBALANCED_ATOMIC, NOTMUCH_STATUS_UNBALANCED_ATOMIC => true
  | _, _ => false
  end.

(** What the program reads off a [notmuch_message_t]. *)
Record message := mk_message {
  msg_filename : option cstr;
  msg_tags : list cstr
}.

(** Answers of the notmuch library.  [nm_open_script] lists the statuses
    of the successive [notmuch_database_open] attempts;
    [nm_search_messages] is given the query string and the tags excluded
    on the query. *)
Record Notmuch := mk_Notmuch {
  nm_open_script : list notmuch_status;
  nm_needs_upgrade : bool;
  nm_query_create : cstr -> bool;
  nm_search_messages : cstr -> list cstr -> notmuch_status * list message;
  nm_find_message_by_filename : cstr -> notmuch_status * option message;
  nm_begin_atomic : notmuch_status;
  nm_end_atomic : notmuch_status;
  nm_add_message : cstr -> notmuch_status;
  nm_remove_message : cstr -> notmuch_status;
  nm_add_tag : cstr -> cstr -> notmuch_status
}.

(** [struct notmuchfs_config]; the two directory names play no part in
    the operations below beyond being passed to the environment. *)
Record notmuchfs_config := mk_config {
  backing_dir : cstr;
  mail_dir : cstr;
  mutt_2476_workaround_allowed : bool
}.

(* ===================================================================== *)
(** ** Effects *)
(* ===================================================================== *)

Inductive event :=
| EvStderr (fmt : string) (args : list cstr)
| EvTrace (fmt : string) (args : list cstr)
| EvSleep
| EvDatabaseOpen (need_write : bool)
| EvDatabaseClose
| EvQueryCreate (query : cstr)
| EvAddTagExclude (tag : cstr)
| EvSetOmitExcluded
| EvSearchMessages
| EvQueryDestroy
| EvFindMessage (fname : cstr)
| EvBeginAtomic
| EvEndAtomic
| EvAddMessage (fname : cstr)
| EvRemoveMessage (fname : cstr)
| EvFlagsToTags (fname : cstr)
| EvAddTag (fname : cstr) (tag : cstr)
| EvRename (old new : cstr)
| EvFill (name : cstr) (st : option stat_t) (off : Z) (full : bool).

(** [notmuch_context_t]: the buffer behind [excluded_tags], up to and
    including its last terminator (the bytes after it are never read). *)
Record notmuch_context_t := mk_ctx { excluded_tags : list ascii }.

Inductive opendir_type_t :=
| OPENDIR_TYPE_EMPTY_DIR
| OPENDIR_TYPE_MAIL_DIR
| OPENDIR_TYPE_BACKING_DIR
| OPENDIR_TYPE_NOTMUCH_QUERY.

(** [opendir_t]; [p_messages] is the iterator, as the list of messages it
    has yet to yield. *)
Record opendir_t := mk_opendir {
  type : opendir_type_t;
  p_messages : list message;
  fd : option (Z -> list dirent);
  next_offset : Z
}.

Inductive outcome (A : Type) : Type :=
| Ret (a : A)        (* the operation returned *)
| ProcExit (code : Z) (* exit(code) *)
| Abort              (* a failed assert() *)
| Undef              (* undefined behaviour: a wild pointer was used *)
| Spin.              (* still retrying when the scripted answers ran out *)
Arguments Ret {A} a.
Arguments ProcExit {A} code.
Arguments Abort {A}.
Arguments Undef {A}.
Arguments Spin {A}.

Definition io (A : Type) : Type := (list event * outcome A)%type.

Definition ret {A} (a : A) : io A := ([], Ret a).

Definition bind {A B} (m : io A) (k : A -> io B) : io B :=
  match m with
  | (t, Ret a) => let (t', r) := k a in (t ++ t', r)
  | (t, ProcExit c) => (t, ProcExit c)
  | (t, Abort) => (t, Abort)
  | (t, Undef) => (t, Undef)
  | (t, Spin) => (t, Spin)
  end.

Definition emit (e : event) : io unit := ([e], Ret tt).
Definition fail {A} (o : outcome A) : io A := ([], o).

Declare Scope io_scope.
Delimit Scope io_scope with io.
Notation "x <- m ;; k" := (bind m (fun x => k))
  (at level 61, m at next level, right associativity) : io_scope.
Notation "m ;;; k" := (bind m (fun _ => k))
  (at level 61, right associativity) : io_scope.

(** [LOG_TRACE(...)]: expands to [printf] only when [NOTMUCHFS_DEBUG] is
    non-zero. *)
Definition LOG_TRACE (NOTMUCHFS_DEBUG : bool) (fmt : string)
  (args : list cstr) : io unit :=
  if NOTMUCHFS_DEBUG then emit (EvTrace fmt args) else ret tt.

(** The value of [NOTMUCHFS_DEBUG] in the source. *)
Definition NOTMUCHFS_DEBUG_default : bool := false.

(* ===================================================================== *)
(** ** The synthesized header (fill_string_with_tags, notmuchfs_open) *)
(* ===================================================================== *)

(** The loop of [fill_string_with_tags].  [mem] is the array that holds
    the header, [base] the index of [buf_in] in it, [len] the parameter
    [length] and [n] the value of
    [buf - buf_in]; the result tells whether [error] was raised. *)
Fixpoint fill_tags_loop (mem : list ascii) (base : nat) (len : Z)
  (n : nat) (tags : list cstr) : bool * list ascii * nat :=
  match tags with
  | [] => (false, mem, n)
  | tag_str :: rest =>
      if strlen tag_str >=? len - Z.of_nat n then (true, mem, n)
      else
        let mem := memcpy_at mem (base + n) tag_str in
        let n := (n + length tag_str)%nat in
        match rest with
        | [] => fill_tags_loop mem base len n rest
        | _ :: _ =>
            if len - Z.of_nat n <? 1 then (true, mem, n)
            else fill_tags_loop (store mem (base + n) ","%char) base len
                                (S n) rest
        end
  end.

(** [fill_string_with_tags(buf_in, length, p_message)]: the array after
    the call and the number of bytes written (the return value). *)
Definition fill_string_with_tags (mem : list ascii) (base : nat)
  (len : Z) (p_message : message) : list ascii * nat :=
  match fill_tags_loop mem base len 0 (msg_tags p_message) with
  | (true, mem, _) =>
      (memcpy_at mem base TAG_ERROR_STRING, length TAG_ERROR_STRING)
  | (false, mem, n) => (mem, n)
  end.

(** The padding loop of [notmuchfs_open]:
    [while (buf - x_label < MAX_XLABEL_LENGTH - 1) { buf[0] = ' '; buf++; }]
    run for [fuel] iterations from index [pos]. *)
Fixpoint pad_loop (fuel : nat) (mem : list ascii) (pos : nat) : list ascii :=
  match fuel with
  | O => mem
  | S k => pad_loop k (store mem pos SP) (S pos)
  end.

(** The body of the branch of [notmuchfs_open] that found the message:
    the content of [x_label] after it. *)
Definition compose_x_label (x_label : list ascii) (p_message : message)
  : list ascii :=
  let mem := memcpy_at x_label 0 XLABEL in
  let buf := length XLABEL in
  let '(mem, n) :=
    fill_string_with_tags mem buf
      (MAX_XLABEL_LENGTH - strlen XLABEL - 1) p_message in
  let buf := (buf + n)%nat in
  let last := Z.to_nat (MAX_XLABEL_LENGTH - 1) in
  let mem := pad_loop (last - buf) mem buf in
  store mem last LF.

(** [open_t] *)
Record open_t := mk_open { fh : Z; x_label : list ascii }.

(** [memset(p_open, 0, sizeof(open_t))] *)
Definition zero_x_label : list ascii :=
  repeat NUL (Z.to_nat MAX_XLABEL_LENGTH).

(** The comma-joined tag list, as the specification words it. *)
Fixpoint join_tags (tags : list cstr) : cstr :=
  match tags with
  | [] => []
  | t :: rest =>
      match rest with
      | [] => t
      | _ :: _ => t ++ ","%char :: join_tags rest
      end
  end.

Section Operations.

Variable os : OS.
Variable nm : Notmuch.
Variable cfg : notmuchfs_config.
Variable NOTMUCHFS_DEBUG : bool.

Local Open Scope io_scope.

(* ===================================================================== *)
(** ** database_open, database_close *)
(* ===================================================================== *)

(** The retry loop of [database_open] over the scripted answers of
    [notmuch_database_open].  The mutex and the pairing of open and close
    are not part of this model. *)
Fixpoint database_open_loop (need_write : bool)
  (script : list notmuch_status) : io unit :=
  match script with
  | [] => fail Spin
  | status :: script' =>
      emit (EvDatabaseOpen need_write) ;;;
      match status with
      | NOTMUCH_STATUS_SUCCESS => ret tt
      | NOTMUCH_STATUS_XAPIAN_EXCEPTION =>
          emit EvSleep ;;; database_open_loop need_write script'
      | _ =>
          emit (EvStderr "ERROR: Database open error.\n" []) ;;;
          fail (ProcExit 1)
      end
  end.

Definition database_open (need_write : bool) : io unit :=
  LOG_TRACE NOTMUCHFS_DEBUG "notmuch database_open\n" [] ;;;
  database_open_loop need_write (nm_open_script nm) ;;;
  if nm_needs_upgrade nm then
    emit (EvStderr "ERROR: Database needs upgrade.\n" []) ;;;
    fail (ProcExit 1)
  else ret tt.

Definition database_close : io unit :=
  LOG_TRACE NOTMUCHFS_DEBUG "notmuch database_close\n" [] ;;;
  emit EvDatabaseClose.

(* ===================================================================== *)
(** ** notmuchfs_getattr *)
(* ===================================================================== *)

(** [stat(name, stbuf)] into a zeroed [stbuf]: the pair of [res] and
    [stbuf] afterwards. *)
Definition stat_into (r : Z + stat_t) : Z * stat_t :=
  match r with
  | inl errno => (- errno, zero_stat)
  | inr st => (0, st)
  end.

Definition inflate (st : stat_t) : stat_t :=
  mk_stat (st_ino st) (st_mode st) (st_size st + MAX_XLABEL_LENGTH).

Definition is_maildir_sub (name : cstr) : bool :=
  strcmp_eq name (lit "new") || strcmp_eq name (lit "tmp")
  || strcmp_eq name (lit "cur").

Definition notmuchfs_getattr (path : cstr) : outcome (Z * stat_t) :=
  if strcmp_eq path (lit "/") then
    (* Querying the base directory, pass to backing store. *)
    Ret (stat_into (os_stat os (lit ".")))
  else
    match strrchr1 path "/"%char with
    | None =>
        (* Querying '/<query>', pass to backing store. *)
        Ret (stat_into (os_lstat os (skipn 1 path)))
    | Some last_slash =>
        if is_maildir_sub (skipn (S last_slash) path) then
          (* Querying a maildir directory, so copy the parent directory. *)
          if (PATH_MAX <=? last_slash)%nat then Undef
          else
            let trans_name := firstn last_slash (skipn 1 path) in
            Ret (stat_into (os_stat os trans_name))
        else
          match strchr1 path "/"%char with
          | None => Undef
          | Some first_slash =>
              let mutt_2476_workaround :=
                mutt_2476_workaround_allowed cfg
                && (3 <=? last_slash)%nat
                && memcmp_eq path (last_slash - 3) (lit "new") 3 in
              if mutt_2476_workaround
                 || ((3 <? last_slash - first_slash)%nat
                     && strncmp_eq (skipn first_slash path) (lit "/cur/") 5)
              then
                let trans_name := trans_name_of path last_slash in
                let '(res, stbuf) := stat_into (os_stat os trans_name) in
                Ret (res, inflate stbuf)
              else Ret (- ENOENT, zero_stat)
          end
    end.

(* ===================================================================== *)
(** ** notmuchfs_open, notmuchfs_read *)
(* ===================================================================== *)

(** The index part of [notmuchfs_open] for an encoded name: [inl res]
    when the open fails there, [inr x_label] otherwise. *)
Definition open_lookup (trans_name : cstr) : io (Z + list ascii) :=
  database_open true ;;;
  LOG_TRACE NOTMUCHFS_DEBUG "open notmuch lookup by name: %s\n"
            [trans_name] ;;;
  emit (EvFindMessage trans_name) ;;;
  match nm_find_message_by_filename nm trans_name with
  | (NOTMUCH_STATUS_SUCCESS, p_message) =>
      x <- match p_message with
           | None =>
               LOG_TRACE NOTMUCHFS_DEBUG
                 "WARNING: Message not found in DB - ignoring." [] ;;;
               ret zero_x_label
           | Some m => ret (compose_x_label zero_x_label m)
           end ;;
      database_close ;;;
      ret (inr x)
  | (_, _) =>
      (* Notmuch somehow failed to do anything successfully. *)
      database_close ;;;
      ret (inl (- EIO))
  end.

Definition open_backing (name : cstr) (x : list ascii)
  : io (Z * option open_t) :=
  LOG_TRACE NOTMUCHFS_DEBUG "open(%s)\n" [name] ;;;
  match os_open_rdonly os name with
  | inl errno => ret (- errno, None)
  | inr fd => ret (0, Some (mk_open fd x))
  end.

Definition notmuchfs_open (path : cstr) (flags : Z)
  : io (Z * option open_t) :=
  if negb (Z.land flags 3 =? O_RDONLY) then ret (- EACCES, None)
  else
    match strrchr1 path "/"%char with
    | None =>
        match os_open_rdonly os (skipn 1 path) with
        | inl errno => ret (- errno, None)
        | inr fd => ret (0, Some (mk_open fd zero_x_label))
        end
    | Some last_slash =>
        let trans_name := strncpy_path (skipn (S last_slash) path) in
        match strchr trans_name "#"%char with
        | Some _ =>
            let trans_name := string_replace trans_name "#"%char "/"%char in
            r <- open_lookup trans_name ;;
            match r with
            | inl res => ret (res, None)
            | inr x => open_backing trans_name x
            end
        | None => open_backing trans_name zero_x_label
        end
    end.

(** [notmuchfs_read]: the returned [int] and the bytes placed in the
    caller's buffer.  [size] is a [size_t] and [offset] an [off_t]. *)
Definition notmuchfs_read (p_open : open_t) (size : Z) (offset : Z)
  : Z * list ascii :=
  let '(bytes_copied, copied, offset_adj, offset) :=
    if offset <? MAX_XLABEL_LENGTH then
      let bytes_to_copy := Z.min (MAX_XLABEL_LENGTH - offset) size in
      (bytes_to_copy,
       firstn (Z.to_nat bytes_to_copy)
              (skipn (Z.to_nat offset) (x_label p_open)),
       offset + bytes_to_copy, offset + bytes_to_copy)
    else (0, [], MAX_XLABEL_LENGTH, offset) in
  let bytes_to_read := size - bytes_copied in
  if 0 <? bytes_to_read then
    match os_pread os (fh p_open) bytes_to_read (offset - offset_adj) with
    | inl errno => (- errno, copied)
    | inr data => (to_int (bytes_copied + strlen data), copied ++ data)
    end
  else (to_int bytes_copied, copied).

End Operations.

(* ===================================================================== *)
(** ** Vocabulary of the specification *)
(* ===================================================================== *)

(** The tag-region budget, [MAX_XLABEL_LENGTH - strlen(XLABEL) - 1]. *)
Definition TAG_BUDGET : Z := MAX_XLABEL_LENGTH - strlen XLABEL - 1.

(** A header as the specification describes it: the literal, a tag
    region, space padding, and LF as the last byte. *)
Definition header_with (region : cstr) : list ascii :=
  XLABEL ++ region
  ++ repeat SP (Z.to_nat TAG_BUDGET - length region) ++ [LF].

(* ===================================================================== *)
(** ** notmuchfs_init and the excluded tags *)
(* ===================================================================== *)

(** [notmuchfs_init].  [chdir_ok] and [mutex_ok] tell whether [chdir] and
    [pthread_mutex_init] succeed, [popen_out] is what the pipe of
    [notmuch config get search.exclude_tags] delivers ([None] when
    [popen] fails). *)
Definition notmuchfs_init (chdir_ok mutex_ok : bool)
  (popen_out : option (list ascii)) : option notmuch_context_t :=
  if negb chdir_ok then None
  else if negb mutex_ok then None
  else
    match popen_out with
    | None => Some (mk_ctx [NUL])
    | Some out =>
        let bytes := firstn EXCLUDED_TAGS_MAX_LENGTH out in
        let bytes_read := length bytes in
        if (0 <? bytes_read)%nat
        then Some (mk_ctx (store bytes (bytes_read - 1) NUL))
        else Some (mk_ctx [NUL])
    end.

(** Length of the longest prefix whose bytes satisfy [f]. *)
Fixpoint span (f : ascii -> bool) (l : list ascii) : nat :=
  match l with
  | a :: l' => if f a then S (span f l') else O
  | [] => O
  end.

Definition is_delim (delim : cstr) (a : ascii) : bool :=
  existsb (Ascii.eqb a) delim.

(** One call of [strtok] that resumes at index [p] of [mem]: the token
    (or [None] for NULL), the memory afterwards and the saved pointer. *)
Definition strtok_at (mem : list ascii) (p : nat) (delim : cstr)
  : option cstr * list ascii * nat :=
  let p := (p + span (is_delim delim) (skipn p mem))%nat in
  let n := span (fun a => negb (Ascii.eqb a NUL) && negb (is_delim delim a))
                (skipn p mem) in
  if (n =? 0)%nat then (None, mem, p)
  else
    let token := firstn n (skipn p mem) in
    match nth_error mem (p + n) with
    | Some c =>
        if Ascii.eqb c NUL then (Some token, mem, (p + n)%nat)
        else (Some token, store mem (p + n) NUL, S (p + n))
    | None => (Some token, mem, (p + n)%nat)
    end.

(** The loop of [notmuchfs_opendir] over [strtok(excluded_tags, "\n")]:
    the tags handed to [notmuch_query_add_tag_exclude] and the buffer
    afterwards.  Every round consumes a byte, so [fuel] above the length
    of the buffer is never used up. *)
Fixpoint exclude_tags_loop (fuel : nat) (mem : list ascii) (p : nat)
  : list cstr * list ascii :=
  match fuel with
  | O => ([], mem)
  | S k =>
      match strtok_at mem p [LF] with
      | (None, mem, _) => ([], mem)
      | (Some exclude_tag, mem, p) =>
          let '(tags, mem) := exclude_tags_loop k mem p in
          (exclude_tag :: tags, mem)
      end
  end.

Definition exclude_tags (mem : list ascii) : list cstr * list ascii :=
  exclude_tags_loop (S (length mem)) mem 0.

Section Directories.

Variable os : OS.
Variable nm : Notmuch.
Variable cfg : notmuchfs_config.
Variable NOTMUCHFS_DEBUG : bool.

(** The readdir buffer of FUSE and its filler: the buffer afterwards and
    whether the filler returned non-zero (the buffer is full). *)
Variable dirbuf : Type.
Variable filler : dirbuf -> cstr -> option stat_t -> Z -> dirbuf * bool.

Local Open Scope io_scope.

(* ===================================================================== *)
(** ** notmuchfs_opendir *)
(* ===================================================================== *)

(** The loop [while (res == 0)] that dereferences a symbolic link named
    by the query: [res] and [trans_name] when it ends. *)
Fixpoint deref_symlinks (fuel : nat) (trans_name : cstr) : io (Z * cstr) :=
  match fuel with
  | O => fail Spin
  | S k =>
      match os_lstat os trans_name with
      | inr stbuf =>
          if S_ISLNK (st_mode stbuf) then
            match os_readlink os trans_name with
            | inr target =>
                let link_name := firstn PATH_MAX target in
                if (length link_name =? PATH_MAX)%nat then fail Undef
                else deref_symlinks k link_name
            | inl errno =>
                if - errno =? 0 then deref_symlinks k trans_name
                else ret (- errno, trans_name)
            end
          else ret (0, trans_name)
      | inl _ => ret (0, trans_name)
      end
  end.

(** The branch of [notmuchfs_opendir] for '/<query>/cur'. *)
Definition opendir_query (fuel : nat) (p_ctx : notmuch_context_t)
  (path : cstr) (last_slash : nat)
  : io (Z * opendir_t * notmuch_context_t) :=
  if (PATH_MAX <? last_slash)%nat then fail Undef
  else
    r <- deref_symlinks fuel (firstn (last_slash - 1) (skipn 1 path)) ;;
    let '(res, trans_name) := r in
    database_open nm NOTMUCHFS_DEBUG false ;;;
    emit (EvQueryCreate trans_name) ;;;
    if nm_query_create nm trans_name then
      (* Exclude messages that match the 'excluded' tags. *)
      let '(tags, mem) := exclude_tags (excluded_tags p_ctx) in
      let p_ctx := mk_ctx mem in
      (map EvAddTagExclude tags, Ret tt) ;;;
      emit EvSetOmitExcluded ;;;
      emit EvSearchMessages ;;;
      match nm_search_messages nm trans_name tags with
      | (NOTMUCH_STATUS_SUCCESS, msgs) =>
          (* On success, the database is left open here. *)
          ret (res, mk_opendir OPENDIR_TYPE_NOTMUCH_QUERY msgs None 1, p_ctx)
      | (_, _) =>
          emit EvQueryDestroy ;;;
          database_close NOTMUCHFS_DEBUG ;;;
          ret (- EIO, mk_opendir OPENDIR_TYPE_NOTMUCH_QUERY [] None 1, p_ctx)
      end
    else
      database_close NOTMUCHFS_DEBUG ;;;
      ret (- EIO, mk_opendir OPENDIR_TYPE_NOTMUCH_QUERY [] None 1, p_ctx).

(** [notmuchfs_opendir]: [res], the handle stored in [fi->fh] when [res]
    is 0, and the context afterwards. *)
Definition notmuchfs_opendir (fuel : nat) (p_ctx : notmuch_context_t)
  (path : cstr) : io (Z * option opendir_t * notmuch_context_t) :=
  r <- (if strcmp_eq path (lit "/") then
          (* Listing '/', so show the backing directory. *)
          if (PATH_MAX - 1 <? length (backing_dir cfg))%nat then fail Undef
          else
            let trans_name := firstn (PATH_MAX - 1) (backing_dir cfg) in
            ret (0, mk_opendir OPENDIR_TYPE_BACKING_DIR []
                               (os_opendir os trans_name) 0, p_ctx)
        else
          match strrchr1 path "/"%char with
          | None =>
              (* Listing '/<query>', so return the 3 maildir dirs. *)
              ret (0, mk_opendir OPENDIR_TYPE_MAIL_DIR [] None 0, p_ctx)
          | Some last_slash =>
              let name := skipn (S last_slash) path in
              if strcmp_eq name (lit "new") || strcmp_eq name (lit "tmp")
              then ret (0, mk_opendir OPENDIR_TYPE_EMPTY_DIR [] None 0, p_ctx)
              else if strcmp_eq name (lit "cur")
              then opendir_query fuel p_ctx path last_slash
              else ret (- ENOENT,
                        mk_opendir OPENDIR_TYPE_EMPTY_DIR [] None 0, p_ctx)
          end) ;;
  let '(res, dir_fd, p_ctx) := r in
  if res =? 0 then ret (res, Some dir_fd, p_ctx)
  else ret (res, None, p_ctx).

(* ===================================================================== *)
(** ** fill_dir_with_message, notmuchfs_readdir *)
(* ===================================================================== *)

(** One call of the filler, recorded. *)
Definition fill (buf : dirbuf) (name : cstr) (st : option stat_t)
  (off : Z) : io (dirbuf * bool) :=
  let '(buf, full) := filler buf name st off in
  emit (EvFill name st off full) ;;; ret (buf, full).

(** [fill_dir_with_message]: [res], [dir_fd->next_offset] and the buffer
    afterwards. *)
Definition fill_dir_with_message (next_offset : Z) (p_message : message)
  (buf : dirbuf) : io (Z * Z * dirbuf) :=
  match msg_filename p_message with
  | Some fname =>
      match os_stat os fname with
      | inr stbuf =>
          let trans_name := encode_name fname in
          (* Perpetuate the file size inflation lie told in getattr(). *)
          let stbuf := inflate stbuf in
          r <- fill buf trans_name (Some stbuf) next_offset ;;
          let '(buf, full) := r in
          let next_offset := next_offset + 1 in
          if full then ret (INT_MAX, next_offset - 1, buf)
          else ret (0, next_offset, buf)
      | inl errno =>
          if errno =? ENOENT then
            (* If a message is gone, don't stop the whole readdir(). *)
            emit (EvStderr "WARNING: Skipping missing file %s.\n"
                           [fname]) ;;;
            ret (0, next_offset, buf)
          else
            emit (EvStderr "ERROR: notmuch message stat error %s %s.\n"
                           [fname]) ;;;
            ret (- errno, next_offset, buf)
      end
  | None => ret (0, next_offset, buf)
  end.

(** The message loop of [notmuchfs_readdir], entered with [res == 0]:
    [res], the iterator, [next_offset] and the buffer when it ends. *)
Fixpoint readdir_messages (msgs : list message) (next_offset : Z)
  (buf : dirbuf) : io (Z * list message * Z * dirbuf) :=
  match msgs with
  | [] => ret (0, [], next_offset, buf)
  | p_message :: rest =>
      r <- fill_dir_with_message next_offset p_message buf ;;
      let '(res, next_offset, buf) := r in
      if res =? INT_MAX then ret (0, msgs, next_offset, buf)
      else if res =? 0 then readdir_messages rest next_offset buf
      else ret (res, rest, next_offset, buf)
  end.

(** The entries of a backing directory, until the filler is full. *)
Fixpoint readdir_backing (des : list dirent) (buf : dirbuf) : io dirbuf :=
  match des with
  | [] => ret buf
  | de :: des' =>
      let st := mk_stat (d_ino de) (Z.shiftl (d_type de) 12) 0 in
      r <- fill buf (d_name de) (Some st) (d_tell de) ;;
      let '(buf, full) := r in
      if full then ret buf else readdir_backing des' buf
  end.

Fixpoint fill_names (names : list cstr) (buf : dirbuf) : io dirbuf :=
  match names with
  | [] => ret buf
  | name :: names' =>
      r <- fill buf name None 0 ;; fill_names names' (fst r)
  end.

(** [notmuchfs_readdir]: [res], the handle and the buffer afterwards. *)
Definition notmuchfs_readdir (dir_fd : opendir_t) (buf : dirbuf)
  (offset_in : Z) : io (Z * opendir_t * dirbuf) :=
  match type dir_fd with
  | OPENDIR_TYPE_NOTMUCH_QUERY =>
      let continue next_offset buf :=
        r <- readdir_messages (p_messages dir_fd) next_offset buf ;;
        let '(res, msgs, next_offset, buf) := r in
        ret (res, mk_opendir (type dir_fd) msgs (fd dir_fd) next_offset, buf)
      in
      if offset_in =? 0 then
        r1 <- fill buf (lit ".") None (next_offset dir_fd) ;;
        r2 <- fill (fst r1) (lit "..") None (next_offset dir_fd + 1) ;;
        continue (next_offset dir_fd + 2) (fst r2)
      else if negb (offset_in + 1 =? next_offset dir_fd) then
        emit (EvStderr "ERROR: discontiguous dir offsets %ld %ld.\n" []) ;;;
        ret (- EDOM, dir_fd, buf)
      else continue (next_offset dir_fd) buf
  | OPENDIR_TYPE_BACKING_DIR =>
      match fd dir_fd with
      | None => fail Undef
      | Some stream =>
          buf <- readdir_backing (stream offset_in) buf ;;
          ret (0, dir_fd, buf)
      end
  | OPENDIR_TYPE_EMPTY_DIR =>
      buf <- fill_names [lit "."; lit ".."] buf ;;
      ret (0, dir_fd, buf)
  | OPENDIR_TYPE_MAIL_DIR =>
      buf <- fill_names [lit "."; lit ".."; lit "cur"; lit "new"; lit "tmp"]
                        buf ;;
      ret (0, dir_fd, buf)
  end.

End Directories.

(* ===================================================================== *)
(** ** notmuchfs_rename *)
(* ===================================================================== *)

Section Rename.

Variable os : OS.
Variable nm : Notmuch.
Variable cfg : notmuchfs_config.
Variable NOTMUCHFS_DEBUG : bool.

Local Open Scope io_scope.

Local Abbreviation TRACE := (LOG_TRACE NOTMUCHFS_DEBUG).

(** The workaround test of [notmuchfs_rename], reached when the bytes
    before the last '#' differ and the workaround is allowed: the value of
    [mutt_2476_workaround] (0, 1 or 2).  A missing '/' makes the test
    compute with a null pointer, and one nearer than three bytes to the
    start of [to] makes it read before the string. *)
Definition mutt_2476_case (from to : cstr)
  (last_slash_from last_slash_to : option nat) : io Z :=
  match last_slash_from with
  | None => fail Undef
  | Some lsf =>
      if (3 <=? lsf)%nat && memcmp_eq from 0 to (lsf - 3) then
        let parent_to (name : cstr) (k : Z) : io Z :=
          match last_slash_to with
          | None => fail Undef
          | Some lst =>
              if (lst <? 3)%nat then fail Undef
              else if memcmp_eq to (lst - 3) name 3 then ret k else ret 0
          end in
        w <- (if memcmp_eq from (lsf - 3) (lit "cur") 3
              then parent_to (lit "new") 1   (* Case 1. *)
              else if memcmp_eq from (lsf - 3) (lit "new") 3
              then parent_to (lit "cur") 2   (* Case 2. *)
              else ret 0) ;;
        (if negb (w =? 0)
         then TRACE "Activating mutt_bug_2476 workaround for rename(%s, %s)\n"
                    [from; to]
         else ret tt) ;;;
        ret w
      else ret 0
  end.

(** The validation cascade: [inl res] when the rename ends there (pass
    through or rejection), [inr w] with the value of
    [mutt_2476_workaround] when it goes on. *)
Definition rename_validate (from to : cstr)
  (last_slash_from last_slash_to : option nat) : io (Z + Z) :=
  match strrchr1 from "#"%char, strrchr1 to "#"%char with
  | None, None =>
      (* Renaming from a non-maildir name to another non-maildir name. *)
      TRACE "rename(%s, %s)\n" [skipn 1 from; skipn 1 to] ;;;
      emit (EvRename (skipn 1 from) (skipn 1 to)) ;;;
      match os_rename os (skipn 1 from) (skipn 1 to) with
      | None => ret (inl 0)
      | Some errno => ret (inl (- errno))
      end
  | None, Some _ | Some _, None =>
      TRACE "ERROR: Rename die 1\n" [] ;;;
      ret (inl (- ENOTSUP))
  | Some last_pslash_from, Some last_pslash_to =>
      if negb (last_pslash_from =? last_pslash_to)%nat then
        (* Renaming from one maildir name to another, in different paths. *)
        TRACE "ERROR: Rename die 2\n" [] ;;;
        ret (inl (- ENOTSUP))
      else if negb (strncmp_eq from to last_pslash_from) then
        w <- (if mutt_2476_workaround_allowed cfg
              then mutt_2476_case from to last_slash_from last_slash_to
              else ret 0) ;;
        if w =? 0 then
          emit (EvStderr "ERROR: Rename die 3 %s %s %ld\n" [from; to]) ;;;
          ret (inl (- ENOTSUP))
        else ret (inr w)
      else ret (inr 0)
  end.

(** The exchange of file names in the index: add [trans_name_to], and
    remove [trans_name_from] when the add reports a duplicate message
    id. *)
Definition rename_swap (trans_name_from trans_name_to : cstr) : io unit :=
  TRACE "notmuch_database_add_message(%s)\n" [trans_name_to] ;;;
  emit (EvAddMessage trans_name_to) ;;;
  if negb (status_eqb (nm_add_message nm trans_name_to)
                      NOTMUCH_STATUS_DUPLICATE_MESSAGE_ID)
  then TRACE "WARNING: Did not find message in database: %s\n"
             [trans_name_to]
  else
    TRACE "notmuch_database_remove_message(%s)\n" [trans_name_from] ;;;
    emit (EvRemoveMessage trans_name_from) ;;;
    if negb (status_eqb (nm_remove_message nm trans_name_from)
                        NOTMUCH_STATUS_DUPLICATE_MESSAGE_ID)
    then TRACE "WARNING: Did not find old message in database: %s\n"
               [trans_name_from]
    else ret tt.

(** The second lookup of the message, to sync the maildir flags. *)
Definition rename_sync (trans_name_to : cstr) (mutt_2476_workaround : Z)
  : io unit :=
  TRACE "rename notmuch lookup by name: %s\n" [trans_name_to] ;;;
  emit (EvFindMessage trans_name_to) ;;;
  match nm_find_message_by_filename nm trans_name_to with
  | (NOTMUCH_STATUS_SUCCESS, p_message) =>
      match p_message with
      | None => fail Abort  (* assert(p_message != NULL) *)
      | Some _ =>
          TRACE "notmuch_message_maildir_flags_to_tags(%s)\n"
                [trans_name_to] ;;;
          emit (EvFlagsToTags trans_name_to) ;;;
          if mutt_2476_workaround_allowed cfg
             && (mutt_2476_workaround =? 1)
          then
            TRACE "notmuch_message_add_tag(%s, unread)\n"
                  [trans_name_to] ;;;
            emit (EvAddTag trans_name_to (lit "unread"))
          else ret tt
      end
  | (_, _) => ret tt
  end.

(** The index part of [notmuchfs_rename], between [database_open] and
    [database_close]: the value of [res]. *)
Definition rename_index (trans_name_from trans_name_to : cstr)
  (mutt_2476_workaround : Z) : io Z :=
  emit EvBeginAtomic ;;;
  if negb (status_eqb (nm_begin_atomic nm) NOTMUCH_STATUS_SUCCESS)
  then ret (- EIO)
  else
    (* If renaming from/to the same name, skip this - it gets confused. *)
    (if negb (strncmp_eq trans_name_from trans_name_to PATH_MAX)
     then rename_swap trans_name_from trans_name_to
     else ret tt) ;;;
    (* Lookup the message again here to sync the maildir flags. *)
    rename_sync trans_name_to mutt_2476_workaround ;;;
    emit EvEndAtomic ;;;
    if negb (status_eqb (nm_end_atomic nm) NOTMUCH_STATUS_SUCCESS)
    then ret (- EIO)
    else ret 0.

Definition notmuchfs_rename (from to : cstr) : io Z :=
  let last_slash_from := strrchr1 from "/"%char in
  let last_slash_to := strrchr1 to "/"%char in
  v <- rename_validate from to last_slash_from last_slash_to ;;
  match v with
  | inl res => ret res
  | inr mutt_2476_workaround =>
      match last_slash_from, last_slash_to with
      | Some lsf, Some lst =>
          let trans_name_from := trans_name_of from lsf in
          let trans_name_to := trans_name_of to lst in
          TRACE "rename(%s, %s)\n" [trans_name_from; trans_name_to] ;;;
          emit (EvRename trans_name_from trans_name_to) ;;;
          match os_rename os trans_name_from trans_name_to with
          | Some errno => ret (- errno)
          | None =>
              (* Rename it in the notmuch database too. *)
              database_open nm NOTMUCHFS_DEBUG true ;;;
              res <- rename_index trans_name_from trans_name_to
                                  mutt_2476_workaround ;;
              database_close NOTMUCHFS_DEBUG ;;;
              ret res
          end
      | _, _ => fail Undef
      end
  end.

End Rename.

(** An event that touches the backing store or the index. *)
Definition touches_store (e : event) : bool :=
  match e with
  | EvStderr _ _ | EvTrace _ _ | EvSleep | EvFill _ _ _ _ => false
  | _ => true
  end.

(** The name codec of the specification. *)
Definition encode (p : cstr) : cstr := string_replace p "/"%char "#"%char.
Definition decode (t : cstr) : cstr := string_replace t "#"%char "/"%char.

(** The virtual file [/Q/cur/encode(B)]. *)
Definition virtual_path (Q B : cstr) : cstr :=
  "/"%char :: Q ++ lit "/cur/" ++ encode B.

(** The last segment of a path: the bytes after its last '/'. *)
Definition last_segment (path : cstr) : cstr :=
  match strrchr1 path "/"%char with
  | Some last_slash => skipn (S last_slash) path
  | None => skipn 1 path
  end.

(** What [pread] on the backing descriptor gives a caller: the returned
    [int] and the bytes. *)
Definition backing_read (os : OS) (fd : Z) (size offset : Z)
  : Z * list ascii :=
  match os_pread os fd size offset with
  | inl errno => (- errno, [])
  | inr data => (to_int (strlen data), data)
  end.

(** The tags that a trace registers with [notmuch_query_add_tag_exclude]. *)
Fixpoint registered_tags (t : list event) : list cstr :=
  match t with
  | [] => []
  | EvAddTagExclude tag :: t' => tag :: registered_tags t'
  | _ :: t' => registered_tags t'
  end.

(* ===================================================================== *)
(** ** A small mail store, for the concrete checks *)
(* ===================================================================== *)

Definition mail_a : cstr := lit "/m/a/cur/1:2,".
Definition mail_b : cstr := lit "/m/b/cur/2:2,S".

(** "From: x\n\nhi\n", the twelve bytes of the first message. *)
Definition mail_a_content : list ascii :=
  lit "From: x" ++ [LF; LF] ++ lit "hi" ++ [LF].

Definition reg_stat (ino size : Z) : stat_t := mk_stat ino 33188 size.
Definition lnk_stat (ino : Z) : stat_t := mk_stat ino 41471 9.

(** A backing directory with the symbolic link [inbox -> tag:inbox], a
    plain file [dir/file], and the two mail files. *)
Definition ex_os : OS :=
  mk_OS
    (fun p => if cstr_eqb p mail_a then inr (reg_stat 7 12)
              else if cstr_eqb p mail_b then inr (reg_stat 8 40)
              else if cstr_eqb p (lit "dir/file") then inr (reg_stat 9 5)
              else inl ENOENT)
    (fun p => if cstr_eqb p mail_a then inr (reg_stat 7 12)
              else if cstr_eqb p mail_b then inr (reg_stat 8 40)
              else if cstr_eqb p (lit "dir/file") then inr (reg_stat 9 5)
              else if cstr_eqb p (lit "inbox") then inr (lnk_stat 10)
              else inl ENOENT)
    (fun p => if cstr_eqb p (lit "inbox") then inr (lit "tag:inbox")
              else inl 22)
    (fun p => if cstr_eqb p mail_a then inr 3 else inl ENOENT)
    (fun fd size offset =>
       if fd =? 3
       then inr (firstn (Z.to_nat size)
                        (skipn (Z.to_nat offset) mail_a_content))
       else inl 9)
    (fun _ _ => None)
    (fun _ => None).

Definition msg_a : message :=
  mk_message (Some mail_a) [lit "inbox"; lit "unread"].
Definition msg_b : message := mk_message (Some mail_b) [lit "inbox"].

(** An index that knows both messages; [found] tells whether the lookup
    by file name finds them and [added] is the answer to every
    [notmuch_database_add_message]. *)
Definition ex_nm (found : bool) (added : notmuch_status) : Notmuch :=
  mk_Notmuch
    [NOTMUCH_STATUS_SUCCESS] false
    (fun _ => true)
    (fun _ _ => (NOTMUCH_STATUS_SUCCESS, [msg_a; msg_b]))
    (fun p => (NOTMUCH_STATUS_SUCCESS,
               if found then
                 if cstr_eqb p mail_b then Some msg_b else Some msg_a
               else None))
    NOTMUCH_STATUS_SUCCESS NOTMUCH_STATUS_SUCCESS
    (fun _ => added)
    (fun _ => NOTMUCH_STATUS_SUCCESS)
    (fun _ _ => NOTMUCH_STATUS_SUCCESS).

Definition ex_cfg (workaround : bool) : notmuchfs_config :=
  mk_config (lit "/backing") (lit "/m") workaround.

(** Six tags whose comma-joined list is exactly 1014 bytes long. *)
Definition boundary_tags : list cstr :=
  [repeat "a"%char 200; repeat "b"%char 200; repeat "c"%char 200;
   repeat "d"%char 200; repeat "e"%char 200; repeat "f"%char 9].

(** The output of [notmuch config get search.exclude_tags] with two
    excluded tags. *)
Definition two_excluded : list ascii :=
  lit "deleted" ++ [LF] ++ lit "spam" ++ [LF].

(** The tag region of the header that [notmuchfs_open] composes. *)
Definition tag_region (m : message) : cstr :=
  if strlen (join_tags (msg_tags m)) <? TAG_BUDGET
  then join_tags (msg_tags m)
  else TAG_ERROR_STRING.

(** A path below [/<q>/cur/]: the first directory under the query is
    [cur]. *)
Definition below_cur (path : cstr) : Prop :=
  exists q rest,
    path = "/"%char :: q ++ lit "/cur/" ++ rest /\ ~ In "/"%char q.

(** A path whose last '/' is preceded by the three bytes [new]. *)
Definition parent_ends_new (path : cstr) : Prop :=
  exists p name,
    path = p ++ lit "new/" ++ name /\ ~ In "/"%char name.

(** A test for [below_cur]. *)
Definition below_cur_b (path : cstr) : bool :=
  match strchr (skipn 1 path) "/"%char with
  | Some j => strncmp_eq (skipn (S j) path) (lit "/cur/") 5
  | None => false
  end.

(** The calls on the index that a trace holds between the begin and the
    end of the atomic section, and what a trace writes out. *)
Definition is_index_call (e : event) : bool :=
  match e with
  | EvAddMessage _ | EvRemoveMessage _ | EvFindMessage _
  | EvFlagsToTags _ | EvAddTag _ _ => true
  | _ => false
  end.

Definition is_output (e : event) : bool :=
  match e with
  | EvStderr _ _ | EvTrace _ _ => true
  | _ => false
  end.

Definition index_calls (t : list event) : list event :=
  filter is_index_call t.

Definition outputs (t : list event) : list event := filter is_output t.

Definition is_index_write (e : event) : bool :=
  match e with
  | EvAddMessage _ | EvRemoveMessage _ => true
  | _ => false
  end.

(** The additions to and removals from the index that a trace holds. *)
Definition index_writes (t : list event) : list event :=
  filter is_index_write t.

(* ===================================================================== *)
(** ** Vocabulary for a sequence of readdir calls *)
(* ===================================================================== *)

(** The filler calls of a trace: name, [stat] pointer (NULL for '.' and
    '..'), offset, and whether the filler reported a full buffer. *)
Fixpoint fills (t : list event) : list (cstr * option stat_t * Z * bool) :=
  match t with
  | [] => []
  | EvFill name st off full :: t' => (name, st, off, full) :: fills t'
  | _ :: t' => fills t'
  end.

(** The offset discipline of a listing that starts at offset [k].  Every
    entry is emitted at the next offset; '.' and '..' use up theirs, a
    message entry uses up its offset unless it did not fit, and then the
    next entry emitted is the same name ([pending]) at the same offset. *)
Fixpoint offsets_ok (k : Z) (pending : option cstr)
  (log : list (cstr * option stat_t * Z * bool)) : Prop :=
  match log with
  | [] => True
  | (name, st, off, full) :: rest =>
      off = k
      /\ match pending with Some nm => name = nm | None => True end
      /\ match st with
         | None => offsets_ok (k + 1) None rest
         | Some _ =>
             if full then offsets_ok k (Some name) rest
             else offsets_ok (k + 1) None rest
         end
  end.

(** The offsets of the entries that went into a buffer for good. *)
Fixpoint taken_offsets (log : list (cstr * option stat_t * Z * bool))
  : list Z :=
  match log with
  | [] => []
  | (_, st, off, full) :: rest =>
      match st with
      | Some _ => if full then taken_offsets rest
                  else off :: taken_offsets rest
      | None => off :: taken_offsets rest
      end
  end.

(** [k, k + 1, ..., k + n - 1]. *)
Fixpoint count_from (k : Z) (n : nat) : list Z :=
  match n with
  | O => []
  | S n' => k :: count_from (k + 1) n'
  end.

Section ReaddirSequence.

Variable os : OS.
Variable dirbuf : Type.
Variable filler : dirbuf -> cstr -> option stat_t -> Z -> dirbuf * bool.

(** The calls of readdir on one open directory, each with its offset and
    its buffer: the trace of them all. *)
Fixpoint readdir_seq (dir_fd : opendir_t) (calls : list (Z * dirbuf))
  : list event :=
  match calls with
  | [] => []
  | (offset_in, buf) :: calls' =>
      match notmuchfs_readdir os dirbuf filler dir_fd buf offset_in with
      | (t, Ret (_, dir_fd', _)) => t ++ readdir_seq dir_fd' calls'
      | (t, _) => t
      end
  end.

End ReaddirSequence.

(** A filler that takes [room] entries, for the concrete checks: the
    buffer is the list of the entries taken. *)
Definition counting_filler (room : nat) (buf : list (cstr * Z))
  (name : cstr) (st : option stat_t) (off : Z) : list (cstr * Z) * bool :=
  if (length buf <? room)%nat then (buf ++ [(name, off)], false)
  else (buf, true).

(** Where a log leaves the listing: the next offset and the entry that
    is still to be emitted again. *)
Fixpoint log_end (k : Z) (pending : option cstr)
  (log : list (cstr * option stat_t * Z * bool)) : Z * option cstr :=
  match log with
  | [] => (k, pending)
  | (name, st, _, full) :: rest =>
      match st with
      | None => log_end (k + 1) None rest
      | Some _ =>
          if full then log_end k (Some name) rest
          else log_end (k + 1) None rest
      end
  end.

(** The entry that did not fit is the one the iterator still stands on. *)
Definition pending_ok (os : OS) (msgs : list message)
  (pending : option cstr) : Prop :=
  match pending with
  | None => True
  | Some nm =>
      exists m rest f st,
        msgs = m :: rest /\ msg_filename m = Some f
        /\ os_stat os f = inr st /\ encode_name f = nm
  end.

(* ===================================================================== *)
(** ** notmuchfs_releasedir and the pass-through operations *)
(* ===================================================================== *)


(** The system calls of the pass-through operations; each answers with
    the errno of a failure. *)
Record OSdir := mk_OSdir {
  os_mkdir : cstr -> Z -> option Z;
  os_rmdir : cstr -> option Z;
  os_unlink : cstr -> option Z;
  os_symlink : cstr -> cstr -> option Z
}.

(** [if (call(...) == -1) return -errno; return 0;] *)
Definition res_of (r : option Z) : Z :=
  match r with
  | Some errno => - errno
  | None => 0
  end.

(** [notmuchfs_mkdir], [notmuchfs_rmdir]: [assert(path[0] == '/')], then
    the call on [path + 1]. *)
Definition notmuchfs_mkdir (osd : OSdir) (path : cstr) (mode : Z)
  : outcome Z :=
  match path with
  | "/"%char :: rel => Ret (res_of (os_mkdir osd rel mode))
  | _ => Abort
  end.

Definition notmuchfs_rmdir (osd : OSdir) (path : cstr) : outcome Z :=
  match path with
  | "/"%char :: rel => Ret (res_of (os_rmdir osd rel))
  | _ => Abort
  end.

(** [notmuchfs_unlink].  The block that would remove the message from
    the index is compiled out ([#if 0]).  A name with '#' and no '/'
    after the first byte makes [last_slash] NULL. *)
Definition notmuchfs_unlink (osd : OSdir) (path : cstr) : outcome Z :=
  match path with
  | "/"%char :: path =>
      match strrchr path "#"%char with
      | Some _ =>
          match strrchr path "/"%char with
          | Some last_slash =>
              Ret (res_of (os_unlink osd (trans_name_of path last_slash)))
          | None => Undef
          end
      | None => Ret (res_of (os_unlink osd path))
      end
  | _ => Abort
  end.

Definition notmuchfs_symlink (osd : OSdir) (to from : cstr) : outcome Z :=
  match from with
  | "/"%char :: rel => Ret (res_of (os_symlink osd to rel))
  | _ => Abort
  end.

(** [notmuchfs_readlink] into a buffer of [size] bytes: [res] and the
    string left in [buf].  [readlink(2)] fills at most [size] bytes and
    [buf[res] = '\0'] then writes one byte past a buffer it filled. *)
Definition notmuchfs_readlink (os : OS) (path : cstr) (size : nat)
  : outcome (Z * cstr) :=
  match path with
  | "/"%char :: rel =>
      match os_readlink os rel with
      | inr target =>
          let got := firstn size target in
          if (length got =? size)%nat then Undef else Ret (0, got)
      | inl errno => Ret (- errno, [])
      end
  | _ => Abort
  end.

(* ===================================================================== *)
(** ** Further vocabulary *)
(* ===================================================================== *)

(** Strings joined by a separator byte. *)
Fixpoint join_with (sep : ascii) (l : list cstr) : list ascii :=
  match l with
  | [] => []
  | t :: rest =>
      match rest with
      | [] => t
      | _ :: _ => t ++ sep :: join_with sep rest
      end
  end.

(** A tag as the configuration prints it: not empty, without NUL and
    without newline. *)
Definition tag_wf (t : cstr) : Prop :=
  t <> [] /\ ~ In NUL t /\ ~ In LF t.

(** The events of an index session. *)
Definition is_session_event (e : event) : bool :=
  match e with
  | EvDatabaseOpen _ | EvDatabaseClose | EvQueryCreate _
  | EvAddTagExclude _ | EvSetOmitExcluded | EvSearchMessages
  | EvQueryDestroy | EvFindMessage _ | EvBeginAtomic | EvEndAtomic
  | EvAddMessage _ | EvRemoveMessage _ | EvFlagsToTags _ | EvAddTag _ _ =>
      true
  | _ => false
  end.

Definition is_close (e : event) : bool :=
  match e with
  | EvDatabaseClose => true
  | _ => false
  end.

(** How often a trace closes the index. *)
Definition closes (t : list event) : nat := length (filter is_close t).

(** A chain of symbolic links in the backing store: every name but the
    last is a link to the next, the last is no link. *)
Fixpoint link_chain (os : OS) (name : cstr) (rest : list cstr) : Prop :=
  match rest with
  | [] =>
      match os_lstat os name with
      | inr st => S_ISLNK (st_mode st) = false
      | inl _ => True
      end
  | next :: rest' =>
      (exists st, os_lstat os name = inr st /\ S_ISLNK (st_mode st) = true)
      /\ os_readlink os name = inr next
      /\ (length next < PATH_MAX)%nat
      /\ link_chain os next rest'
  end.

(** A filler that takes every entry into a list. *)
Definition roomy_filler (buf : list (cstr * option stat_t * Z))
  (name : cstr) (st : option stat_t) (off : Z)
  : list (cstr * option stat_t * Z) * bool :=
  (buf ++ [(name, st, off)], false).

(** The entries that a listing of [msgs] owes from offset [k] on, when
    the file of a message is either there or missing. *)
Fixpoint listing (os : OS) (k : Z) (msgs : list message)
  : list (cstr * option stat_t * Z) :=
  match msgs with
  | [] => []
  | m :: rest =>
      match msg_filename m with
      | Some f =>
          match os_stat os f with
          | inr st => (encode f, Some (inflate st), k)
                      :: listing os (k + 1) rest
          | inl _ => listing os k rest
          end
      | None => listing os k rest
      end
  end.

Definition is_sleep (e : event) : bool :=
  match e with
  | EvSleep => true
  | _ => false
  end.

Definition is_attempt (e : event) : bool :=
  match e with
  | EvDatabaseOpen _ => true
  | _ => false
  end.

(** An index that is locked for the first two attempts to open it. *)
Definition ex_nm_contended : Notmuch :=
  mk_Notmuch
    [NOTMUCH_STATUS_XAPIAN_EXCEPTION; NOTMUCH_STATUS_XAPIAN_EXCEPTION;
     NOTMUCH_STATUS_SUCCESS]
    false (fun _ => true)
    (fun _ _ => (NOTMUCH_STATUS_SUCCESS, []))
    (fun _ => (NOTMUCH_STATUS_SUCCESS, None))
    NOTMUCH_STATUS_SUCCESS NOTMUCH_STATUS_SUCCESS
    (fun _ => NOTMUCH_STATUS_SUCCESS)
    (fun _ => NOTMUCH_STATUS_SUCCESS)
    (fun _ _ => NOTMUCH_STATUS_SUCCESS).

Definition is_query_create (e : event) : bool :=
  match e with
  | EvQueryCreate _ => true
  | _ => false
  end.

(** The events that [database_open] can leave in a trace. *)
Definition is_open_step (e : event) : bool :=
  match e with
  | EvDatabaseOpen _ | EvSleep | EvStderr _ _ | EvTrace _ _ => true
  | _ => false
  end.

(** A backing store where reading the link [inbox] fails. *)
Definition ex_os_broken_link : OS :=
  mk_OS (os_stat ex_os) (os_lstat ex_os) (fun _ => inl EIO)
        (os_open_rdonly ex_os) (os_pread ex_os) (os_rename ex_os)
        (os_opendir ex_os).

(** The tags that a trace adds to messages, with the file name of each
    message. *)
Fixpoint added_tags (t : list event) : list (cstr * cstr) :=
  match t with
  | [] => []
  | EvAddTag fname tag :: t' => (fname, tag) :: added_tags t'
  | _ :: t' => added_tags t'
  end.

(** The events of a trace that belong to a session with the index. *)
Definition session_events (t : list event) : list event :=
  filter is_session_event t.


(* ===================================================================== *)
(** ** Proofs *)
(* ===================================================================== *)

(** *** Byte arrays *)

Lemma memcpy_at_length (buf : list ascii) pos src :
  (pos + length src <= length buf)%nat ->
  length (memcpy_at buf pos src) = length buf.
Proof.
  intros H. unfold memcpy_at.
  rewrite !length_app, length_firstn, length_skipn. lia.
Qed.

Lemma memcpy_at_nil (buf : list ascii) pos : memcpy_at buf pos [] = buf.
Proof.
  unfold memcpy_at. cbn [app length]. rewrite Nat.add_0_r.
  apply firstn_skipn.
Qed.

Lemma memcpy_at_app (pre old post src : list ascii) :
  length old = length src ->
  memcpy_at (pre ++ old ++ post) (length pre) src = pre ++ src ++ post.
Proof.
  intros H. unfold memcpy_at.
  rewrite firstn_app, firstn_all, Nat.sub_diag, firstn_O, app_nil_r.
  rewrite skipn_app, skipn_all2 by lia. cbn [app].
  replace (length pre + length src - length pre)%nat with (length old) by lia.
  rewrite skipn_app, skipn_all, Nat.sub_diag. reflexivity.
Qed.

(** Every array splits around a window that lies inside it. *)
Lemma split_window (buf : list ascii) pos n :
  (pos + n <= length buf)%nat ->
  exists pre old post,
    buf = pre ++ old ++ post /\ length pre = pos /\ length old = n.
Proof.
  intros H.
  exists (firstn pos buf), (firstn n (skipn pos buf)),
         (skipn n (skipn pos buf)).
  rewrite !firstn_skipn. repeat split.
  - rewrite length_firstn. lia.
  - rewrite length_firstn, length_skipn. lia.
Qed.

Lemma memcpy_at_join (buf : list ascii) pos a b :
  (pos + length a + length b <= length buf)%nat ->
  memcpy_at (memcpy_at buf pos a) (pos + length a) b
  = memcpy_at buf pos (a ++ b).
Proof.
  intros H.
  destruct (split_window buf pos (length a + length b)) as
    (pre & old & post & -> & Hpre & Hold); [lia|].
  destruct (split_window old 0 (length a)) as
    (e & oa & ob & -> & He & Hoa); [lia|].
  destruct e; [|discriminate]. cbn [app] in *.
  rewrite length_app in Hold. subst pos.
  rewrite <- (app_assoc oa ob post).
  rewrite (memcpy_at_app pre oa (ob ++ post) a) by lia.
  replace (length pre + length a)%nat with (length (pre ++ a))
    by (rewrite length_app; lia).
  rewrite (app_assoc pre a (ob ++ post)).
  rewrite (memcpy_at_app (pre ++ a) ob post b) by lia.
  rewrite (app_assoc oa ob post).
  rewrite (memcpy_at_app pre (oa ++ ob) post (a ++ b))
    by (rewrite !length_app; lia).
  rewrite <- !app_assoc. reflexivity.
Qed.

Lemma memcpy_at_prefix (buf : list ascii) pos src k :
  (k <= pos)%nat -> (pos + length src <= length buf)%nat ->
  firstn k (memcpy_at buf pos src) = firstn k buf.
Proof.
  intros Hk H. unfold memcpy_at.
  rewrite firstn_app, length_firstn.
  replace (k - Nat.min pos (length buf))%nat with O by lia.
  rewrite firstn_O, app_nil_r, firstn_firstn.
  f_equal. lia.
Qed.

(** *** fill_string_with_tags *)

Lemma join_tags_cons2 t r rs :
  join_tags (t :: r :: rs) = t ++ ","%char :: join_tags (r :: rs).
Proof. reflexivity. Qed.

Lemma fill_tags_loop_cons mem base len n t rest :
  fill_tags_loop mem base len n (t :: rest)
  = if strlen t >=? len - Z.of_nat n then (true, mem, n)
    else match rest with
         | [] => fill_tags_loop (memcpy_at mem (base + n) t) base len
                                (n + length t) rest
         | _ :: _ =>
             if len - Z.of_nat (n + length t) <? 1
             then (true, memcpy_at mem (base + n) t, (n + length t)%nat)
             else fill_tags_loop
                    (store (memcpy_at mem (base + n) t)
                           (base + (n + length t)) ","%char)
                    base len (S (n + length t)) rest
         end.
Proof. reflexivity. Qed.

Lemma fill_tags_loop_fits tags : forall mem base len n,
  (base + Z.to_nat len <= length mem)%nat ->
  Z.of_nat n + strlen (join_tags tags) < len ->
  fill_tags_loop mem base len n tags
  = (false, memcpy_at mem (base + n) (join_tags tags),
     (n + length (join_tags tags))%nat).
Proof.
  induction tags as [|t rest IH]; intros mem base len n Hmem Hfit.
  - cbn [fill_tags_loop join_tags length].
    rewrite memcpy_at_nil, Nat.add_0_r. reflexivity.
  - destruct rest as [|r rs].
    + cbn [fill_tags_loop join_tags] in *.
      destruct (Z.geb_spec (strlen t) (len - Z.of_nat n)) as [Hge|_];
        [unfold strlen in *; lia|]. reflexivity.
    + rewrite join_tags_cons2 in *. unfold strlen in Hfit.
      rewrite length_app in Hfit. cbn [length] in Hfit.
      rewrite fill_tags_loop_cons.
      destruct (Z.geb_spec (strlen t) (len - Z.of_nat n)) as [Hge|_];
        [unfold strlen in *; lia|].
      destruct (Z.ltb_spec (len - Z.of_nat (n + length t)) 1) as [Hlt|_];
        [lia|].
      assert (Hl1 : length (memcpy_at mem (base + n) t) = length mem)
        by (apply memcpy_at_length; lia).
      assert (Hl2 : length (store (memcpy_at mem (base + n) t)
                                  (base + (n + length t)) ","%char)
                    = length mem).
      { unfold store. rewrite memcpy_at_length; cbn [length]; lia. }
      rewrite IH by (rewrite ?Hl2; unfold strlen; lia).
      unfold store.
      replace (base + S (n + length t))%nat
        with (base + (n + length t) + length [","%char])%nat
        by (cbn [length]; lia).
      rewrite memcpy_at_join by (rewrite Hl1; cbn [length]; lia).
      rewrite Nat.add_assoc.
      rewrite memcpy_at_join by (rewrite length_app; cbn [length]; lia).
      cbn [app]. f_equal. rewrite length_app. cbn [length]. lia.
Qed.

Lemma fill_tags_loop_overflow tags : forall mem base len n,
  (base + Z.to_nat len <= length mem)%nat ->
  tags <> [] ->
  len <= Z.of_nat n + strlen (join_tags tags) ->
  exists mem' n',
    fill_tags_loop mem base len n tags = (true, mem', n')
    /\ length mem' = length mem
    /\ firstn base mem' = firstn base mem.
Proof.
  induction tags as [|t rest IH]; intros mem base len n Hmem Hne Hover;
    [congruence|].
  rewrite fill_tags_loop_cons.
  destruct (Z.geb_spec (strlen t) (len - Z.of_nat n)) as [Hge|Hlt].
  - exists mem, n. auto.
  - destruct rest as [|r rs].
    + cbn [join_tags] in Hover. lia.
    + rewrite join_tags_cons2 in Hover. unfold strlen in *.
      rewrite length_app in Hover. cbn [length] in Hover.
      destruct (Z.ltb_spec (len - Z.of_nat (n + length t)) 1) as [Hl|_];
        [lia|].
      assert (Hlen1 : length (memcpy_at mem (base + n) t) = length mem)
        by (apply memcpy_at_length; lia).
      destruct (IH (store (memcpy_at mem (base + n) t)
                          (base + (n + length t)) ","%char)
                   base len (S (n + length t))) as (mem' & n' & -> & Hl' & Hp').
      * unfold store. rewrite memcpy_at_length; cbn [length]; lia.
      * discriminate.
      * lia.
      * exists mem', n'. split; [reflexivity|]. unfold store in *.
        rewrite memcpy_at_length in Hl' by (cbn [length]; lia).
        rewrite memcpy_at_prefix in Hp' by (cbn [length]; lia).
        rewrite memcpy_at_prefix in Hp' by lia.
        split; congruence.
Qed.

(** *** The header written by notmuchfs_open *)

Lemma pad_loop_spec k : forall mem pos,
  (pos + k <= length mem)%nat ->
  pad_loop k mem pos = memcpy_at mem pos (repeat SP k).
Proof.
  induction k as [|k IH]; intros mem pos H.
  - cbn [pad_loop repeat]. symmetry. apply memcpy_at_nil.
  - cbn [pad_loop repeat]. unfold store.
    rewrite IH by (rewrite memcpy_at_length; cbn [length]; lia).
    replace (S pos) with (pos + length [SP])%nat by (cbn [length]; lia).
    rewrite memcpy_at_join
      by (cbn [length]; rewrite repeat_length; lia).
    reflexivity.
Qed.

Lemma memcpy_at_whole (buf src : list ascii) :
  length src = length buf -> memcpy_at buf 0 src = src.
Proof.
  intros H. unfold memcpy_at. cbn [firstn app Nat.add].
  rewrite H, skipn_all. apply app_nil_r.
Qed.

Lemma x_label_layout (mem : list ascii) (region : cstr) :
  length mem = Z.to_nat MAX_XLABEL_LENGTH ->
  firstn (length XLABEL) mem = XLABEL ->
  strlen region <= TAG_BUDGET ->
  let buf := (length XLABEL + length region)%nat in
  let last := Z.to_nat (MAX_XLABEL_LENGTH - 1) in
  store (pad_loop (last - buf) (memcpy_at mem (length XLABEL) region) buf)
        last LF
  = header_with region.
Proof.
  intros Hlen Hpre Hfit buf last.
  assert (HX : length XLABEL = 9%nat) by reflexivity.
  assert (HB : Z.to_nat TAG_BUDGET = 1014%nat) by reflexivity.
  assert (HM : Z.to_nat MAX_XLABEL_LENGTH = 1024%nat) by reflexivity.
  assert (HL : last = 1023%nat) by reflexivity.
  assert (Hr : (length region <= 1014)%nat) by (unfold strlen in Hfit; lia).
  assert (Hmem : mem = memcpy_at mem 0 XLABEL).
  { unfold memcpy_at. cbn [firstn app Nat.add].
    rewrite <- (firstn_skipn (length XLABEL) mem) at 1.
    rewrite Hpre. reflexivity. }
  rewrite Hmem.
  replace (length XLABEL) with (0 + length XLABEL)%nat by lia.
  rewrite memcpy_at_join by lia.
  rewrite pad_loop_spec
    by (rewrite memcpy_at_length; rewrite ?length_app; subst buf; lia).
  subst buf.
  replace (length XLABEL + length region)%nat
    with (0 + length (XLABEL ++ region))%nat
    by (rewrite length_app; lia).
  rewrite memcpy_at_join by (rewrite length_app, repeat_length; lia).
  unfold store.
  replace last
    with (0 + length ((XLABEL ++ region)
                      ++ repeat SP (last - (0 + length (XLABEL ++ region)))))%nat
    at 2 by (rewrite !length_app, repeat_length; lia).
  rewrite memcpy_at_join
    by (rewrite !length_app, repeat_length; cbn [length]; lia).
  rewrite memcpy_at_whole
    by (rewrite !length_app, repeat_length; cbn [length]; lia).
  unfold header_with. rewrite <- !app_assoc.
  do 3 f_equal.
Qed.

Lemma compose_x_label_fits (x : list ascii) (m : message) :
  length x = Z.to_nat MAX_XLABEL_LENGTH ->
  strlen (join_tags (msg_tags m)) < TAG_BUDGET ->
  compose_x_label x m = header_with (join_tags (msg_tags m)).
Proof.
  intros Hlen Hfit. unfold compose_x_label, fill_string_with_tags.
  assert (HM : Z.to_nat MAX_XLABEL_LENGTH = 1024%nat) by reflexivity.
  assert (HX : length XLABEL = 9%nat) by reflexivity.
  assert (HB : Z.to_nat TAG_BUDGET = 1014%nat) by reflexivity.
  fold TAG_BUDGET.
  rewrite fill_tags_loop_fits
    by (rewrite ?memcpy_at_length; cbn [Z.of_nat]; lia).
  cbn [Nat.add].
  apply x_label_layout.
  - rewrite memcpy_at_length; lia.
  - unfold memcpy_at. cbn [firstn app Nat.add].
    rewrite firstn_app, firstn_all, Nat.sub_diag, firstn_O.
    apply app_nil_r.
  - lia.
Qed.

Lemma compose_x_label_overflow (x : list ascii) (m : message) :
  length x = Z.to_nat MAX_XLABEL_LENGTH ->
  TAG_BUDGET <= strlen (join_tags (msg_tags m)) ->
  compose_x_label x m = header_with TAG_ERROR_STRING.
Proof.
  intros Hlen Hover. unfold compose_x_label, fill_string_with_tags.
  assert (HM : Z.to_nat MAX_XLABEL_LENGTH = 1024%nat) by reflexivity.
  assert (HX : length XLABEL = 9%nat) by reflexivity.
  assert (HB : Z.to_nat TAG_BUDGET = 1014%nat) by reflexivity.
  fold TAG_BUDGET.
  assert (Hl0 : length (memcpy_at x 0 XLABEL) = length x)
    by (apply memcpy_at_length; lia).
  destruct (fill_tags_loop_overflow (msg_tags m) (memcpy_at x 0 XLABEL)
              (length XLABEL) TAG_BUDGET 0)
    as (mem' & n' & -> & Hl' & Hp').
  - lia.
  - intros E. rewrite E in Hover. cbn in Hover. lia.
  - cbn [Z.of_nat]. lia.
  - apply x_label_layout.
    + lia.
    + rewrite Hp'. unfold memcpy_at. cbn [firstn app Nat.add].
      rewrite firstn_app, firstn_all, Nat.sub_diag, firstn_O.
      apply app_nil_r.
    + cbn. lia.
Qed.

(** *** C strings *)

Lemma cstr_eqb_eq (a b : cstr) : cstr_eqb a b = true <-> a = b.
Proof.
  revert b. induction a as [|x a IH]; intros [|y b]; cbn [cstr_eqb];
    try (split; [discriminate|discriminate]); try tauto.
  rewrite andb_true_iff, Ascii.eqb_eq, IH.
  split; [intros [-> ->]; reflexivity|intros [= -> ->]; auto].
Qed.

Lemma cstr_eqb_refl (a : cstr) : cstr_eqb a a = true.
Proof. apply cstr_eqb_eq. reflexivity. Qed.

Lemma cstr_eqb_neq (a b : cstr) : a <> b -> cstr_eqb a b = false.
Proof.
  intros H. destruct (cstr_eqb a b) eqn:E; [|reflexivity].
  apply cstr_eqb_eq in E. contradiction.
Qed.

Lemma strchr_absent (s : cstr) c : ~ In c s -> strchr s c = None.
Proof.
  induction s as [|a s IH]; intros H; [reflexivity|].
  cbn [strchr]. destruct (Ascii.eqb_spec a c) as [->|_].
  - exfalso. apply H. left. reflexivity.
  - rewrite IH; [reflexivity|]. intros Hin. apply H. right. exact Hin.
Qed.

Lemma strchr_present (s : cstr) c : In c s -> exists i, strchr s c = Some i.
Proof.
  induction s as [|a s IH]; intros H; [destruct H|].
  cbn [strchr]. destruct (Ascii.eqb_spec a c) as [->|Hne]; [eauto|].
  destruct H as [H|H]; [contradiction|].
  destruct (IH H) as [i ->]. cbn [option_map]. eauto.
Qed.

Lemma strchr_first (a b : cstr) c :
  ~ In c a -> strchr (a ++ c :: b) c = Some (length a).
Proof.
  induction a as [|x a IH]; intros H; cbn [app strchr length].
  - rewrite Ascii.eqb_refl. reflexivity.
  - destruct (Ascii.eqb_spec x c) as [->|_].
    + exfalso. apply H. left. reflexivity.
    + rewrite IH; [reflexivity|]. intros Hin. apply H. right. exact Hin.
Qed.

Lemma strrchr_absent (s : cstr) c : ~ In c s -> strrchr s c = None.
Proof.
  induction s as [|a s IH]; intros H; [reflexivity|].
  cbn [strrchr]. rewrite IH by (intros Hin; apply H; right; exact Hin).
  destruct (Ascii.eqb_spec a c) as [->|_]; [|reflexivity].
  exfalso. apply H. left. reflexivity.
Qed.

Lemma strrchr_last (a b : cstr) c :
  ~ In c b -> strrchr (a ++ c :: b) c = Some (length a).
Proof.
  intros H. induction a as [|x a IH]; cbn [app strrchr length].
  - rewrite (strrchr_absent b c H), Ascii.eqb_refl. reflexivity.
  - rewrite IH. reflexivity.
Qed.

Lemma strrchr_none (s : cstr) c : strrchr s c = None -> ~ In c s.
Proof.
  induction s as [|x s IH]; intros H Hin; [destruct Hin|].
  cbn [strrchr] in H. destruct (strrchr s c); [discriminate|].
  destruct (Ascii.eqb_spec x c) as [->|Hne]; [discriminate|].
  destruct Hin as [Hx|Hin]; [contradiction|]. now apply IH.
Qed.

(** The converse: where [strrchr] points, the string splits. *)
Lemma strrchr_split (s : cstr) c i :
  strrchr s c = Some i ->
  exists a b, s = a ++ c :: b /\ length a = i /\ ~ In c b.
Proof.
  revert i. induction s as [|x s IH]; intros i H; [discriminate|].
  cbn [strrchr] in H. destruct (strrchr s c) as [j|] eqn:E.
  - injection H as <-. destruct (IH j eq_refl) as (a & b & -> & <- & Hb).
    exists (x :: a), b. auto.
  - destruct (Ascii.eqb_spec x c) as [->|_]; [|discriminate].
    injection H as <-. exists [], s. repeat split.
    now apply strrchr_none.
Qed.

Lemma string_replace_length (s : cstr) a b :
  length (string_replace s a b) = length s.
Proof. apply length_map. Qed.

Lemma string_replace_absent (s : cstr) a b :
  a <> b -> ~ In a (string_replace s a b).
Proof.
  intros Hab. unfold string_replace. rewrite in_map_iff.
  intros (x & Hx & _). destruct (Ascii.eqb_spec x a); congruence.
Qed.

Lemma decode_encode (p : cstr) : ~ In "#"%char p -> decode (encode p) = p.
Proof.
  unfold decode, encode, string_replace. intros H. rewrite map_map.
  rewrite <- (map_id p) at 2. apply map_ext_in. intros a Ha.
  destruct (Ascii.eqb_spec a "/"%char) as [->|Hs]; [reflexivity|].
  destruct (Ascii.eqb_spec a "#"%char) as [->|_]; [contradiction|reflexivity].
Qed.

Lemma strncpy_path_short (s : cstr) :
  (length s < PATH_MAX)%nat -> strncpy_path s = s.
Proof.
  intros H. unfold strncpy_path. apply firstn_all2.
  unfold PATH_MAX in *. lia.
Qed.

(* ===================================================================== *)
(** ** C9: the tag region at the budget *)
(* ===================================================================== *)

(** The two directions that hold for every message: a tag list longer
    than the budget gives [ERROR], one shorter than the budget gives the
    tags. *)
Lemma tag_region_beyond_budget (m : message) :
  TAG_BUDGET < strlen (join_tags (msg_tags m)) ->
  compose_x_label zero_x_label m = header_with TAG_ERROR_STRING.
Proof.
  intros H. apply compose_x_label_overflow; [apply repeat_length|lia].
Qed.

Lemma tag_region_below_budget (m : message) :
  strlen (join_tags (msg_tags m)) < TAG_BUDGET ->
  compose_x_label zero_x_label m = header_with (join_tags (msg_tags m)).
Proof.
  intros H. apply compose_x_label_fits; [apply repeat_length|exact H].
Qed.

(** C9 (defect).  A tag list of exactly [1024 - len("X-Label: ") - 1]
    = 1014 bytes fits within the budget, and 9 + 1014 + 1 bytes fill the
    header exactly, yet [fill_string_with_tags] tests
    [strlen(tag_str) >= length - (buf - buf_in)] and writes [ERROR]: the
    tag region of the header is the sentinel, not the tags. *)
Theorem C9_tag_list_of_budget_length_gives_ERROR :
  let m := mk_message (Some mail_a) boundary_tags in
  strlen (join_tags (msg_tags m)) = TAG_BUDGET
  /\ TAG_BUDGET = 1014
  /\ length (XLABEL ++ join_tags (msg_tags m) ++ [LF])
     = Z.to_nat MAX_XLABEL_LENGTH
  /\ compose_x_label zero_x_label m = header_with TAG_ERROR_STRING
  /\ compose_x_label zero_x_label m
     <> XLABEL ++ join_tags (msg_tags m) ++ [LF].
Proof.
  cbv zeta.
  split; [vm_compute; reflexivity|].
  split; [vm_compute; reflexivity|].
  split; [vm_compute; reflexivity|].
  split; [vm_compute; reflexivity|].
  vm_compute. discriminate.
Qed.

(* ===================================================================== *)
(** ** C7: the excluded tags across two opendirs *)
(* ===================================================================== *)

(** C7 (defect).  [notmuchfs_opendir] walks the captured buffer with
    [strtok], which overwrites every newline with NUL.  With the two
    excluded tags "deleted" and "spam" the first opendir of /inbox/cur
    registers both and leaves the buffer changed; the second opendir
    registers "deleted" only. *)
Theorem C7_second_opendir_registers_first_tag_only :
  exists ctx0 ctx1 ctx2 d1 d2 t1 t2,
    notmuchfs_init true true (Some two_excluded) = Some ctx0
    /\ excluded_tags ctx0 = lit "deleted" ++ [LF] ++ lit "spam" ++ [NUL]
    /\ notmuchfs_opendir ex_os (ex_nm true NOTMUCH_STATUS_SUCCESS)
         (ex_cfg false) NOTMUCHFS_DEBUG_default 2 ctx0 (lit "/inbox/cur")
       = (t1, Ret (0, Some d1, ctx1))
    /\ registered_tags t1 = [lit "deleted"; lit "spam"]
    /\ excluded_tags ctx1 = lit "deleted" ++ [NUL] ++ lit "spam" ++ [NUL]
    /\ excluded_tags ctx1 <> excluded_tags ctx0
    /\ notmuchfs_opendir ex_os (ex_nm true NOTMUCH_STATUS_SUCCESS)
         (ex_cfg false) NOTMUCHFS_DEBUG_default 2 ctx1 (lit "/inbox/cur")
       = (t2, Ret (0, Some d2, ctx2))
    /\ registered_tags t2 = [lit "deleted"].
Proof.
  do 7 eexists.
  split; [vm_compute; reflexivity|].
  split; [vm_compute; reflexivity|].
  split; [vm_compute; reflexivity|].
  split; [vm_compute; reflexivity|].
  split; [vm_compute; reflexivity|].
  split; [vm_compute; discriminate|].
  split; vm_compute; reflexivity.
Qed.

(** *** The effect monad *)

Lemma bind_Ret_inv {A B} (m : io A) (k : A -> io B) t b :
  bind m k = (t, Ret b) ->
  exists t1 a t2, m = (t1, Ret a) /\ k a = (t2, Ret b) /\ t = t1 ++ t2.
Proof.
  destruct m as [t1 [a| | | |]]; cbn [bind]; try discriminate.
  destruct (k a) as [t2 r] eqn:E. intros [= <- ->].
  exists t1, a, t2. auto.
Qed.

Lemma bind_Ret {A B} (k : A -> io B) t a :
  bind (t, Ret a) k = (t ++ fst (k a), snd (k a)).
Proof. cbn [bind]. destruct (k a). reflexivity. Qed.

Lemma LOG_TRACE_inv d fmt args t (u : unit) :
  LOG_TRACE d fmt args = (t, Ret u) ->
  t = if d then [EvTrace fmt args] else [].
Proof. destruct d; cbn; intros [= <-]; reflexivity. Qed.

Lemma LOG_TRACE_Ret d fmt args :
  LOG_TRACE d fmt args
  = ((if d then [EvTrace fmt args] else []), Ret tt).
Proof. destruct d; reflexivity. Qed.

(** Inversion of a run that returned. *)
Ltac inv_io :=
  repeat match goal with
  | H : bind _ _ = (_, Ret _) |- _ =>
      let t1 := fresh "t" in let a := fresh "a" in let t2 := fresh "t" in
      let H1 := fresh "Hm" in let H2 := fresh "Hk" in let E := fresh "Et" in
      apply bind_Ret_inv in H; destruct H as (t1 & a & t2 & H1 & H2 & E)
  | H : ret _ = (_, Ret _) |- _ => unfold ret in H; injection H as ? ?
  | H : emit _ = (_, Ret _) |- _ => unfold emit in H; injection H as ? ?
  | H : fail _ = (_, Ret _) |- _ => unfold fail in H; discriminate H
  | H : LOG_TRACE _ _ _ = (_, Ret _) |- _ => apply LOG_TRACE_inv in H
  end.

(** *** notmuchfs_open *)

Lemma firstn_repeat {A} (x : A) k n :
  (k <= n)%nat -> firstn k (repeat x n) = repeat x k.
Proof.
  revert n. induction k as [|k IH]; intros [|n] H; cbn; try lia; auto.
  f_equal. apply IH. lia.
Qed.

Lemma skipn_repeat {A} (x : A) k n :
  skipn k (repeat x n) = repeat x (n - k).
Proof.
  revert n. induction k as [|k IH]; intros [|n]; cbn [skipn repeat Nat.sub];
    auto.
Qed.

(** What a successful [notmuchfs_open] has done. *)
Lemma notmuchfs_open_success os nm dbg path flags t h :
  notmuchfs_open os nm dbg path flags = (t, Ret (0, Some h)) ->
  match strrchr1 path "/"%char with
  | None =>
      os_open_rdonly os (skipn 1 path) = inr (fh h)
      /\ x_label h = zero_x_label
  | Some last_slash =>
      let name := strncpy_path (skipn (S last_slash) path) in
      match strchr name "#"%char with
      | None => os_open_rdonly os name = inr (fh h)
                /\ x_label h = zero_x_label
      | Some _ =>
          os_open_rdonly os (trans_name_of path last_slash) = inr (fh h)
          /\ exists p_message,
               nm_find_message_by_filename nm (trans_name_of path last_slash)
               = (NOTMUCH_STATUS_SUCCESS, p_message)
               /\ x_label h = match p_message with
                              | None => zero_x_label
                              | Some m => compose_x_label zero_x_label m
                              end
      end
  end.
Proof.
  unfold notmuchfs_open, trans_name_of.
  destruct (negb (Z.land flags 3 =? O_RDONLY)); [intros [= ? ?]|].
  destruct (strrchr1 path "/"%char) as [ls|].
  - cbv zeta.
    destruct (strchr (strncpy_path (skipn (S ls) path)) "#"%char).
    + intros H. inv_io.
      destruct a as [res|x]; [inv_io; discriminate|].
      unfold open_backing in Hk. inv_io.
      destruct (os_open_rdonly os _) as [e|fd0] eqn:Eo; inv_io;
        [discriminate|].
      subst h. cbn [fh x_label]. split; [reflexivity|].
      unfold open_lookup in Hm. inv_io.
      destruct (nm_find_message_by_filename nm _) as [st pm] eqn:Ef.
      destruct st; inv_io; try discriminate.
      exists pm. split; [reflexivity|].
      destruct pm; inv_io; congruence.
    + unfold open_backing. intros H. inv_io.
      destruct (os_open_rdonly os _) as [e|fd0] eqn:Eo; inv_io;
        [discriminate|].
      subst h. auto.
  - destruct (os_open_rdonly os _) as [e|fd0] eqn:Eo; intros H; inv_io;
      [discriminate|].
    subst h. auto.
Qed.

(** *** The shape of a virtual path *)

Lemma skipn_app_exact {A} (a b : list A) n :
  length a = n -> skipn n (a ++ b) = b.
Proof.
  intros <-. rewrite skipn_app, skipn_all, Nat.sub_diag. reflexivity.
Qed.

Lemma encode_no_slash (B : cstr) : ~ In "/"%char (encode B).
Proof. apply string_replace_absent. discriminate. Qed.

Lemma virtual_path_last_slash (Q B : cstr) :
  strrchr1 (virtual_path Q B) "/"%char = Some (length Q + 5)%nat
  /\ skipn (S (length Q + 5)) (virtual_path Q B) = encode B.
Proof.
  unfold virtual_path, strrchr1. cbn [skipn]. split.
  - change (lit "/cur/" ++ encode B)
      with (lit "/cur" ++ "/"%char :: encode B).
    rewrite app_assoc, strrchr_last by apply encode_no_slash.
    cbn [option_map]. rewrite length_app. cbn [lit length list_ascii_of_string].
    f_equal. lia.
  - rewrite app_assoc. apply skipn_app_exact.
    rewrite length_app. cbn [lit length list_ascii_of_string]. lia.
Qed.

Lemma virtual_path_first_slash (Q B : cstr) :
  ~ In "/"%char Q ->
  strchr1 (virtual_path Q B) "/"%char = Some (S (length Q))
  /\ skipn (S (length Q)) (virtual_path Q B) = lit "/cur/" ++ encode B.
Proof.
  intros HQ. unfold virtual_path, strchr1. cbn [skipn]. split.
  - change (lit "/cur/" ++ encode B)
      with ("/"%char :: lit "cur/" ++ encode B).
    rewrite strchr_first by exact HQ. reflexivity.
  - apply skipn_app_exact. reflexivity.
Qed.

Lemma virtual_path_trans_name (Q B : cstr) :
  ~ In "#"%char B -> (length B < PATH_MAX)%nat ->
  trans_name_of (virtual_path Q B) (length Q + 5) = B.
Proof.
  intros HB Hlen. unfold trans_name_of.
  rewrite (proj2 (virtual_path_last_slash Q B)).
  rewrite strncpy_path_short by (unfold encode; now rewrite string_replace_length).
  now apply decode_encode.
Qed.

Lemma virtual_path_not_root (Q B : cstr) :
  strcmp_eq (virtual_path Q B) (lit "/") = false.
Proof.
  unfold strcmp_eq, virtual_path. cbn [lit list_ascii_of_string cstr_eqb].
  destruct Q; reflexivity.
Qed.

Lemma absolute_not_maildir_sub (b : cstr) :
  is_maildir_sub (encode ("/"%char :: b)) = false.
Proof. reflexivity. Qed.

(** *** notmuchfs_getattr on a virtual file *)

Lemma getattr_virtual os cfg (Q b : cstr) :
  let B := "/"%char :: b in
  ~ In "/"%char Q -> ~ In "#"%char B -> (length B < PATH_MAX)%nat ->
  notmuchfs_getattr os cfg (virtual_path Q B)
  = Ret (let '(res, stbuf) := stat_into (os_stat os B) in
         (res, inflate stbuf)).
Proof.
  intros B HQ HB Hlen. subst B. set (B := "/"%char :: b) in *.
  unfold notmuchfs_getattr.
  rewrite virtual_path_not_root.
  destruct (virtual_path_last_slash Q B) as [-> Hlast].
  rewrite Hlast. unfold B at 1. rewrite (absolute_not_maildir_sub b).
  destruct (virtual_path_first_slash Q B HQ) as [-> Hfirst].
  rewrite Hfirst.
  replace ((3 <? length Q + 5 - S (length Q))%nat) with true
    by (symmetry; apply Nat.ltb_lt; lia).
  replace (strncmp_eq (lit "/cur/" ++ encode B) (lit "/cur/") 5) with true
    by reflexivity.
  rewrite orb_true_r.
  rewrite virtual_path_trans_name by assumption.
  destruct (stat_into (os_stat os B)). reflexivity.
Qed.

(** *** notmuchfs_read *)

Lemma to_int_small z : 0 <= z <= INT_MAX -> to_int z = z.
Proof.
  unfold to_int, INT_MAX. intros H.
  rewrite Z.mod_small by lia. lia.
Qed.

Lemma read_below_header os h size offset :
  0 <= offset < MAX_XLABEL_LENGTH -> 0 <= size ->
  length (x_label h) = Z.to_nat MAX_XLABEL_LENGTH ->
  let k := Z.min (MAX_XLABEL_LENGTH - offset) size in
  let hdr := firstn (Z.to_nat k) (skipn (Z.to_nat offset) (x_label h)) in
  strlen hdr = k
  /\ notmuchfs_read os h size offset
     = if size <=? MAX_XLABEL_LENGTH - offset then (to_int size, hdr)
       else match os_pread os (fh h) (size - k) 0 with
            | inl errno => (- errno, hdr)
            | inr data => (to_int (k + strlen data), hdr ++ data)
            end.
Proof.
  intros Ho Hs Hlen k hdr. unfold MAX_XLABEL_LENGTH in *.
  assert (Hk : strlen hdr = k).
  { unfold strlen, hdr. rewrite length_firstn, length_skipn, Hlen. lia. }
  split; [exact Hk|].
  unfold notmuchfs_read, MAX_XLABEL_LENGTH.
  destruct (Z.ltb_spec offset 1024) as [_|]; [|lia].
  fold k. fold hdr.
  destruct (Z.leb_spec size (1024 - offset)) as [Hle|Hgt].
  - destruct (Z.ltb_spec 0 (size - k)) as [|_]; [lia|].
    f_equal. f_equal. lia.
  - destruct (Z.ltb_spec 0 (size - k)) as [_|]; [|lia].
    replace (offset + k - (offset + k)) with 0 by lia. reflexivity.
Qed.

Lemma read_beyond_header os h size offset :
  MAX_XLABEL_LENGTH <= offset -> 0 <= size ->
  notmuchfs_read os h size offset
  = if size =? 0 then (0, [])
    else backing_read os (fh h) size (offset - MAX_XLABEL_LENGTH).
Proof.
  intros Ho Hs. unfold notmuchfs_read, backing_read, MAX_XLABEL_LENGTH in *.
  destruct (Z.ltb_spec offset 1024) as [|_]; [lia|].
  rewrite Z.sub_0_r.
  destruct (Z.eqb_spec size 0) as [->|Hne]; [reflexivity|].
  destruct (Z.ltb_spec 0 size) as [_|]; [|lia].
  destruct (os_pread os (fh h) size (offset - 1024)); reflexivity.
Qed.

(** *** The header of an opened file *)

Lemma compose_x_label_region (m : message) :
  compose_x_label zero_x_label m = header_with (tag_region m).
Proof.
  unfold tag_region.
  destruct (Z.ltb_spec (strlen (join_tags (msg_tags m))) TAG_BUDGET).
  - apply compose_x_label_fits; [apply repeat_length|assumption].
  - apply compose_x_label_overflow; [apply repeat_length|assumption].
Qed.

Lemma tag_region_bound (m : message) : strlen (tag_region m) <= TAG_BUDGET.
Proof.
  unfold tag_region.
  destruct (Z.ltb_spec (strlen (join_tags (msg_tags m))) TAG_BUDGET);
    [lia|]. vm_compute. discriminate.
Qed.

Lemma header_with_length (region : cstr) :
  strlen region <= TAG_BUDGET ->
  length (header_with region) = Z.to_nat MAX_XLABEL_LENGTH.
Proof.
  intros H. unfold header_with.
  assert (HB : Z.to_nat TAG_BUDGET = 1014%nat) by reflexivity.
  assert (HM : Z.to_nat MAX_XLABEL_LENGTH = 1024%nat) by reflexivity.
  assert (HX : length XLABEL = 9%nat) by reflexivity.
  unfold strlen in H.
  rewrite !length_app, repeat_length. cbn [length]. lia.
Qed.

Lemma header_with_last (region : cstr) :
  strlen region <= TAG_BUDGET ->
  nth_error (header_with region) (Z.to_nat (MAX_XLABEL_LENGTH - 1)) = Some LF.
Proof.
  intros H. unfold header_with.
  assert (HB : Z.to_nat TAG_BUDGET = 1014%nat) by reflexivity.
  assert (HM : Z.to_nat (MAX_XLABEL_LENGTH - 1) = 1023%nat) by reflexivity.
  assert (HX : length XLABEL = 9%nat) by reflexivity.
  unfold strlen in H.
  rewrite !app_assoc.
  rewrite nth_error_app2; rewrite !length_app, repeat_length; [|lia].
  replace (Z.to_nat (MAX_XLABEL_LENGTH - 1)
           - (length XLABEL + length region
              + (Z.to_nat TAG_BUDGET - length region)))%nat with O by lia.
  reflexivity.
Qed.

Lemma join_tags_cstring (tags : list cstr) :
  Forall cstring tags -> cstring (join_tags tags).
Proof.
  unfold cstring. induction 1 as [|t rest Ht Hrest IH]; [intros []|].
  destruct rest as [|r rs]; [exact Ht|].
  rewrite join_tags_cons2, in_app_iff. intros [Hin|[E|Hin]].
  - now apply Ht.
  - discriminate E.
  - now apply IH.
Qed.

Lemma header_with_cstring (region : cstr) :
  cstring region -> ~ In NUL (header_with region).
Proof.
  unfold cstring, header_with. intros Hr.
  rewrite !in_app_iff. intros [Hin|[Hin|[Hin|Hin]]].
  - vm_compute in Hin. repeat (destruct Hin as [E|Hin]; [discriminate E|]).
    exact Hin.
  - now apply Hr.
  - apply repeat_spec in Hin. discriminate Hin.
  - destruct Hin as [E|[]]. discriminate E.
Qed.

Lemma tag_region_cstring (m : message) :
  Forall cstring (msg_tags m) -> cstring (tag_region m).
Proof.
  intros H. unfold tag_region.
  destruct (strlen (join_tags (msg_tags m)) <? TAG_BUDGET).
  - now apply join_tags_cstring.
  - unfold cstring. vm_compute.
    intros Hin. repeat (destruct Hin as [E|Hin]; [discriminate E|]).
    exact Hin.
Qed.

Lemma In_firstn {A} (x : A) n l : In x (firstn n l) -> In x l.
Proof.
  intros H. rewrite <- (firstn_skipn n l). apply in_or_app. now left.
Qed.

Lemma strchr_found_in (s : cstr) c i : strchr s c = Some i -> In c s.
Proof.
  revert i. induction s as [|a s IH]; intros i H; [discriminate|].
  cbn [strchr] in H. destruct (Ascii.eqb_spec a c) as [->|_].
  - left. reflexivity.
  - destruct (strchr s c) as [j|]; [|discriminate]. right. now apply (IH j).
Qed.

Lemma open_x_label_length os nm dbg path flags t h :
  notmuchfs_open os nm dbg path flags = (t, Ret (0, Some h)) ->
  length (x_label h) = Z.to_nat MAX_XLABEL_LENGTH.
Proof.
  intros H. apply notmuchfs_open_success in H.
  assert (Hz : length zero_x_label = Z.to_nat MAX_XLABEL_LENGTH)
    by apply repeat_length.
  destruct (strrchr1 path "/"%char) as [ls|]; cbv zeta in H.
  - destruct (strchr _ "#"%char).
    + destruct H as (_ & pm & _ & ->). destruct pm as [m|]; [|exact Hz].
      rewrite compose_x_label_region.
      apply header_with_length, tag_region_bound.
    + destruct H as [_ ->]. exact Hz.
  - destruct H as [_ ->]. exact Hz.
Qed.

Lemma read_one_byte os h offset c :
  0 <= offset < MAX_XLABEL_LENGTH ->
  length (x_label h) = Z.to_nat MAX_XLABEL_LENGTH ->
  nth_error (x_label h) (Z.to_nat offset) = Some c ->
  notmuchfs_read os h 1 offset = (1, [c]).
Proof.
  intros Ho Hlen Hc.
  destruct (read_below_header os h 1 offset Ho ltac:(lia) Hlen) as [_ ->].
  unfold MAX_XLABEL_LENGTH in *.
  destruct (Z.leb_spec 1 (1024 - offset)); [|lia].
  replace (Z.min (1024 - offset) 1) with 1 by lia.
  f_equal. apply nth_error_split in Hc.
  destruct Hc as (l1 & l2 & -> & <-).
  rewrite skipn_app_exact by reflexivity. reflexivity.
Qed.

(* ===================================================================== *)
(** ** C1: size and reads of a virtual file *)
(* ===================================================================== *)

(** C1.  For the virtual file V = /Q/cur/encode(B) of an absolute backing
    path B, getattr reports the size of B plus 1024.  On a handle that
    [notmuchfs_open] returned for V, which holds the descriptor of B, a
    read of [s] bytes at offset [o] gives: below 1024, the
    [min(1024 - o, s)] bytes of the header from [o] on, followed, when
    [s] reaches past the header, by what [pread] of the remaining bytes at
    offset 0 of B gives; from 1024 on, exactly what [pread] of B at
    [o - 1024] gives (nothing, without a call, when [s] is 0). *)
Theorem C1_virtual_file_size_and_reads :
  forall (os : OS) (nm : Notmuch) (cfg : notmuchfs_config) (dbg : bool)
         (Q b : cstr) (st : stat_t),
    let B := "/"%char :: b in
    let V := virtual_path Q B in
    ~ In "/"%char Q -> ~ In "#"%char B -> (length B < PATH_MAX)%nat ->
    os_stat os B = inr st ->
    notmuchfs_getattr os cfg V
    = Ret (0, mk_stat (st_ino st) (st_mode st) (st_size st + 1024))
    /\ forall flags t h,
         notmuchfs_open os nm dbg V flags = (t, Ret (0, Some h)) ->
         os_open_rdonly os B = inr (fh h)
         /\ forall o s, 0 <= o -> 0 <= s ->
              (o < 1024 ->
               let k := Z.min (1024 - o) s in
               let hdr := firstn (Z.to_nat k)
                                 (skipn (Z.to_nat o) (x_label h)) in
               strlen hdr = k
               /\ (s <= 1024 - o ->
                   notmuchfs_read os h s o = (to_int s, hdr))
               /\ (1024 - o < s ->
                   notmuchfs_read os h s o
                   = match os_pread os (fh h) (s - k) 0 with
                     | inl errno => (- errno, hdr)
                     | inr data => (to_int (k + strlen data), hdr ++ data)
                     end))
              /\ (1024 <= o ->
                  (0 < s ->
                   notmuchfs_read os h s o
                   = backing_read os (fh h) s (o - 1024))
                  /\ (s = 0 -> notmuchfs_read os h s o = (0, []))).
Proof.
  intros os nm cfg dbg Q b st B V HQ HB Hlen Hst. split.
  - unfold V, B. rewrite getattr_virtual by assumption.
    fold B. rewrite Hst. reflexivity.
  - intros flags t h Hopen.
    pose proof (open_x_label_length _ _ _ _ _ _ _ Hopen) as Hx.
    apply notmuchfs_open_success in Hopen. unfold V in Hopen.
    destruct (virtual_path_last_slash Q B) as [E1 E2].
    rewrite E1 in Hopen. cbv zeta in Hopen. rewrite E2 in Hopen.
    rewrite virtual_path_trans_name in Hopen by assumption.
    assert (Hfd : os_open_rdonly os B = inr (fh h)).
    { rewrite strncpy_path_short in Hopen
        by (unfold encode; now rewrite string_replace_length).
      unfold B at 1 in Hopen. cbn [encode string_replace map strchr] in Hopen.
      cbn in Hopen. tauto. }
    split; [exact Hfd|]. intros o s Ho Hs. split.
    + intros Hlt.
      destruct (read_below_header os h s o) as [Hk Hread];
        [unfold MAX_XLABEL_LENGTH; lia|lia|exact Hx|].
      unfold MAX_XLABEL_LENGTH in *. cbv zeta.
      split; [exact Hk|]. rewrite Hread. split; intros Hcmp.
      * destruct (Z.leb_spec s (1024 - o)); [reflexivity|lia].
      * destruct (Z.leb_spec s (1024 - o)); [lia|reflexivity].
    + intros Hge. rewrite read_beyond_header
        by (unfold MAX_XLABEL_LENGTH; lia).
      unfold MAX_XLABEL_LENGTH. split.
      * intros Hpos. destruct (Z.eqb_spec s 0); [lia|reflexivity].
      * intros ->. reflexivity.
Qed.

(** C1 at the message of the example store: twelve bytes, size 1036. *)
Lemma C1_witness :
  let h := mk_open 3 (compose_x_label zero_x_label msg_a) in
  notmuchfs_getattr ex_os (ex_cfg false) (virtual_path (lit "inbox") mail_a)
  = Ret (0, mk_stat 7 33188 1036)
  /\ notmuchfs_read ex_os h 12 1024 = (12, mail_a_content).
Proof.
  pose proof (C1_virtual_file_size_and_reads
                ex_os (ex_nm true NOTMUCH_STATUS_SUCCESS) (ex_cfg false)
                NOTMUCHFS_DEBUG_default (lit "inbox") (lit "m/a/cur/1:2,")
                (reg_stat 7 12)) as H.
  cbv zeta in H.
  destruct H as [Hsize Hread].
  - vm_compute. intros [E|[E|[E|[E|[E|[]]]]]]; discriminate E.
  - vm_compute. intuition discriminate.
  - vm_compute. repeat constructor.
  - reflexivity.
  - split; [exact Hsize|].
    destruct (Hread O_RDONLY
                [EvDatabaseOpen true; EvFindMessage mail_a; EvDatabaseClose]
                (mk_open 3 (compose_x_label zero_x_label msg_a))
                eq_refl) as [_ Hrd].
    destruct (Hrd 1024 12 ltac:(lia) ltac:(lia)) as [_ Hbody].
    destruct (Hbody ltac:(lia)) as [Hpos _].
    rewrite (Hpos ltac:(lia)). reflexivity.
Defined.

(* ===================================================================== *)
(** ** C2: the bytes of the header *)
(* ===================================================================== *)

(** C2, as stated, fails: when the index does not know the file, the
    open still succeeds and the header is 1024 NUL bytes.  Reading one
    byte at offset 0 gives NUL, not 'X', and byte 1023 is NUL, not LF. *)
Lemma C2_counterexample :
  exists t h,
    notmuchfs_open ex_os (ex_nm false NOTMUCH_STATUS_SUCCESS)
      NOTMUCHFS_DEBUG_default (virtual_path (lit "inbox") mail_a) O_RDONLY
    = (t, Ret (0, Some h))
    /\ notmuchfs_read ex_os h 1 0 = (1, [NUL])
    /\ notmuchfs_read ex_os h 1 1023 = (1, [NUL])
    /\ firstn (length XLABEL) (x_label h) <> XLABEL.
Proof.
  do 2 eexists. split; [vm_compute; reflexivity|].
  split; [vm_compute; reflexivity|].
  split; [vm_compute; reflexivity|].
  vm_compute. discriminate.
Qed.

(** C2, amended.  For the virtual file V = /Q/cur/encode(B) of an
    absolute backing path B that the index lookup by file name finds,
    the header of an opened handle is exactly 1024 bytes: 'X-Label: ' at
    byte 0, then the comma-joined tag list (or 'ERROR' when that list
    does not stay below the budget), then spaces, then LF at byte 1023; it
    holds no NUL when the tags hold none; and reading one byte at an
    offset below 1024 returns the byte of the header at that offset. *)
Theorem C2_header_of_a_found_message :
  forall (os : OS) (nm : Notmuch) (dbg : bool) (Q b : cstr) (m : message)
         (flags : Z) (t : list event) (h : open_t),
    let B := "/"%char :: b in
    ~ In "#"%char B -> (length B < PATH_MAX)%nat ->
    nm_find_message_by_filename nm B = (NOTMUCH_STATUS_SUCCESS, Some m) ->
    notmuchfs_open os nm dbg (virtual_path Q B) flags
    = (t, Ret (0, Some h)) ->
    x_label h
    = XLABEL ++ tag_region m
      ++ repeat SP (Z.to_nat TAG_BUDGET - length (tag_region m)) ++ [LF]
    /\ (tag_region m = join_tags (msg_tags m)
        \/ tag_region m = TAG_ERROR_STRING)
    /\ length (x_label h) = 1024%nat
    /\ nth_error (x_label h) 1023 = Some LF
    /\ (Forall cstring (msg_tags m) -> ~ In NUL (x_label h))
    /\ forall o, 0 <= o < 1024 ->
         exists c, nth_error (x_label h) (Z.to_nat o) = Some c
                   /\ notmuchfs_read os h 1 o = (1, [c]).
Proof.
  intros os nm dbg Q b m flags t h B HB Hlen Hfind Hopen.
  pose proof (open_x_label_length _ _ _ _ _ _ _ Hopen) as Hx.
  apply notmuchfs_open_success in Hopen.
  destruct (virtual_path_last_slash Q B) as [E1 E2].
  rewrite E1 in Hopen. cbv zeta in Hopen. rewrite E2 in Hopen.
  rewrite virtual_path_trans_name in Hopen by assumption.
  rewrite strncpy_path_short in Hopen
    by (unfold encode; now rewrite string_replace_length).
  unfold B at 1 in Hopen. cbn [encode string_replace map strchr] in Hopen.
  cbn [Ascii.eqb Bool.eqb] in Hopen.
  destruct Hopen as (_ & pm & Hf & Hlab).
  rewrite Hfind in Hf. injection Hf as <-.
  rewrite compose_x_label_region in Hlab.
  assert (Hh : x_label h = header_with (tag_region m)) by exact Hlab.
  split; [exact Hh|].
  split.
  { unfold tag_region. destruct (_ <? _); auto. }
  split; [exact Hx|].
  split.
  { rewrite Hh. apply (header_with_last _ (tag_region_bound m)). }
  split.
  { intros Htags. rewrite Hh.
    now apply header_with_cstring, tag_region_cstring. }
  intros o Ho.
  destruct (nth_error (x_label h) (Z.to_nat o)) as [c|] eqn:Ec.
  - exists c. split; [reflexivity|].
    apply read_one_byte; [unfold MAX_XLABEL_LENGTH; lia|exact Hx|exact Ec].
  - apply nth_error_None in Ec. rewrite Hx in Ec.
    unfold MAX_XLABEL_LENGTH in Ec. lia.
Qed.

(** C2 at the first message of the example store, tagged inbox and
    unread. *)
Lemma C2_witness :
  let h := mk_open 3 (compose_x_label zero_x_label msg_a) in
  x_label h
  = lit "X-Label: inbox,unread" ++ repeat SP 1002 ++ [LF]
  /\ notmuchfs_read ex_os h 1 0 = (1, ["X"%char]).
Proof.
  pose proof (C2_header_of_a_found_message
                ex_os (ex_nm true NOTMUCH_STATUS_SUCCESS)
                NOTMUCHFS_DEBUG_default (lit "inbox") (lit "m/a/cur/1:2,")
                msg_a O_RDONLY
                [EvDatabaseOpen true; EvFindMessage mail_a; EvDatabaseClose]
                (mk_open 3 (compose_x_label zero_x_label msg_a))) as H.
  cbv zeta in H.
  destruct H as (Hlab & _ & _ & _ & _ & Hread).
  - vm_compute. intuition discriminate.
  - vm_compute. repeat constructor.
  - reflexivity.
  - reflexivity.
  - split.
    + rewrite Hlab. reflexivity.
    + destruct (Hread 0 ltac:(lia)) as (c & Hc & Hr).
      rewrite Hr. vm_compute in Hc. injection Hc as <-. reflexivity.
Defined.

(* ===================================================================== *)
(** ** C10: the header that stays zero *)
(* ===================================================================== *)

(** C10.  When an open succeeds on a path whose last segment holds no
    '#', or on an encoded path whose file name the index lookup does not
    find, the header of the handle is 1024 NUL bytes, and a read at an
    offset below 1024 returns NUL in each of its
    [min(1024 - offset, size)] header positions. *)
Theorem C10_header_stays_zero :
  forall (os : OS) (nm : Notmuch) (dbg : bool) (path : cstr) (flags : Z)
         (t : list event) (h : open_t),
    notmuchfs_open os nm dbg path flags = (t, Ret (0, Some h)) ->
    (~ In "#"%char (last_segment path)
     \/ exists last_slash,
          strrchr1 path "/"%char = Some last_slash
          /\ snd (nm_find_message_by_filename nm
                    (trans_name_of path last_slash)) = None) ->
    x_label h = repeat NUL 1024
    /\ forall size offset, 0 <= offset < 1024 -> 0 <= size ->
         exists rest,
           snd (notmuchfs_read os h size offset)
           = repeat NUL (Z.to_nat (Z.min (1024 - offset) size)) ++ rest.
Proof.
  intros os nm dbg path flags t h Hopen Hwhy.
  pose proof (open_x_label_length _ _ _ _ _ _ _ Hopen) as Hx.
  apply notmuchfs_open_success in Hopen.
  assert (Hz : x_label h = repeat NUL 1024).
  { unfold last_segment in Hwhy.
    destruct (strrchr1 path "/"%char) as [ls|]; cbv zeta in Hopen.
    - destruct (strchr _ "#"%char) as [i|] eqn:Ei.
      + destruct Hopen as (_ & pm & Hf & Hlab).
        destruct Hwhy as [Hno|(ls' & [= <-] & Hnone)].
        * exfalso. apply Hno. apply strchr_found_in in Ei.
          unfold strncpy_path in Ei. eapply In_firstn. exact Ei.
        * rewrite Hf in Hnone. cbn [snd] in Hnone. subst pm. exact Hlab.
      + tauto.
    - tauto. }
  split; [exact Hz|]. intros size offset Ho Hs.
  destruct (read_below_header os h size offset) as [_ ->];
    [unfold MAX_XLABEL_LENGTH; lia|lia|exact Hx|].
  unfold MAX_XLABEL_LENGTH.
  set (k := Z.min (1024 - offset) size).
  assert (Hhdr : firstn (Z.to_nat k) (skipn (Z.to_nat offset) (x_label h))
                 = repeat NUL (Z.to_nat k)).
  { rewrite Hz, skipn_repeat, firstn_repeat by lia. reflexivity. }
  rewrite Hhdr.
  destruct (size <=? 1024 - offset).
  - exists []. cbn [snd]. now rewrite app_nil_r.
  - destruct (os_pread os (fh h) (size - k) 0) as [e|data].
    + exists []. cbn [snd]. now rewrite app_nil_r.
    + exists data. reflexivity.
Qed.

(** C10 in the example store without the index entry: the four bytes
    read at offset 1022 are two NULs, then the start of the file. *)
Lemma C10_witness :
  let h := mk_open 3 zero_x_label in
  x_label h = repeat NUL 1024
  /\ snd (notmuchfs_read ex_os h 4 1022) = [NUL; NUL; "F"; "r"]%char.
Proof.
  pose proof (C10_header_stays_zero
                ex_os (ex_nm false NOTMUCH_STATUS_SUCCESS)
                NOTMUCHFS_DEBUG_default
                (virtual_path (lit "inbox") mail_a) O_RDONLY
                [EvDatabaseOpen true; EvFindMessage mail_a; EvDatabaseClose]
                (mk_open 3 zero_x_label)) as H.
  destruct H as [Hz Hread].
  - reflexivity.
  - right. exists 10%nat. split; reflexivity.
  - split; [exact Hz|]. reflexivity.
Defined.

(* ===================================================================== *)
(** ** C8: getattr outside the maildir names *)
(* ===================================================================== *)

Lemma strchr_split (s : cstr) c i :
  strchr s c = Some i ->
  exists a b, s = a ++ c :: b /\ length a = i /\ ~ In c a.
Proof.
  revert i. induction s as [|x s IH]; intros i H; [discriminate|].
  cbn [strchr] in H. destruct (Ascii.eqb_spec x c) as [->|Hne].
  - injection H as <-. exists [], s. repeat split. intros [].
  - destruct (strchr s c) as [j|]; [|discriminate]. injection H as <-.
    destruct (IH j eq_refl) as (a & b & -> & <- & Ha).
    exists (x :: a), b. repeat split. intros [E|Hin]; [congruence|tauto].
Qed.

Lemma strrchr_found_strchr (s : cstr) c i :
  strrchr s c = Some i -> exists j, strchr s c = Some j /\ (j <= i)%nat.
Proof.
  revert i. induction s as [|x s IH]; intros i H; [discriminate|].
  cbn [strrchr] in H. cbn [strchr].
  destruct (Ascii.eqb_spec x c) as [->|Hne].
  - exists O. split; [reflexivity|lia].
  - destruct (strrchr s c) as [k|]; [|discriminate]. injection H as <-.
    destruct (IH k eq_refl) as (j & -> & Hj). exists (S j).
    split; [reflexivity|lia].
Qed.

Lemma firstn_eq_app {A} (l pre : list A) :
  firstn (length pre) l = pre -> l = pre ++ skipn (length pre) l.
Proof. intros H. rewrite <- H at 1. symmetry. apply firstn_skipn. Qed.

(** C8, as stated, fails: the backing store holds the file [dir/file],
    whose [lstat] succeeds, yet getattr of [/dir/file] answers with the
    not-found error. *)
Lemma C8_counterexample :
  os_lstat ex_os (lit "dir/file") = inr (reg_stat 9 5)
  /\ strrchr1 (lit "/dir/file") "/"%char = Some 4%nat
  /\ last_segment (lit "/dir/file") = lit "file"
  /\ notmuchfs_getattr ex_os (ex_cfg false) (lit "/dir/file")
     = Ret (- ENOENT, zero_stat).
Proof. repeat split. Qed.

(** C8, amended.  A getattr on a path with more than one segment whose
    last segment is not 'new', 'tmp' or 'cur' and contains no '#' never
    reaches the backing store at that path: unless the path lies below
    /<q>/cur/ or, in compat mode, has 'new' right before its last '/'
    (the paths handled as virtual files), the result is the not-found
    error.  Only a single-segment path /<q> is answered by [lstat] of the
    backing path, with the errno of a failure surfaced as it is. *)
Theorem C8_getattr_backing_region :
  forall (os : OS) (cfg : notmuchfs_config) (p : cstr),
    let path := "/"%char :: p in
    (forall last_slash,
        strrchr1 path "/"%char = Some last_slash ->
        is_maildir_sub (last_segment path) = false ->
        ~ In "#"%char (last_segment path) ->
        ~ below_cur path ->
        ~ (mutt_2476_workaround_allowed cfg = true /\ parent_ends_new path) ->
        notmuchfs_getattr os cfg path = Ret (- ENOENT, zero_stat))
    /\ (strrchr1 path "/"%char = None -> p <> [] ->
        notmuchfs_getattr os cfg path
        = Ret (match os_lstat os p with
               | inl errno => (- errno, zero_stat)
               | inr st => (0, st)
               end)).
Proof.
  intros os cfg p path. split.
  - intros ls Hls Hsub Hhash Hcur Hnew.
    unfold notmuchfs_getattr.
    unfold last_segment in Hsub. rewrite Hls in Hsub.
    assert (Hroot : strcmp_eq path (lit "/") = false).
    { apply cstr_eqb_neq. intros E. rewrite E in Hls. discriminate Hls. }
    rewrite Hroot, Hls, Hsub.
    unfold strrchr1 in Hls. cbn [skipn path] in Hls.
    destruct (strrchr p "/"%char) as [i|] eqn:Ei; [|discriminate].
    injection Hls as <-.
    destruct (strrchr_found_strchr _ _ _ Ei) as (j & Ej & Hj).
    unfold strchr1. cbn [skipn path]. rewrite Ej. cbn [option_map].
    destruct (strrchr_split _ _ _ Ei) as (a & b & Hp & Ha & Hb).
    destruct (strchr_split _ _ _ Ej) as (q & r & Hq & Hql & Hqn).
    match goal with |- (if ?c then _ else _) = _ =>
      destruct c eqn:Ec; [exfalso|reflexivity] end.
    apply orb_true_iff in Ec. destruct Ec as [Ec|Ec].
    + apply andb_true_iff in Ec. destruct Ec as [Ec Em].
      apply andb_true_iff in Ec. destruct Ec as [Eallow Ege].
      apply Nat.leb_le in Ege.
      apply Hnew. split; [exact Eallow|].
      unfold memcmp_eq in Em. apply cstr_eqb_eq in Em.
      exists (firstn (S i - 3) path), b. split; [|exact Hb].
      rewrite <- (firstn_skipn (S i - 3) path) at 1. f_equal.
      change (firstn 3 (lit "new")) with (lit "new") in Em.
      assert (Hsk : skipn (S i - 3) path
                    = lit "new" ++ skipn 3 (skipn (S i - 3) path)).
      { apply (firstn_eq_app _ (lit "new")). exact Em. }
      rewrite Hsk. rewrite skipn_skipn.
      replace (3 + (S i - 3))%nat with (S i) by lia.
      unfold path at 1. cbn [skipn]. rewrite Hp.
      rewrite skipn_app_exact by exact Ha. reflexivity.
    + apply andb_true_iff in Ec. destruct Ec as [_ Es].
      apply Hcur. unfold strncmp_eq in Es. apply cstr_eqb_eq in Es.
      change (firstn 5 (lit "/cur/")) with (lit "/cur/") in Es.
      unfold path in Es. cbn [skipn] in Es. rewrite Hq in Es.
      rewrite skipn_app_exact in Es by exact Hql.
      exists q, (skipn 5 ("/"%char :: r)). split; [|exact Hqn].
      unfold path. rewrite Hq. do 2 f_equal.
      apply (firstn_eq_app _ (lit "/cur/")). exact Es.
  - intros Hnone Hp. unfold notmuchfs_getattr.
    assert (Hroot : strcmp_eq path (lit "/") = false).
    { apply cstr_eqb_neq. unfold path. intros [= E]. contradiction. }
    rewrite Hroot, Hnone. unfold stat_into. cbn [skipn path].
    destruct (os_lstat os p); reflexivity.
Qed.

Lemma below_cur_b_complete (path : cstr) :
  below_cur path -> below_cur_b path = true.
Proof.
  intros (q & rest & -> & Hq). unfold below_cur_b. cbn [skipn].
  change (lit "/cur/" ++ rest) with ("/"%char :: lit "cur/" ++ rest).
  rewrite strchr_first by exact Hq.
  rewrite skipn_app_exact by reflexivity. reflexivity.
Qed.

(** C8 on the file [dir/file] of the example store. *)
Lemma C8_witness :
  notmuchfs_getattr ex_os (ex_cfg false) (lit "/dir/file")
  = Ret (- ENOENT, zero_stat)
  /\ notmuchfs_getattr ex_os (ex_cfg false) (lit "/inbox")
     = Ret (0, lnk_stat 10).
Proof.
  destruct (C8_getattr_backing_region ex_os (ex_cfg false) (lit "dir/file"))
    as [Hmulti _].
  destruct (C8_getattr_backing_region ex_os (ex_cfg false) (lit "inbox"))
    as [_ Hsingle].
  split.
  - apply (Hmulti 4%nat).
    + reflexivity.
    + reflexivity.
    + vm_compute. intuition discriminate.
    + intros H. apply below_cur_b_complete in H. discriminate H.
    + intros [E _]. discriminate E.
  - apply Hsingle; [reflexivity|discriminate].
Defined.

(* ===================================================================== *)
(** ** notmuchfs_rename: the trace of an accepted rename *)
(* ===================================================================== *)

Lemma fst_bind {A B} (m : io A) (k : A -> io B) :
  fst (bind m k)
  = fst m ++ match snd m with Ret a => fst (k a) | _ => [] end.
Proof.
  destruct m as [t [a| | | |]]; cbn [bind fst snd];
    rewrite ?app_nil_r; try reflexivity.
  destruct (k a). reflexivity.
Qed.

Lemma snd_bind {A B} (m : io A) (k : A -> io B) :
  snd (bind m k)
  = match snd m with
    | Ret a => snd (k a)
    | ProcExit c => ProcExit c
    | Abort => Abort
    | Undef => Undef
    | Spin => Spin
    end.
Proof.
  destruct m as [t [a| | | |]]; cbn [bind fst snd]; try reflexivity.
  destruct (k a). reflexivity.
Qed.

Lemma io_eta {A} (m : io A) : m = (fst m, snd m).
Proof. destruct m. reflexivity. Qed.

Lemma fst_LOG_TRACE d fmt args :
  fst (LOG_TRACE d fmt args) = if d then [EvTrace fmt args] else [].
Proof. destruct d; reflexivity. Qed.

Lemma snd_LOG_TRACE d fmt args : snd (LOG_TRACE d fmt args) = Ret tt.
Proof. destruct d; reflexivity. Qed.

(** Normal form of the trace and the outcome of a composed run. *)
Ltac io_norm :=
  repeat (rewrite ?fst_bind, ?snd_bind, ?fst_LOG_TRACE, ?snd_LOG_TRACE;
          cbn [fst snd emit ret fail]).

Lemma database_open_loop_Ret need_write script t :
  database_open_loop need_write script = (t, Ret tt) ->
  index_calls t = [] /\ outputs t = [] /\ index_writes t = [].
Proof.
  revert t. induction script as [|status script IH]; intros t H;
    [discriminate|].
  cbn [database_open_loop] in H.
  pose proof (f_equal fst H) as Hf. pose proof (f_equal snd H) as Hs.
  revert Hf Hs. io_norm.
  destruct status; io_norm; try discriminate; intros <- Hs.
  - repeat split.
  - destruct (IH (fst (database_open_loop need_write script))) as (A & B & C).
    + rewrite (io_eta (database_open_loop need_write script)) at 1.
      now rewrite Hs.
    + unfold index_calls, outputs, index_writes in *.
      cbn [app filter is_index_call is_output is_index_write].
      repeat split; assumption.
Qed.

Lemma database_open_Ret nm dbg need_write t :
  database_open nm dbg need_write = (t, Ret tt) ->
  index_calls t = [] /\ index_writes t = []
  /\ (dbg = false -> outputs t = []).
Proof.
  unfold database_open. intros H.
  pose proof (f_equal fst H) as Hf. pose proof (f_equal snd H) as Hs.
  revert Hf Hs. io_norm.
  destruct (database_open_loop need_write (nm_open_script nm)) as [tl o] eqn:El.
  cbn [fst snd]. destruct o as [[]| | | |]; try discriminate.
  destruct (database_open_loop_Ret _ _ _ El) as (A & B & C).
  destruct (nm_needs_upgrade nm); io_norm; [discriminate|].
  intros <- _. unfold index_calls, outputs, index_writes in *.
  rewrite !filter_app, A, B, C, !app_nil_r.
  destruct dbg; repeat split; try reflexivity. discriminate.
Qed.

Lemma database_close_trace dbg :
  database_close dbg
  = ((if dbg then [EvTrace "notmuch database_close\n" []] else [])
     ++ [EvDatabaseClose], Ret tt).
Proof. unfold database_close. destruct dbg; reflexivity. Qed.

(** What the validation leaves in the trace when it lets a rename pass. *)
Lemma rename_validate_accepted os cfg dbg from to lsf lst tv w :
  rename_validate os cfg dbg from to lsf lst = (tv, Ret (inr w)) ->
  index_calls tv = [] /\ index_writes tv = []
  /\ (dbg = false -> outputs tv = [])
  /\ Forall (fun e => touches_store e = false) tv.
Proof.
  unfold rename_validate.
  destruct (strrchr1 from "#"%char) as [pf|], (strrchr1 to "#"%char) as [pt|];
    intros H; pose proof (f_equal fst H) as Hf;
    pose proof (f_equal snd H) as Hs; revert Hf Hs; io_norm;
    try discriminate.
  - destruct (negb (pf =? pt)%nat); io_norm; [discriminate|].
    destruct (negb (strncmp_eq from to pf)); io_norm.
    + destruct (mutt_2476_workaround_allowed cfg); io_norm.
      * unfold mutt_2476_case.
        destruct lsf as [lsf|]; io_norm; [|discriminate].
        destruct ((3 <=? lsf)%nat && memcmp_eq from 0 to (lsf - 3));
          io_norm; [|discriminate].
        destruct (memcmp_eq from (lsf - 3) (lit "cur") 3);
          [|destruct (memcmp_eq from (lsf - 3) (lit "new") 3)];
          io_norm;
          try (destruct lst as [lst|]; io_norm; [|discriminate];
               destruct (lst <? 3)%nat; io_norm; [discriminate|];
               destruct (memcmp_eq to (lst - 3) _ 3); io_norm);
          try discriminate;
          intros <- _; destruct dbg; cbn; repeat split;
          try discriminate; repeat constructor.
      * discriminate.
    + intros <- _. repeat split. constructor.
  - destruct (os_rename os (skipn 1 from) (skipn 1 to)); io_norm;
      discriminate.
Qed.

Lemma rename_swap_trace nm dbg F T :
  let dup := status_eqb (nm_add_message nm T)
                        NOTMUCH_STATUS_DUPLICATE_MESSAGE_ID in
  let t := fst (rename_swap nm dbg F T) in
  snd (rename_swap nm dbg F T) = Ret tt
  /\ index_calls t
     = EvAddMessage T :: (if dup then [EvRemoveMessage F] else [])
  /\ index_writes t
     = EvAddMessage T :: (if dup then [EvRemoveMessage F] else [])
  /\ (dbg = false -> outputs t = [])
  /\ (dbg = true -> dup = false ->
      In (EvTrace "WARNING: Did not find message in database: %s\n" [T]) t).
Proof.
  cbv zeta. unfold rename_swap. io_norm.
  destruct (status_eqb (nm_add_message nm T) _); cbn [negb]; io_norm.
  - destruct (negb (status_eqb (nm_remove_message nm F) _)); io_norm;
      destruct dbg; cbn; repeat split; intros; try discriminate.
  - destruct dbg; cbn; repeat split; intros; try discriminate; tauto.
Qed.

Lemma rename_sync_trace nm cfg dbg T w :
  let t := fst (rename_sync nm cfg dbg T w) in
  index_writes t = []
  /\ In (EvFindMessage T) t
  /\ (forall m, nm_find_message_by_filename nm T
                = (NOTMUCH_STATUS_SUCCESS, Some m) ->
                In (EvFlagsToTags T) t)
  /\ (dbg = false -> outputs t = []).
Proof.
  cbv zeta. unfold rename_sync. io_norm.
  destruct (nm_find_message_by_filename nm T) as [st pm].
  destruct st; try destruct pm as [m|]; io_norm;
    try destruct (mutt_2476_workaround_allowed cfg && (w =? 1)); io_norm;
    destruct dbg; cbn; repeat split; intros; try discriminate; tauto.
Qed.

Lemma rename_index_trace nm cfg dbg F T w :
  status_eqb (nm_begin_atomic nm) NOTMUCH_STATUS_SUCCESS = true ->
  fst (rename_index nm cfg dbg F T w)
  = [EvBeginAtomic]
    ++ (if strncmp_eq F T PATH_MAX then []
        else fst (rename_swap nm dbg F T))
    ++ fst (rename_sync nm cfg dbg T w)
    ++ match snd (rename_sync nm cfg dbg T w) with
       | Ret _ => [EvEndAtomic]
       | _ => []
       end.
Proof.
  intros Hb. unfold rename_index. io_norm. rewrite Hb. cbn [negb].
  io_norm. cbn [app]. f_equal.
  destruct (strncmp_eq F T PATH_MAX); cbn [negb fst snd ret app].
  - destruct (snd (rename_sync nm cfg dbg T w)); io_norm;
      rewrite ?app_nil_r; try reflexivity.
    destruct (negb _); reflexivity.
  - destruct (rename_swap_trace nm dbg F T) as [-> _].
    destruct (snd (rename_sync nm cfg dbg T w)); io_norm;
      rewrite ?app_nil_r; try reflexivity.
    destruct (negb _); reflexivity.
Qed.

(** The trace of a rename that passed the validation, moved the file and
    opened the index. *)
Lemma rename_accepted_trace os nm cfg dbg from to lsf lst tv w topen :
  strrchr1 from "/"%char = Some lsf -> strrchr1 to "/"%char = Some lst ->
  rename_validate os cfg dbg from to (Some lsf) (Some lst)
  = (tv, Ret (inr w)) ->
  let F := trans_name_of from lsf in
  let T := trans_name_of to lst in
  os_rename os F T = None ->
  database_open nm dbg true = (topen, Ret tt) ->
  fst (notmuchfs_rename os nm cfg dbg from to)
  = tv ++ (if dbg then [EvTrace "rename(%s, %s)\n" [F; T]] else [])
    ++ [EvRename F T] ++ topen
    ++ fst (rename_index nm cfg dbg F T w)
    ++ match snd (rename_index nm cfg dbg F T w) with
       | Ret _ => fst (database_close dbg)
       | _ => []
       end.
Proof.
  intros Hf Ht Hv F T Hmv Hopen. unfold notmuchfs_rename.
  rewrite Hf, Ht, Hv. io_norm. fold F T. rewrite Hmv, Hopen. io_norm.
  do 4 f_equal.
  destruct (snd (rename_index nm cfg dbg F T w)); io_norm;
    rewrite ?app_nil_r; try reflexivity.
  rewrite database_close_trace. cbn [fst snd]. now rewrite app_nil_r.
Qed.

Lemma trans_name_of_length path slash :
  (length (trans_name_of path slash) <= PATH_MAX)%nat.
Proof.
  unfold trans_name_of, strncpy_path.
  rewrite string_replace_length, length_firstn. unfold PATH_MAX. lia.
Qed.

Lemma strncmp_path_eq (a b : cstr) :
  (length a <= PATH_MAX)%nat -> (length b <= PATH_MAX)%nat ->
  strncmp_eq a b PATH_MAX = cstr_eqb a b.
Proof.
  intros Ha Hb. unfold strncmp_eq. now rewrite !firstn_all2.
Qed.

(* ===================================================================== *)
(** ** C4: the index after the file has moved *)
(* ===================================================================== *)

(** C4, as stated, fails in its warning: with the add answering plain
    success, the rename of the flag-changing scenario removes nothing
    from the index, but it writes nothing either.  The only reaction of
    the source is a [LOG_TRACE], which [NOTMUCHFS_DEBUG 0] compiles
    out. *)
Lemma C4_counterexample :
  let r := notmuchfs_rename ex_os (ex_nm true NOTMUCH_STATUS_SUCCESS)
             (ex_cfg false) NOTMUCHFS_DEBUG_default
             (lit "/inbox/cur/#m#a#cur#1:2,")
             (lit "/inbox/cur/#m#a#cur#1:2,S") in
  snd r = Ret 0
  /\ index_writes (fst r) = [EvAddMessage (lit "/m/a/cur/1:2,S")]
  /\ outputs (fst r) = [].
Proof. repeat split. Qed.

(** C4, amended.  For a rename of encoded names that passes the
    validation, with decoded backing paths F <> T, whose backing-store
    rename succeeds and which gets into the atomic section of the index:
    T is added; the add answering 'duplicate message id' is followed by
    the remove of F; the add answering anything else (plain success
    included) is followed by no remove, and its only reaction is the
    debug trace 'WARNING: Did not find message in database', present
    when [NOTMUCHFS_DEBUG] is set; with [NOTMUCHFS_DEBUG] clear, as in the
    source, the rename writes nothing. *)
Theorem C4_remove_follows_duplicate_only :
  forall (os : OS) (nm : Notmuch) (cfg : notmuchfs_config) (dbg : bool)
         (from to : cstr) (lsf lst : nat) (tv topen : list event) (w : Z),
    strrchr1 from "/"%char = Some lsf -> strrchr1 to "/"%char = Some lst ->
    rename_validate os cfg dbg from to (Some lsf) (Some lst)
    = (tv, Ret (inr w)) ->
    let F := trans_name_of from lsf in
    let T := trans_name_of to lst in
    F <> T ->
    os_rename os F T = None ->
    database_open nm dbg true = (topen, Ret tt) ->
    nm_begin_atomic nm = NOTMUCH_STATUS_SUCCESS ->
    let t := fst (notmuchfs_rename os nm cfg dbg from to) in
    (nm_add_message nm T = NOTMUCH_STATUS_DUPLICATE_MESSAGE_ID ->
     index_writes t = [EvAddMessage T; EvRemoveMessage F])
    /\ (nm_add_message nm T <> NOTMUCH_STATUS_DUPLICATE_MESSAGE_ID ->
        index_writes t = [EvAddMessage T]
        /\ (dbg = true ->
            In (EvTrace "WARNING: Did not find message in database: %s\n"
                        [T]) t))
    /\ (dbg = false -> outputs t = []).
Proof.
  intros os nm cfg dbg from to lsf lst tv topen w Hf Ht Hv F T Hne Hmv
         Hopen Hbegin t.
  assert (Hb : status_eqb (nm_begin_atomic nm) NOTMUCH_STATUS_SUCCESS = true)
    by now rewrite Hbegin.
  assert (Hcmp : strncmp_eq F T PATH_MAX = false).
  { rewrite strncmp_path_eq by apply trans_name_of_length.
    now apply cstr_eqb_neq. }
  assert (Et : t = tv ++ (if dbg then [EvTrace "rename(%s, %s)\n" [F; T]]
                          else [])
                   ++ [EvRename F T] ++ topen
                   ++ ([EvBeginAtomic] ++ fst (rename_swap nm dbg F T)
                       ++ fst (rename_sync nm cfg dbg T w)
                       ++ match snd (rename_sync nm cfg dbg T w) with
                          | Ret _ => [EvEndAtomic]
                          | _ => []
                          end)
                   ++ match snd (rename_index nm cfg dbg F T w) with
                      | Ret _ => fst (database_close dbg)
                      | _ => []
                      end).
  { unfold t. rewrite (rename_accepted_trace _ _ _ _ _ _ _ _ _ _ _
                         Hf Ht Hv Hmv Hopen).
    fold F T. rewrite (rename_index_trace _ _ _ _ _ _ Hb), Hcmp.
    reflexivity. }
  destruct (rename_validate_accepted _ _ _ _ _ _ _ _ _ Hv)
    as (_ & Hvw & Hvo & _).
  destruct (database_open_Ret _ _ _ _ Hopen) as (_ & How & Hoo).
  destruct (rename_swap_trace nm dbg F T) as (_ & _ & Hsw & Hso & Hwarn).
  destruct (rename_sync_trace nm cfg dbg T w) as (Hyw & _ & _ & Hyo).
  assert (Hwrites : index_writes t
                    = EvAddMessage T
                      :: (if status_eqb (nm_add_message nm T)
                                        NOTMUCH_STATUS_DUPLICATE_MESSAGE_ID
                          then [EvRemoveMessage F] else [])).
  { rewrite Et. unfold index_writes in *.
    rewrite !filter_app, Hvw, How, Hsw, Hyw. cbn [app].
    rewrite database_close_trace.
    destruct (snd (rename_sync nm cfg dbg T w)),
      (snd (rename_index nm cfg dbg F T w)), dbg;
      cbn; rewrite ?app_nil_r; reflexivity. }
  split; [|split].
  - intros Hdup. rewrite Hwrites, Hdup. reflexivity.
  - intros Hnd.
    assert (Hd : status_eqb (nm_add_message nm T)
                            NOTMUCH_STATUS_DUPLICATE_MESSAGE_ID = false)
      by (destruct (nm_add_message nm T); try reflexivity; congruence).
    split; [rewrite Hwrites, Hd; reflexivity|].
    intros Hdbg. rewrite Et.
    apply in_or_app. right. apply in_or_app. right.
    apply in_or_app. right. apply in_or_app. right.
    apply in_or_app. left. apply in_or_app. right.
    apply in_or_app. left. now apply Hwarn.
  - intros Hdbg. rewrite Et. unfold outputs in *.
    rewrite !filter_app, (Hvo Hdbg), (Hoo Hdbg), (Hso Hdbg), (Hyo Hdbg).
    rewrite database_close_trace. subst dbg.
    destruct (snd (rename_sync nm cfg false T w)),
      (snd (rename_index nm cfg false F T w)); reflexivity.
Qed.

(** C4 on the flag-changing rename of the example store, with the add
    answering 'duplicate message id'. *)
Lemma C4_witness :
  index_writes
    (fst (notmuchfs_rename ex_os
            (ex_nm true NOTMUCH_STATUS_DUPLICATE_MESSAGE_ID) (ex_cfg false)
            NOTMUCHFS_DEBUG_default
            (lit "/inbox/cur/#m#a#cur#1:2,")
            (lit "/inbox/cur/#m#a#cur#1:2,S")))
  = [EvAddMessage (lit "/m/a/cur/1:2,S"); EvRemoveMessage mail_a].
Proof.
  refine (proj1 (C4_remove_follows_duplicate_only
                   ex_os (ex_nm true NOTMUCH_STATUS_DUPLICATE_MESSAGE_ID)
                   (ex_cfg false) NOTMUCHFS_DEBUG_default
                   (lit "/inbox/cur/#m#a#cur#1:2,")
                   (lit "/inbox/cur/#m#a#cur#1:2,S")
                   10%nat 10%nat [] [EvDatabaseOpen true] 0
                   eq_refl eq_refl eq_refl _ eq_refl eq_refl eq_refl)
                eq_refl).
  vm_compute. discriminate.
Defined.

(* ===================================================================== *)
(** ** C6: a rename onto the same backing path *)
(* ===================================================================== *)

(** C6, as stated, fails: the compat-mode rename of the example store
    from cur/ to new/ decodes to the same backing path on both sides, and
    the index is still asked for the message by that path and told to
    turn its maildir flags into tags (and to add 'unread'). *)
Lemma C6_counterexample :
  let from := lit "/inbox/cur/#m#a#cur#1:2," in
  let to := lit "/inbox/new/#m#a#cur#1:2," in
  let r := notmuchfs_rename ex_os (ex_nm true NOTMUCH_STATUS_SUCCESS)
             (ex_cfg true) NOTMUCHFS_DEBUG_default from to in
  trans_name_of from 10 = mail_a /\ trans_name_of to 10 = mail_a
  /\ r = ([EvRename mail_a mail_a; EvDatabaseOpen true; EvBeginAtomic;
           EvFindMessage mail_a; EvFlagsToTags mail_a;
           EvAddTag mail_a (lit "unread"); EvEndAtomic; EvDatabaseClose],
          Ret 0).
Proof. repeat split. Qed.

Lemma added_tags_app (t1 t2 : list event) :
  added_tags (t1 ++ t2) = added_tags t1 ++ added_tags t2.
Proof.
  induction t1 as [|e t1 IH]; [reflexivity|].
  destruct e; cbn [app added_tags]; rewrite ?IH; reflexivity.
Qed.

Lemma added_tags_no_index_call (t : list event) :
  index_calls t = [] -> added_tags t = [].
Proof.
  unfold index_calls. induction t as [|e t IH]; [reflexivity|].
  destruct e; cbn [filter is_index_call added_tags]; try exact IH;
    discriminate.
Qed.

(** The value 1 of [mutt_2476_workaround] is Case 1 of the source: the
    workaround is allowed, the three bytes before the last '/' of [from]
    are 'cur' and those before the last '/' of [to] are 'new'. *)
Lemma rename_validate_case1 os cfg dbg from to lsf lst tv :
  rename_validate os cfg dbg from to (Some lsf) (Some lst)
  = (tv, Ret (inr 1)) ->
  mutt_2476_workaround_allowed cfg = true
  /\ memcmp_eq from (lsf - 3) (lit "cur") 3 = true
  /\ memcmp_eq to (lst - 3) (lit "new") 3 = true.
Proof.
  unfold rename_validate.
  destruct (strrchr1 from "#"%char) as [pf|], (strrchr1 to "#"%char) as [pt|];
    intros H; pose proof (f_equal snd H) as Hs; revert Hs; clear H; io_norm;
    try discriminate.
  - destruct (negb (pf =? pt)%nat); io_norm; [discriminate|].
    destruct (negb (strncmp_eq from to pf)); io_norm; [|discriminate].
    destruct (mutt_2476_workaround_allowed cfg); io_norm; [|discriminate].
    unfold mutt_2476_case.
    destruct ((3 <=? lsf)%nat && memcmp_eq from 0 to (lsf - 3));
      io_norm; [|discriminate].
    destruct (memcmp_eq from (lsf - 3) (lit "cur") 3) eqn:Ecur;
      [|destruct (memcmp_eq from (lsf - 3) (lit "new") 3)];
      io_norm; try discriminate;
      destruct (lst <? 3)%nat; io_norm; try discriminate.
    + destruct (memcmp_eq to (lst - 3) (lit "new") 3) eqn:Enew; io_norm;
        [intros _; repeat split|cbn; discriminate].
    + destruct (memcmp_eq to (lst - 3) (lit "cur") 3); io_norm;
        destruct dbg; cbn; discriminate.
  - destruct (os_rename os (skipn 1 from) (skipn 1 to)); io_norm;
      discriminate.
Qed.

(** The trace of the index part of a rename onto the same backing path,
    when the atomic section opens and the message is found. *)
Lemma rename_index_same_path nm cfg dbg F T w m :
  strncmp_eq F T PATH_MAX = true ->
  nm_begin_atomic nm = NOTMUCH_STATUS_SUCCESS ->
  nm_find_message_by_filename nm T = (NOTMUCH_STATUS_SUCCESS, Some m) ->
  added_tags (fst (rename_index nm cfg dbg F T w))
  = (if mutt_2476_workaround_allowed cfg && (w =? 1)
     then [(T, lit "unread")] else [])
  /\ exists res, snd (rename_index nm cfg dbg F T w) = Ret res.
Proof.
  intros Hcmp Hb Hm. unfold rename_index, rename_sync.
  rewrite Hcmp, Hb, Hm. cbn [status_eqb negb]. io_norm.
  destruct (mutt_2476_workaround_allowed cfg && (w =? 1)); io_norm;
    destruct (negb (status_eqb (nm_end_atomic nm) NOTMUCH_STATUS_SUCCESS));
    destruct dbg; cbn; eauto.
Qed.

(** C6, amended.  For a rename accepted by the validation whose decoded
    source and destination backing paths are equal, the add of T and the
    remove of F are skipped: the rename makes no addition to and no
    removal from the index.  The second lookup is not skipped: once in
    the atomic section the message is looked up by T, and when it is
    found its maildir flags are turned into tags; and when the validation
    took the rename for the workaround's move from cur/ to new/
    ([mutt_2476_workaround] = 1: the workaround is allowed, 'cur' stands
    before the last '/' of the source and 'new' before that of the
    destination), the tag 'unread' is added to it, and no tag
    otherwise. *)
Theorem C6_same_path_skips_the_swap_only :
  forall (os : OS) (nm : Notmuch) (cfg : notmuchfs_config) (dbg : bool)
         (from to : cstr) (lsf lst : nat) (tv topen : list event) (w : Z),
    strrchr1 from "/"%char = Some lsf -> strrchr1 to "/"%char = Some lst ->
    rename_validate os cfg dbg from to (Some lsf) (Some lst)
    = (tv, Ret (inr w)) ->
    let F := trans_name_of from lsf in
    let T := trans_name_of to lst in
    F = T ->
    os_rename os F T = None ->
    database_open nm dbg true = (topen, Ret tt) ->
    let t := fst (notmuchfs_rename os nm cfg dbg from to) in
    index_writes t = []
    /\ (w = 1 ->
        mutt_2476_workaround_allowed cfg = true
        /\ memcmp_eq from (lsf - 3) (lit "cur") 3 = true
        /\ memcmp_eq to (lst - 3) (lit "new") 3 = true)
    /\ (nm_begin_atomic nm = NOTMUCH_STATUS_SUCCESS ->
        In (EvFindMessage T) t
        /\ forall m,
             nm_find_message_by_filename nm T
             = (NOTMUCH_STATUS_SUCCESS, Some m) ->
             In (EvFlagsToTags T) t
             /\ added_tags t
                = if w =? 1 then [(T, lit "unread")] else []).
Proof.
  intros os nm cfg dbg from to lsf lst tv topen w Hf Ht Hv F T Heq Hmv
         Hopen t.
  assert (Hcmp : strncmp_eq F T PATH_MAX = true).
  { rewrite strncmp_path_eq by apply trans_name_of_length.
    rewrite Heq. apply cstr_eqb_refl. }
  assert (Et : t = tv ++ (if dbg then [EvTrace "rename(%s, %s)\n" [F; T]]
                          else [])
                   ++ [EvRename F T] ++ topen
                   ++ fst (rename_index nm cfg dbg F T w)
                   ++ match snd (rename_index nm cfg dbg F T w) with
                      | Ret _ => fst (database_close dbg)
                      | _ => []
                      end).
  { unfold t. now rewrite (rename_accepted_trace _ _ _ _ _ _ _ _ _ _ _
                             Hf Ht Hv Hmv Hopen). }
  destruct (rename_validate_accepted _ _ _ _ _ _ _ _ _ Hv)
    as (Hvc & Hvw & _ & _).
  destruct (database_open_Ret _ _ _ _ Hopen) as (Hoc & How & _).
  destruct (rename_sync_trace nm cfg dbg T w) as (Hyw & Hfind & Hflags & _).
  assert (Hcase : w = 1 ->
                  mutt_2476_workaround_allowed cfg = true
                  /\ memcmp_eq from (lsf - 3) (lit "cur") 3 = true
                  /\ memcmp_eq to (lst - 3) (lit "new") 3 = true).
  { intros ->. exact (rename_validate_case1 _ _ _ _ _ _ _ _ Hv). }
  split; [|split; [exact Hcase|]].
  - rewrite Et. unfold index_writes in *.
    rewrite !filter_app, Hvw, How, database_close_trace.
    assert (Hidx : filter is_index_write
                     (fst (rename_index nm cfg dbg F T w)) = []).
    { unfold rename_index. io_norm. rewrite Hcmp. cbn [negb].
      destruct (negb (status_eqb (nm_begin_atomic nm) _)); io_norm;
        [reflexivity|].
      cbn [app filter is_index_write]. rewrite !filter_app, Hyw.
      destruct (snd (rename_sync nm cfg dbg T w)); io_norm;
        try reflexivity.
      destruct (negb (status_eqb (nm_end_atomic nm) _)); reflexivity. }
    rewrite Hidx.
    destruct (snd (rename_index nm cfg dbg F T w)), dbg; reflexivity.
  - intros Hbegin.
    assert (Hb : status_eqb (nm_begin_atomic nm) NOTMUCH_STATUS_SUCCESS
                 = true) by now rewrite Hbegin.
    assert (Hin : forall e, In e (fst (rename_sync nm cfg dbg T w)) ->
                            In e t).
    { intros e He. rewrite Et, (rename_index_trace _ _ _ _ _ _ Hb), Hcmp.
      apply in_or_app. right. apply in_or_app. right.
      apply in_or_app. right. apply in_or_app. right.
      apply in_or_app. left. apply in_or_app. right.
      apply in_or_app. right. apply in_or_app. left. exact He. }
    split; [now apply Hin|].
    intros m Hm. split; [apply Hin; now apply (Hflags m)|].
    destruct (rename_index_same_path nm cfg dbg F T w m Hcmp Hbegin Hm)
      as (Htags & res & Hres).
    rewrite Et, !added_tags_app, Htags, Hres, database_close_trace.
    rewrite (added_tags_no_index_call _ Hvc),
            (added_tags_no_index_call _ Hoc).
    cbn [fst].
    replace (mutt_2476_workaround_allowed cfg && (w =? 1)) with (w =? 1).
    + destruct dbg, (w =? 1); reflexivity.
    + destruct (w =? 1) eqn:Ew; [|now rewrite andb_false_r].
      apply Z.eqb_eq in Ew. destruct (Hcase Ew) as [-> _]. reflexivity.
Qed.

(** C6 on two renames of the first message of the example store: onto
    its own name, and, with the workaround, from cur/ to new/ under the
    same encoded name. *)
Lemma C6_witness :
  let t := fst (notmuchfs_rename ex_os (ex_nm true NOTMUCH_STATUS_SUCCESS)
                  (ex_cfg false) NOTMUCHFS_DEBUG_default
                  (lit "/inbox/cur/#m#a#cur#1:2,")
                  (lit "/inbox/cur/#m#a#cur#1:2,")) in
  let t' := fst (notmuchfs_rename ex_os (ex_nm true NOTMUCH_STATUS_SUCCESS)
                   (ex_cfg true) NOTMUCHFS_DEBUG_default
                   (lit "/inbox/cur/#m#a#cur#1:2,")
                   (lit "/inbox/new/#m#a#cur#1:2,")) in
  (index_writes t = [] /\ In (EvFindMessage mail_a) t
   /\ In (EvFlagsToTags mail_a) t /\ added_tags t = [])
  /\ (index_writes t' = [] /\ In (EvFindMessage mail_a) t'
      /\ In (EvFlagsToTags mail_a) t'
      /\ added_tags t' = [(mail_a, lit "unread")]).
Proof.
  split.
  - destruct (C6_same_path_skips_the_swap_only
                ex_os (ex_nm true NOTMUCH_STATUS_SUCCESS) (ex_cfg false)
                NOTMUCHFS_DEBUG_default
                (lit "/inbox/cur/#m#a#cur#1:2,")
                (lit "/inbox/cur/#m#a#cur#1:2,")
                10%nat 10%nat [] [EvDatabaseOpen true] 0
                eq_refl eq_refl eq_refl eq_refl eq_refl eq_refl)
      as (Hw & _ & Hsync).
    destruct (Hsync eq_refl) as [Hfind Hflags].
    destruct (Hflags msg_a eq_refl) as [Hf Htags].
    split; [exact Hw|]. split; [exact Hfind|]. split; [exact Hf|].
    exact Htags.
  - destruct (C6_same_path_skips_the_swap_only
                ex_os (ex_nm true NOTMUCH_STATUS_SUCCESS) (ex_cfg true)
                NOTMUCHFS_DEBUG_default
                (lit "/inbox/cur/#m#a#cur#1:2,")
                (lit "/inbox/new/#m#a#cur#1:2,")
                10%nat 10%nat [] [EvDatabaseOpen true] 1
                eq_refl eq_refl eq_refl eq_refl eq_refl eq_refl)
      as (Hw & _ & Hsync).
    destruct (Hsync eq_refl) as [Hfind Hflags].
    destruct (Hflags msg_a eq_refl) as [Hf Htags].
    split; [exact Hw|]. split; [exact Hfind|]. split; [exact Hf|].
    exact Htags.
Defined.

(* ===================================================================== *)
(** ** C5: the validation of a rename *)
(* ===================================================================== *)

(** The rejections that hold as the specification words them: exactly
    one name with '#', different positions of the last '#', and, without
    the workaround, different bytes before it.  Each ends in "not
    supported" before anything touches the backing store or the index. *)
Lemma rename_rejects_one_sided os nm cfg dbg from to :
  (strrchr1 from "#"%char = None <-> strrchr1 to "#"%char <> None) ->
  snd (notmuchfs_rename os nm cfg dbg from to) = Ret (- ENOTSUP)
  /\ Forall (fun e => touches_store e = false)
            (fst (notmuchfs_rename os nm cfg dbg from to)).
Proof.
  intros H. unfold notmuchfs_rename, rename_validate.
  destruct (strrchr1 from "#"%char) as [pf|], (strrchr1 to "#"%char) as [pt|].
  - exfalso. destruct H as [_ H]. discriminate H. discriminate.
  - io_norm. destruct dbg; repeat constructor.
  - io_norm. destruct dbg; repeat constructor.
  - exfalso. destruct H as [H _]. now apply H.
Qed.

Lemma rename_rejects_different_positions os nm cfg dbg from to pf pt :
  strrchr1 from "#"%char = Some pf -> strrchr1 to "#"%char = Some pt ->
  pf <> pt ->
  snd (notmuchfs_rename os nm cfg dbg from to) = Ret (- ENOTSUP)
  /\ Forall (fun e => touches_store e = false)
            (fst (notmuchfs_rename os nm cfg dbg from to)).
Proof.
  intros Hf Ht Hne. unfold notmuchfs_rename, rename_validate.
  rewrite Hf, Ht. apply Nat.eqb_neq in Hne. rewrite Hne. cbn [negb].
  io_norm. destruct dbg; repeat constructor.
Qed.

Lemma rename_rejects_different_prefix os nm cfg dbg from to p :
  strrchr1 from "#"%char = Some p -> strrchr1 to "#"%char = Some p ->
  firstn p from <> firstn p to ->
  mutt_2476_workaround_allowed cfg = false ->
  snd (notmuchfs_rename os nm cfg dbg from to) = Ret (- ENOTSUP)
  /\ Forall (fun e => touches_store e = false)
            (fst (notmuchfs_rename os nm cfg dbg from to)).
Proof.
  intros Hf Ht Hne Hoff. unfold notmuchfs_rename, rename_validate.
  rewrite Hf, Ht, Nat.eqb_refl, Hoff. cbn [negb].
  unfold strncmp_eq. rewrite (cstr_eqb_neq _ _ Hne). cbn [negb].
  io_norm. repeat constructor.
Qed.

(** C5 (defect).  With the workaround enabled, the rescue test compares
    the bytes before the parent segment of the source only
    ([memcmp(from, to, last_slash_from - from - 3)]) and then looks for
    'cur' and 'new' before the last '/' of each name, wherever that is.
    Here the last '#' is at index 15 in both names and the bytes before
    it differ; the parent segments are 'cur' and 'new', but the bytes
    before them are "/inbox/" and "/inbox/cur/".  The rename is not
    rejected: the file /m/a/1 is moved to /1 and the index rewritten. *)
Theorem C5_rescue_with_different_earlier_bytes :
  let from := lit "/inbox/cur/#m#a#1" in
  let to := lit "/inbox/cur/new/#1" in
  strrchr1 from "#"%char = Some 15%nat /\ strrchr1 to "#"%char = Some 15%nat
  /\ firstn 15 from <> firstn 15 to
  /\ strrchr1 from "/"%char = Some 10%nat
  /\ strrchr1 to "/"%char = Some 14%nat
  /\ firstn 3 (skipn 7 from) = lit "cur" /\ firstn 3 (skipn 11 to) = lit "new"
  /\ firstn 7 from <> firstn 11 to
  /\ notmuchfs_rename ex_os (ex_nm true NOTMUCH_STATUS_DUPLICATE_MESSAGE_ID)
       (ex_cfg true) NOTMUCHFS_DEBUG_default from to
     = ([EvRename (lit "/m/a/1") (lit "/1"); EvDatabaseOpen true;
         EvBeginAtomic; EvAddMessage (lit "/1");
         EvRemoveMessage (lit "/m/a/1"); EvFindMessage (lit "/1");
         EvFlagsToTags (lit "/1"); EvAddTag (lit "/1") (lit "unread");
         EvEndAtomic; EvDatabaseClose], Ret 0).
Proof.
  cbv zeta.
  repeat (split; [first [reflexivity | vm_compute; discriminate]|]).
  reflexivity.
Qed.

(* ===================================================================== *)
(** ** C3: the offsets of a cur/ listing *)
(* ===================================================================== *)

Lemma fills_app (t1 t2 : list event) : fills (t1 ++ t2) = fills t1 ++ fills t2.
Proof.
  induction t1 as [|e t1 IH]; [reflexivity|].
  destruct e; cbn [app fills]; rewrite ?IH; reflexivity.
Qed.

Lemma offsets_ok_app log1 : forall k pending log2,
  offsets_ok k pending (log1 ++ log2)
  <-> offsets_ok k pending log1
      /\ offsets_ok (fst (log_end k pending log1))
                    (snd (log_end k pending log1)) log2.
Proof.
  induction log1 as [|[[[name st] off] full] log1 IH]; intros k pending log2.
  - cbn [app offsets_ok log_end fst snd]. tauto.
  - cbn [app offsets_ok log_end].
    destruct st as [s|]; [destruct full|]; rewrite IH; tauto.
Qed.

Lemma offsets_ok_taken log : forall k pending,
  offsets_ok k pending log ->
  taken_offsets log = count_from k (length (taken_offsets log)).
Proof.
  induction log as [|[[[name st] off] full] log IH]; intros k pending H;
    [reflexivity|].
  cbn [offsets_ok] in H. destruct H as (-> & _ & H).
  cbn [taken_offsets]. destruct st as [s|]; [destruct full|].
  - now apply (IH k (Some name)).
  - cbn [length count_from]. f_equal. now apply (IH (k + 1) None).
  - cbn [length count_from]. f_equal. now apply (IH (k + 1) None).
Qed.

Section ReaddirProofs.

Variable os : OS.
Variable dirbuf : Type.
Variable filler : dirbuf -> cstr -> option stat_t -> Z -> dirbuf * bool.

(** The three ways [fill_dir_with_message] ends: nothing emitted, the
    entry taken, or the entry refused by a full buffer. *)
Lemma fill_dir_with_message_cases k m buf :
  exists t res k' buf',
    fill_dir_with_message os dirbuf filler k m buf
    = (t, Ret (res, k', buf'))
    /\ ((fills t = [] /\ k' = k
         /\ forall f st, msg_filename m = Some f -> os_stat os f <> inr st)
        \/ (exists f st,
               msg_filename m = Some f /\ os_stat os f = inr st
               /\ ((fills t = [(encode_name f, Some (inflate st), k, false)]
                    /\ res = 0 /\ k' = k + 1)
                   \/ (fills t
                       = [(encode_name f, Some (inflate st), k, true)]
                       /\ res = INT_MAX /\ k' = k)))).
Proof.
  unfold fill_dir_with_message, fill.
  destruct (msg_filename m) as [f|].
  - destruct (os_stat os f) as [errno|st] eqn:Es.
    + destruct (errno =? ENOENT); cbn; do 4 eexists;
        (split; [reflexivity|]); left; repeat split;
        intros f' st' [= <-]; congruence.
    + destruct (filler buf (encode_name f) (Some (inflate st)) k)
        as [buf' full].
      destruct full; cbn; do 4 eexists; (split; [reflexivity|]);
        right; exists f, st; (split; [reflexivity|]);
        (split; [exact Es|]).
      * right. repeat split. lia.
      * left. repeat split.
  - cbn. do 4 eexists. split; [reflexivity|]. left. repeat split.
    intros f st [=].
Qed.

Lemma readdir_messages_spec msgs : forall k buf pending,
  pending_ok os msgs pending ->
  exists t res msgs' k' buf',
    readdir_messages os dirbuf filler msgs k buf
    = (t, Ret (res, msgs', k', buf'))
    /\ offsets_ok k pending (fills t)
    /\ k' = fst (log_end k pending (fills t))
    /\ pending_ok os msgs' (snd (log_end k pending (fills t))).
Proof.
  induction msgs as [|m rest IH]; intros k buf pending Hp.
  - cbn. do 5 eexists. split; [reflexivity|]. cbn. auto.
  - cbn [readdir_messages].
    destruct (fill_dir_with_message_cases k m buf)
      as (t & res & k' & buf' & -> & Hcase).
    rewrite bind_Ret. cbn [fst snd].
    destruct Hcase as [(Hf & -> & Hno)|(f & st & Hm & Hs & Hcase)].
    + (* nothing emitted: no entry can be pending *)
      assert (pending = None) as ->.
      { destruct pending as [nm|]; [|reflexivity]. exfalso.
        destruct Hp as (m' & rest' & f & st & [= <- <-] & Hmf & Hst & _).
        exact (Hno f st Hmf Hst). }
      destruct (res =? INT_MAX).
      * cbn. do 5 eexists. split; [reflexivity|].
        rewrite app_nil_r, Hf. cbn. auto.
      * destruct (res =? 0).
        -- destruct (IH k buf' None I)
             as (t2 & res2 & msgs2 & k2 & buf2 & -> & Hok & Hk & Hpo).
           cbn [fst snd]. do 5 eexists. split; [reflexivity|].
           rewrite fills_app, Hf. cbn [app]. auto.
        -- cbn. do 5 eexists. split; [reflexivity|].
           rewrite app_nil_r, Hf. cbn. auto.
    + assert (Hname : match pending with
                      | Some nm => encode_name f = nm
                      | None => True
                      end).
      { destruct pending as [nm|]; [|exact I].
        destruct Hp as (m' & rest' & f' & st' & [= <- <-] & Hmf & _ & <-).
        congruence. }
      destruct Hcase as [(Hf & -> & ->)|(Hf & -> & ->)].
      * change (0 =? INT_MAX) with false. change (0 =? 0) with true.
        cbv iota.
        destruct (IH (k + 1) buf' None I)
          as (t2 & res2 & msgs2 & k2 & buf2 & -> & Hok & Hk & Hpo).
        cbn [fst snd]. do 5 eexists. split; [reflexivity|].
        rewrite fills_app, Hf. cbn [app offsets_ok log_end]. auto.
      * change (INT_MAX =? INT_MAX) with true. cbv iota.
        cbn. do 5 eexists. split; [reflexivity|].
        rewrite app_nil_r, Hf. cbn. repeat split; auto.
        exists m, rest, f, st. auto.
Qed.

(** One call of readdir on a query directory. *)
Lemma readdir_query_spec d buf offset_in pending :
  type d = OPENDIR_TYPE_NOTMUCH_QUERY ->
  pending_ok os (p_messages d) pending ->
  (offset_in = 0 -> pending = None) ->
  exists t res d' buf',
    notmuchfs_readdir os dirbuf filler d buf offset_in
    = (t, Ret (res, d', buf'))
    /\ type d' = OPENDIR_TYPE_NOTMUCH_QUERY
    /\ offsets_ok (next_offset d) pending (fills t)
    /\ next_offset d' = fst (log_end (next_offset d) pending (fills t))
    /\ pending_ok os (p_messages d')
                  (snd (log_end (next_offset d) pending (fills t))).
Proof.
  intros Hty Hp Hzero. unfold notmuchfs_readdir. rewrite Hty.
  destruct (Z.eqb_spec offset_in 0) as [E0|_].
  - rewrite (Hzero E0) in *. unfold fill.
    destruct (filler buf (lit ".") None (next_offset d)) as [b1 f1].
    cbn [bind emit ret app fst snd].
    destruct (filler b1 (lit "..") None (next_offset d + 1)) as [b2 f2].
    cbn [bind emit ret app fst snd].
    destruct (readdir_messages_spec (p_messages d) (next_offset d + 2) b2
                None I)
      as (t & res & msgs' & k' & buf' & -> & Hok & Hk & Hpo).
    cbn [bind ret app fst snd]. do 4 eexists. split; [reflexivity|].
    rewrite app_nil_r. cbn [fills offsets_ok log_end type next_offset
                            p_messages].
    replace (next_offset d + 1 + 1) with (next_offset d + 2) by lia.
    repeat split; auto.
  - destruct (negb (offset_in + 1 =? next_offset d)).
    + cbn. do 4 eexists. split; [reflexivity|]. cbn. auto.
    + destruct (readdir_messages_spec (p_messages d) (next_offset d) buf
                  pending Hp)
        as (t & res & msgs' & k' & buf' & -> & Hok & Hk & Hpo).
      cbn [bind ret app fst snd]. do 4 eexists. split; [reflexivity|].
      rewrite app_nil_r. cbn [type next_offset p_messages]. auto.
Qed.

Lemma readdir_seq_spec calls : forall d pending,
  type d = OPENDIR_TYPE_NOTMUCH_QUERY ->
  pending_ok os (p_messages d) pending ->
  (forall c, In c calls -> fst c <> 0) ->
  offsets_ok (next_offset d) pending
             (fills (readdir_seq os dirbuf filler d calls)).
Proof.
  induction calls as [|[offset_in buf] calls IH]; intros d pending Hty Hp Hnz;
    [exact I|].
  cbn [readdir_seq].
  destruct (readdir_query_spec d buf offset_in pending Hty Hp)
    as (t & res & d' & buf' & -> & Hty' & Hok & Hk & Hpo).
  { intros E. destruct (Hnz (offset_in, buf) (or_introl eq_refl) E). }
  rewrite fills_app. apply offsets_ok_app. split; [exact Hok|].
  rewrite <- Hk. apply IH; [exact Hty'|exact Hpo|].
  intros c Hc. apply Hnz. now right.
Qed.

End ReaddirProofs.

(** The handle that a successful opendir of /<query>/cur leaves. *)
Lemma opendir_query_handle os nm dbg fuel p_ctx path last_slash t d ctx' :
  opendir_query os nm dbg fuel p_ctx path last_slash
  = (t, Ret (0, d, ctx')) ->
  type d = OPENDIR_TYPE_NOTMUCH_QUERY /\ next_offset d = 1.
Proof.
  unfold opendir_query. destruct (PATH_MAX <? last_slash)%nat;
    [discriminate|].
  intros H. inv_io. destruct a as [res trans_name]. inv_io.
  destruct (nm_query_create nm trans_name).
  - destruct (exclude_tags (excluded_tags p_ctx)) as [tags mem].
    inv_io.
    destruct (nm_search_messages nm trans_name tags) as [st msgs].
    destruct st; inv_io; subst; auto.
  - inv_io. subst. auto.
Qed.

(** C3.  On the handle that opendir of /Q/cur leaves (a query directory
    with [next_offset] 1): the readdir call with offset 0 emits '.' at
    offset 1 and '..' at offset 2; over that call and any continuation
    calls after it, every entry is emitted at the next offset of 1, 2, 3,
    ... (the offsets of the entries taken are exactly that sequence,
    without gaps), and an entry that a full buffer refused is the next
    one emitted, at its old offset; a continuation call whose offset is
    neither 0 nor [next_offset - 1] fails with EDOM, emitting nothing and
    leaving the handle as it was. *)
Theorem C3_readdir_offsets :
  forall (os : OS) (dirbuf : Type)
         (filler : dirbuf -> cstr -> option stat_t -> Z -> dirbuf * bool)
         (dir_fd : opendir_t),
    type dir_fd = OPENDIR_TYPE_NOTMUCH_QUERY ->
    next_offset dir_fd = 1 ->
    (forall buf,
        exists full1 full2 t res d' buf',
          notmuchfs_readdir os dirbuf filler dir_fd buf 0
          = (EvFill (lit ".") None 1 full1
             :: EvFill (lit "..") None 2 full2 :: t,
             Ret (res, d', buf')))
    /\ (forall buf0 calls,
           (forall c, In c calls -> fst c <> 0) ->
           let log := fills (readdir_seq os dirbuf filler dir_fd
                                         ((0, buf0) :: calls)) in
           offsets_ok 1 None log
           /\ taken_offsets log = count_from 1 (length (taken_offsets log)))
    /\ (forall d buf offset_in,
           type d = OPENDIR_TYPE_NOTMUCH_QUERY ->
           offset_in <> 0 -> offset_in + 1 <> next_offset d ->
           notmuchfs_readdir os dirbuf filler d buf offset_in
           = ([EvStderr "ERROR: discontiguous dir offsets %ld %ld.\n" []],
              Ret (- EDOM, d, buf))).
Proof.
  intros os dirbuf filler dir_fd Hty Hk. split; [|split].
  - intros buf. unfold notmuchfs_readdir, fill. rewrite Hty, Hk.
    change (0 =? 0) with true. cbv iota.
    destruct (filler buf (lit ".") None 1) as [b1 f1].
    cbn [bind emit ret app fst snd].
    destruct (filler b1 (lit "..") None (1 + 1)) as [b2 f2].
    cbn [bind emit ret app fst snd].
    destruct (readdir_messages_spec os dirbuf filler (p_messages dir_fd)
                (1 + 2) b2 None I)
      as (t & res & msgs' & k' & buf' & -> & _).
    cbn [bind ret app fst snd]. do 6 eexists. reflexivity.
  - intros buf0 calls Hnz log.
    assert (Hok : offsets_ok 1 None log).
    { unfold log. cbn [readdir_seq].
      destruct (readdir_query_spec os dirbuf filler dir_fd buf0 0 None
                  Hty I (fun _ => eq_refl))
        as (t & res & d' & buf' & -> & Hty' & Hok & Hnext & Hpo).
      rewrite fills_app. apply offsets_ok_app. rewrite Hk in *.
      split; [exact Hok|]. rewrite <- Hnext.
      apply readdir_seq_spec; [exact Hty'|exact Hpo|exact Hnz]. }
    split; [exact Hok|]. now apply (offsets_ok_taken log 1 None).
  - intros d buf offset_in Hd Hnz Hne. unfold notmuchfs_readdir.
    rewrite Hd. destruct (Z.eqb_spec offset_in 0); [contradiction|].
    destruct (Z.eqb_spec (offset_in + 1) (next_offset d)); [contradiction|].
    reflexivity.
Qed.

(** C3 on the listing of the example store, into buffers of three
    entries: the second message does not fit the first buffer and comes
    again at offset 4; a call at offset 10 in between is refused. *)
Lemma C3_witness :
  let d := mk_opendir OPENDIR_TYPE_NOTMUCH_QUERY [msg_a; msg_b] None 1 in
  let log := fills (readdir_seq ex_os _ (counting_filler 3) d
                                [(0, []); (10, []); (3, [])]) in
  map (fun e => (fst (fst (fst e)), snd (fst e), snd e)) log
  = [(lit ".", 1, false); (lit "..", 2, false);
     (lit "#m#a#cur#1:2,", 3, false); (lit "#m#b#cur#2:2,S", 4, true);
     (lit "#m#b#cur#2:2,S", 4, false)]
  /\ offsets_ok 1 None log
  /\ taken_offsets log = [1; 2; 3; 4]
  /\ notmuchfs_readdir ex_os _ (counting_filler 3)
       (mk_opendir OPENDIR_TYPE_NOTMUCH_QUERY [msg_b] None 4) [] 10
     = ([EvStderr "ERROR: discontiguous dir offsets %ld %ld.\n" []],
        Ret (- EDOM, mk_opendir OPENDIR_TYPE_NOTMUCH_QUERY [msg_b] None 4,
             [])).
Proof.
  destruct (C3_readdir_offsets ex_os _ (counting_filler 3)
              (mk_opendir OPENDIR_TYPE_NOTMUCH_QUERY [msg_a; msg_b] None 1)
              eq_refl eq_refl) as (_ & Hseq & Hdom).
  destruct (Hseq [] [(10, []); (3, [])]) as [Hok Htaken].
  { intros c [<-|[<-|[]]]; cbn; discriminate. }
  split; [reflexivity|]. split; [exact Hok|]. split; [reflexivity|].
  apply Hdom; [reflexivity|discriminate|discriminate].
Defined.

(* ===================================================================== *)
(** ** Further properties of the code *)
(* ===================================================================== *)

(** *** string_replace as a codec *)

(** X1.  Replacing [a] by [b] and then [b] by [a] gives the string back
    when it held no [b] to begin with: names without '#' survive encoding
    and decoding, tokens without '/' survive decoding and encoding. *)
Theorem X1_string_replace_round_trip :
  forall (s : cstr) (a b : ascii),
    ~ In b s ->
    string_replace (string_replace s a b) b a = s.
Proof.
  intros s a b H. unfold string_replace. rewrite map_map.
  rewrite <- (map_id s) at 2. apply map_ext_in. intros x Hx.
  destruct (Ascii.eqb_spec x a) as [->|Hxa].
  - now rewrite Ascii.eqb_refl.
  - destruct (Ascii.eqb_spec x b) as [->|_]; [contradiction|reflexivity].
Qed.

Lemma X1_witness :
  string_replace (string_replace mail_a "/" "#") "#" "/" = mail_a
  /\ string_replace (string_replace (lit "#m#a") "#" "/") "/" "#"
     = lit "#m#a".
Proof.
  split.
  - apply X1_string_replace_round_trip.
    vm_compute. intuition discriminate.
  - apply X1_string_replace_round_trip.
    vm_compute. intuition discriminate.
Defined.

(** *** readdir and getattr tell the same lie *)

Lemma encode_name_short (f : cstr) :
  (length f < PATH_MAX)%nat -> encode_name f = encode f.
Proof.
  intros H. unfold encode_name, encode. now rewrite strncpy_path_short.
Qed.

(** X2.  For a message whose file exists, the entry that readdir hands to
    the filler and getattr on that entry's name below /Q/cur/ report the
    same attributes: those of the file, with the size raised by 1024. *)
Theorem X2_readdir_entry_matches_getattr :
  forall (os : OS) (cfg : notmuchfs_config) (dirbuf : Type)
         (filler : dirbuf -> cstr -> option stat_t -> Z -> dirbuf * bool)
         (Q b : cstr) (m : message) (st : stat_t) (k : Z) (buf : dirbuf),
    let f := "/"%char :: b in
    msg_filename m = Some f ->
    ~ In "/"%char Q -> ~ In "#"%char f -> (length f < PATH_MAX)%nat ->
    os_stat os f = inr st ->
    exists name attrs full,
      fills (fst (fill_dir_with_message os dirbuf filler k m buf))
      = [(name, Some attrs, k, full)]
      /\ name = encode f
      /\ st_size attrs = st_size st + 1024
      /\ notmuchfs_getattr os cfg ("/"%char :: Q ++ lit "/cur/" ++ name)
         = Ret (0, attrs).
Proof.
  intros os cfg dirbuf filler Q b m st k buf f Hm HQ Hf Hlen Hst.
  exists (encode f), (inflate st).
  unfold fill_dir_with_message, fill. rewrite Hm, Hst.
  rewrite (encode_name_short f Hlen).
  destruct (filler buf (encode f) (Some (inflate st)) k) as [buf' full].
  exists full. split; [destruct full; reflexivity|].
  split; [reflexivity|]. split; [reflexivity|].
  change ("/"%char :: Q ++ lit "/cur/" ++ encode f) with (virtual_path Q f).
  unfold f. rewrite getattr_virtual by assumption.
  fold f. rewrite Hst. reflexivity.
Qed.

Lemma X2_witness :
  fills (fst (fill_dir_with_message ex_os _ (counting_filler 3) 3 msg_a []))
  = [(lit "#m#a#cur#1:2,", Some (reg_stat 7 1036), 3, false)]
  /\ notmuchfs_getattr ex_os (ex_cfg false)
       (lit "/inbox/cur/#m#a#cur#1:2,")
     = Ret (0, reg_stat 7 1036).
Proof.
  destruct (X2_readdir_entry_matches_getattr
              ex_os (ex_cfg false) _ (counting_filler 3)
              (lit "inbox") (lit "m/a/cur/1:2,") msg_a (reg_stat 7 12) 3 [])
    as (name & attrs & full & Hfill & Hname & _ & Hget).
  - reflexivity.
  - vm_compute. intuition discriminate.
  - vm_compute. intuition discriminate.
  - vm_compute. repeat constructor.
  - reflexivity.
  - injection Hfill as <- <- <-. split; [reflexivity|exact Hget].
Defined.

(** *** database_open *)

Lemma database_open_loop_retries need_write n : forall s rest,
  s <> NOTMUCH_STATUS_XAPIAN_EXCEPTION ->
  let r := database_open_loop need_write
             (repeat NOTMUCH_STATUS_XAPIAN_EXCEPTION n ++ s :: rest) in
  snd r = (if status_eqb s NOTMUCH_STATUS_SUCCESS then Ret tt
           else ProcExit 1)
  /\ length (filter is_sleep (fst r)) = n
  /\ length (filter is_attempt (fst r)) = S n.
Proof.
  induction n as [|n IH]; intros s rest Hs; cbv zeta.
  - cbn [repeat app database_open_loop]. io_norm.
    destruct s; try contradiction; repeat split.
  - cbn [repeat app database_open_loop]. io_norm.
    destruct (IH s rest Hs) as (Ho & Hsl & Hat).
    rewrite Ho. cbn [app filter is_sleep is_attempt length].
    repeat split; [rewrite Hsl|rewrite Hat]; reflexivity.
Qed.

(** X3.  When [notmuch_database_open] reports contention
    ([XAPIAN_EXCEPTION]) [n] times and then something else,
    [database_open] has slept [n] times and tried [n + 1] times; it
    returns only if that last answer is success and the database needs
    no upgrade, and exits with code 1 otherwise. *)
Theorem X3_database_open_retries_on_contention :
  forall (nm : Notmuch) (dbg need_write : bool) (n : nat)
         (s : notmuch_status) (rest : list notmuch_status),
    nm_open_script nm
    = repeat NOTMUCH_STATUS_XAPIAN_EXCEPTION n ++ s :: rest ->
    s <> NOTMUCH_STATUS_XAPIAN_EXCEPTION ->
    let r := database_open nm dbg need_write in
    snd r = (if status_eqb s NOTMUCH_STATUS_SUCCESS
                && negb (nm_needs_upgrade nm)
             then Ret tt else ProcExit 1)
    /\ length (filter is_sleep (fst r)) = n
    /\ length (filter is_attempt (fst r)) = S n.
Proof.
  intros nm dbg need_write n s rest Hscript Hs. cbv zeta.
  unfold database_open. io_norm. rewrite Hscript.
  destruct (database_open_loop_retries need_write n s rest Hs)
    as (Ho & Hsl & Hat).
  rewrite Ho, !filter_app, !length_app, Hsl, Hat.
  destruct (status_eqb s NOTMUCH_STATUS_SUCCESS);
    destruct (nm_needs_upgrade nm); destruct dbg; cbn; repeat split; lia.
Qed.

Lemma X3_witness :
  snd (database_open ex_nm_contended false true) = Ret tt
  /\ length (filter is_sleep (fst (database_open ex_nm_contended false true)))
     = 2%nat
  /\ length (filter is_attempt
               (fst (database_open ex_nm_contended false true))) = 3%nat.
Proof.
  exact (X3_database_open_retries_on_contention
           ex_nm_contended false true 2 NOTMUCH_STATUS_SUCCESS [] eq_refl
           ltac:(discriminate)).
Defined.

(** *** getattr on the maildir names and on compat paths *)

Lemma skipn_cons {A} (x : A) l n : skipn (S n) (x :: l) = skipn n l.
Proof. reflexivity. Qed.

Lemma strrchr1_last (a b : cstr) c x :
  ~ In c b -> strrchr1 (x :: a ++ c :: b) c = Some (S (length a)).
Proof.
  intros H. unfold strrchr1. cbn [skipn].
  now rewrite strrchr_last.
Qed.

(** X4.  getattr on [P/new], [P/tmp] and [P/cur] does not look at the
    name itself: all three are answered with [stat] of [P/] in the backing
    store, an errno coming back negated. *)
Theorem X4_getattr_maildir_names_stat_the_parent :
  forall (os : OS) (cfg : notmuchfs_config) (P sub : cstr),
    sub = lit "new" \/ sub = lit "tmp" \/ sub = lit "cur" ->
    (length P + 1 < PATH_MAX)%nat ->
    notmuchfs_getattr os cfg ("/"%char :: P ++ "/"%char :: sub)
    = Ret (match os_stat os (P ++ ["/"%char]) with
           | inl errno => (- errno, zero_stat)
           | inr st => (0, st)
           end).
Proof.
  intros os cfg P sub Hsub Hlen. unfold notmuchfs_getattr.
  assert (Hno : ~ In "/"%char sub).
  { destruct Hsub as [-> | [-> | ->] ]; vm_compute; intuition discriminate. }
  assert (Hroot : strcmp_eq ("/"%char :: P ++ "/"%char :: sub) (lit "/")
                  = false).
  { unfold strcmp_eq. cbn [lit list_ascii_of_string cstr_eqb].
    destruct P; reflexivity. }
  rewrite Hroot, (strrchr1_last P sub "/"%char "/"%char Hno).
  replace (skipn (S (S (length P))) ("/"%char :: P ++ "/"%char :: sub))
    with sub.
  2:{ rewrite skipn_cons.
      change (P ++ "/"%char :: sub) with (P ++ ["/"%char] ++ sub).
      rewrite app_assoc. symmetry. apply skipn_app_exact.
      rewrite length_app. cbn [length]. lia. }
  assert (Hm : is_maildir_sub sub = true)
    by (destruct Hsub as [-> | [-> | ->] ]; reflexivity).
  rewrite Hm.
  destruct (Nat.leb_spec PATH_MAX (S (length P))) as [Hle|_]; [lia|].
  cbn [skipn].
  replace (firstn (S (length P)) (P ++ "/"%char :: sub))
    with (P ++ ["/"%char]).
  2:{ change (P ++ "/"%char :: sub) with (P ++ ["/"%char] ++ sub).
      rewrite app_assoc.
      rewrite firstn_app, firstn_all2 by (rewrite length_app; cbn; lia).
      rewrite length_app. cbn [length].
      replace (S (length P) - (length P + 1))%nat with O by lia.
      now rewrite firstn_O, app_nil_r. }
  reflexivity.
Qed.

Lemma X4_witness :
  notmuchfs_getattr ex_os (ex_cfg false) (lit "/dir/cur")
  = Ret (- ENOENT, zero_stat).
Proof.
  apply (X4_getattr_maildir_names_stat_the_parent
           ex_os (ex_cfg false) (lit "dir") (lit "cur")).
  - right. right. reflexivity.
  - vm_compute. repeat constructor.
Defined.

(** X5.  The same encoded name below /Q/new/ instead of /Q/cur/: with
    the workaround allowed getattr answers as it does below cur/ (the
    file's attributes, the size raised by 1024); without it the answer is
    the not-found error. *)
Theorem X5_getattr_below_new :
  forall (os : OS) (cfg : notmuchfs_config) (Q b : cstr),
    let B := "/"%char :: b in
    ~ In "/"%char Q -> ~ In "#"%char B -> (length B < PATH_MAX)%nat ->
    notmuchfs_getattr os cfg ("/"%char :: Q ++ lit "/new/" ++ encode B)
    = if mutt_2476_workaround_allowed cfg
      then notmuchfs_getattr os cfg (virtual_path Q B)
      else Ret (- ENOENT, zero_stat).
Proof.
  intros os cfg Q b B HQ HB Hlen. subst B.
  rewrite (getattr_virtual os cfg Q b HQ HB Hlen).
  set (B := "/"%char :: b) in *.
  unfold notmuchfs_getattr.
  assert (Hroot : strcmp_eq ("/"%char :: Q ++ lit "/new/" ++ encode B)
                            (lit "/") = false).
  { unfold strcmp_eq. cbn [lit list_ascii_of_string cstr_eqb].
    destruct Q; reflexivity. }
  rewrite Hroot.
  change (Q ++ lit "/new/" ++ encode B)
    with (Q ++ lit "/new" ++ "/"%char :: encode B).
  rewrite app_assoc.
  rewrite (strrchr1_last (Q ++ lit "/new") (encode B) "/"%char "/"%char
             (encode_no_slash B)).
  assert (Hl : length (Q ++ lit "/new") = (length Q + 4)%nat)
    by (rewrite length_app; reflexivity).
  rewrite Hl.
  assert (Hseg : skipn (S (S (length Q + 4)))
                       ("/"%char :: (Q ++ lit "/new") ++ "/"%char :: encode B)
                 = encode B).
  { rewrite skipn_cons.
    change ((Q ++ lit "/new") ++ "/"%char :: encode B)
      with ((Q ++ lit "/new") ++ ["/"%char] ++ encode B).
    rewrite app_assoc. apply skipn_app_exact.
    rewrite length_app, Hl. cbn [length]. lia. }
  unfold trans_name_of. rewrite Hseg. unfold B at 1.
  rewrite (absolute_not_maildir_sub b). fold B.
  assert (Hfirst : strchr1 ("/"%char :: (Q ++ lit "/new")
                                       ++ "/"%char :: encode B) "/"%char
                   = Some (S (length Q))).
  { unfold strchr1. cbn [skipn]. rewrite <- app_assoc.
    change (lit "/new" ++ "/"%char :: encode B)
      with ("/"%char :: lit "new" ++ "/"%char :: encode B).
    now rewrite strchr_first. }
  rewrite Hfirst.
  assert (Hnew : memcmp_eq ("/"%char :: (Q ++ lit "/new")
                                     ++ "/"%char :: encode B)
                           (S (length Q + 4) - 3) (lit "new") 3 = true).
  { unfold memcmp_eq.
    replace (S (length Q + 4) - 3)%nat with (S (S (length Q))) by lia.
    rewrite skipn_cons, <- app_assoc.
    change (lit "/new" ++ "/"%char :: encode B)
      with (["/"%char] ++ lit "new" ++ "/"%char :: encode B).
    rewrite app_assoc.
    rewrite skipn_app_exact by (rewrite length_app; cbn [length]; lia).
    reflexivity. }
  rewrite Hnew.
  assert (Hcur : strncmp_eq (skipn (S (length Q))
                               ("/"%char :: (Q ++ lit "/new")
                                          ++ "/"%char :: encode B))
                            (lit "/cur/") 5 = false).
  { rewrite skipn_cons, <- app_assoc.
    rewrite skipn_app_exact by reflexivity. reflexivity. }
  rewrite Hcur, andb_false_r, orb_false_r.
  replace (3 <=? S (length Q + 4))%nat with true
    by (symmetry; apply Nat.leb_le; lia).
  rewrite !andb_true_r.
  rewrite strncpy_path_short
    by (unfold encode; now rewrite string_replace_length).
  fold (decode (encode B)). rewrite (decode_encode B HB).
  destruct (mutt_2476_workaround_allowed cfg); [|reflexivity].
  destruct (stat_into (os_stat os B)). reflexivity.
Qed.

Lemma X5_witness :
  notmuchfs_getattr ex_os (ex_cfg true) (lit "/inbox/new/#m#a#cur#1:2,")
  = Ret (0, reg_stat 7 1036)
  /\ notmuchfs_getattr ex_os (ex_cfg false) (lit "/inbox/new/#m#a#cur#1:2,")
     = Ret (- ENOENT, zero_stat).
Proof.
  assert (HQ : ~ In "/"%char (lit "inbox"))
    by (vm_compute; intuition discriminate).
  assert (HB : ~ In "#"%char ("/"%char :: lit "m/a/cur/1:2,"))
    by (vm_compute; intuition discriminate).
  assert (Hlen : (length ("/"%char :: lit "m/a/cur/1:2,") < PATH_MAX)%nat)
    by (vm_compute; repeat constructor).
  split.
  - exact (X5_getattr_below_new ex_os (ex_cfg true) (lit "inbox")
             (lit "m/a/cur/1:2,") HQ HB Hlen).
  - exact (X5_getattr_below_new ex_os (ex_cfg false) (lit "inbox")
             (lit "m/a/cur/1:2,") HQ HB Hlen).
Defined.

(** *** opendir, readdir and releasedir *)

Lemma filter_none {A} (f : A -> bool) (l : list A) :
  (forall x, In x l -> f x = false) -> filter f l = [].
Proof.
  induction l as [|x l IH]; intros H; [reflexivity|].
  cbn [filter]. rewrite (H x (or_introl eq_refl)).
  apply IH. intros y Hy. apply H. now right.
Qed.

Lemma database_open_loop_steps need_write script :
  Forall (fun e => is_open_step e = true)
         (fst (database_open_loop need_write script)).
Proof.
  induction script as [|status script IH]; [constructor|].
  cbn [database_open_loop]. io_norm.
  destruct status; io_norm; repeat constructor. exact IH.
Qed.

Lemma database_open_steps nm dbg need_write :
  Forall (fun e => is_open_step e = true)
         (fst (database_open nm dbg need_write)).
Proof.
  unfold database_open. io_norm.
  apply Forall_app. split; [destruct dbg; repeat constructor|].
  apply Forall_app. split; [apply database_open_loop_steps|].
  destruct (snd (database_open_loop need_write (nm_open_script nm)));
    try constructor.
  destruct (nm_needs_upgrade nm); io_norm; repeat constructor.
Qed.

(** A filter that takes no step of [database_open] finds nothing in its
    trace. *)
Lemma database_open_filtered nm dbg need_write (f : event -> bool) :
  (forall e, is_open_step e = true -> f e = false) ->
  filter f (fst (database_open nm dbg need_write)) = [].
Proof.
  intros H. apply filter_none. intros e He. apply H.
  pose proof (database_open_steps nm dbg need_write) as Hall.
  rewrite Forall_forall in Hall. now apply Hall.
Qed.

Lemma deref_symlinks_silent os fuel : forall name,
  fst (deref_symlinks os fuel name) = [].
Proof.
  induction fuel as [|fuel IH]; intros name; [reflexivity|].
  cbn [deref_symlinks].
  destruct (os_lstat os name) as [e|st]; [reflexivity|].
  destruct (S_ISLNK (st_mode st)); [|reflexivity].
  destruct (os_readlink os name) as [e|target].
  - destruct (- e =? 0); [apply IH|reflexivity].
  - destruct (length (firstn PATH_MAX target) =? PATH_MAX)%nat;
      [reflexivity|apply IH].
Qed.

(** The run of [opendir_query] once the query string is resolved and the
    index is open. *)
Lemma opendir_query_run os nm dbg fuel p_ctx path last_slash res name
      topen :
  (PATH_MAX <? last_slash)%nat = false ->
  deref_symlinks os fuel (firstn (last_slash - 1) (skipn 1 path))
  = ([], Ret (res, name)) ->
  database_open nm dbg false = (topen, Ret tt) ->
  opendir_query os nm dbg fuel p_ctx path last_slash
  = let tags := fst (exclude_tags (excluded_tags p_ctx)) in
    let mem := snd (exclude_tags (excluded_tags p_ctx)) in
    let search := nm_search_messages nm name tags in
    if nm_query_create nm name then
      if status_eqb (fst search) NOTMUCH_STATUS_SUCCESS then
        (topen ++ EvQueryCreate name :: map EvAddTagExclude tags
               ++ [EvSetOmitExcluded; EvSearchMessages],
         Ret (res, mk_opendir OPENDIR_TYPE_NOTMUCH_QUERY (snd search) None 1,
              mk_ctx mem))
      else
        (topen ++ EvQueryCreate name :: map EvAddTagExclude tags
               ++ [EvSetOmitExcluded; EvSearchMessages; EvQueryDestroy]
               ++ fst (database_close dbg),
         Ret (- EIO, mk_opendir OPENDIR_TYPE_NOTMUCH_QUERY [] None 1,
              mk_ctx mem))
    else
      (topen ++ EvQueryCreate name :: fst (database_close dbg),
       Ret (- EIO, mk_opendir OPENDIR_TYPE_NOTMUCH_QUERY [] None 1, p_ctx)).
Proof.
  intros Hmax Hderef Hopen. unfold opendir_query.
  rewrite Hmax, Hderef. cbn [bind app]. rewrite Hopen. cbn [bind app].
  cbv zeta. rewrite database_close_trace. cbn [fst].
  destruct (nm_query_create nm name).
  - destruct (exclude_tags (excluded_tags p_ctx)) as [tags mem].
    cbn [fst snd].
    destruct (nm_search_messages nm name tags) as [st msgs].
    destruct st; cbn; rewrite ?app_nil_r, <- ?app_assoc; cbn;
      rewrite ?app_nil_r; reflexivity.
  - cbn. rewrite ?app_nil_r. reflexivity.
Qed.

(** X6.  Listing a query directory /<q> never consults the index or the
    backing store: opendir succeeds with no effect at all, whatever <q>
    is, and readdir hands the filler exactly the five names '.', '..',
    'cur', 'new', 'tmp', each with a NULL stat and offset 0, at every
    call and whatever the filler answers. *)
Theorem X6_query_directory_lists_the_maildir_names :
  forall (os : OS) (nm : Notmuch) (cfg : notmuchfs_config) (dbg : bool)
         (dirbuf : Type)
         (filler : dirbuf -> cstr -> option stat_t -> Z -> dirbuf * bool)
         (fuel : nat) (p_ctx : notmuch_context_t) (q : cstr)
         (buf : dirbuf) (offset_in : Z),
    q <> [] -> ~ In "/"%char q ->
    exists d,
      notmuchfs_opendir os nm cfg dbg fuel p_ctx ("/"%char :: q)
      = ([], Ret (0, Some d, p_ctx))
      /\ snd (notmuchfs_readdir os dirbuf filler d buf offset_in)
         <> Undef
      /\ map (fun e => (fst (fst (fst e)), snd (fst (fst e)), snd (fst e)))
             (fills (fst (notmuchfs_readdir os dirbuf filler d buf
                                            offset_in)))
         = [(lit ".", None, 0); (lit "..", None, 0); (lit "cur", None, 0);
            (lit "new", None, 0); (lit "tmp", None, 0)].
Proof.
  intros os nm cfg dbg dirbuf filler fuel p_ctx q buf offset_in Hq Hsl.
  exists (mk_opendir OPENDIR_TYPE_MAIL_DIR [] None 0).
  split.
  - unfold notmuchfs_opendir.
    assert (Hroot : strcmp_eq ("/"%char :: q) (lit "/") = false).
    { unfold strcmp_eq. cbn [lit list_ascii_of_string cstr_eqb].
      destruct q; [contradiction|reflexivity]. }
    rewrite Hroot. unfold strrchr1. cbn [skipn].
    rewrite (strrchr_absent q "/"%char Hsl). reflexivity.
  - unfold notmuchfs_readdir, fill_names, fill. cbn [type].
    destruct (filler buf (lit ".") None 0) as [b1 f1].
    cbn [bind emit ret app fst snd].
    destruct (filler b1 (lit "..") None 0) as [b2 f2].
    cbn [bind emit ret app fst snd].
    destruct (filler b2 (lit "cur") None 0) as [b3 f3].
    cbn [bind emit ret app fst snd].
    destruct (filler b3 (lit "new") None 0) as [b4 f4].
    cbn [bind emit ret app fst snd].
    destruct (filler b4 (lit "tmp") None 0) as [b5 f5].
    cbn [bind emit ret app fst snd].
    split; [discriminate|reflexivity].
Qed.

Lemma X6_witness :
  notmuchfs_opendir ex_os (ex_nm true NOTMUCH_STATUS_SUCCESS) (ex_cfg false)
    NOTMUCHFS_DEBUG_default 0 (mk_ctx [NUL]) (lit "/inbox")
  = ([], Ret (0, Some (mk_opendir OPENDIR_TYPE_MAIL_DIR [] None 0),
          mk_ctx [NUL])).
Proof.
  destruct (X6_query_directory_lists_the_maildir_names
              ex_os (ex_nm true NOTMUCH_STATUS_SUCCESS) (ex_cfg false)
              NOTMUCHFS_DEBUG_default _ (counting_filler 0) 0 (mk_ctx [NUL])
              (lit "inbox") [] 0) as (d & Hopen & _).
  - discriminate.
  - vm_compute. intuition discriminate.
  - reflexivity.
Defined.

Lemma last_cons_default {A} (l : list A) : forall x d,
  last (x :: l) d = last l x.
Proof.
  induction l as [|y l IH]; intros x d; [reflexivity|].
  change (last (x :: y :: l) d) with (last (y :: l) d).
  now rewrite !IH.
Qed.

Lemma deref_symlinks_chain os rest : forall name fuel,
  link_chain os name rest -> (length rest < fuel)%nat ->
  deref_symlinks os fuel name = ([], Ret (0, last rest name)).
Proof.
  induction rest as [|next rest IH]; intros name fuel Hchain Hfuel.
  - destruct fuel as [|fuel]; [inversion Hfuel|].
    cbn [link_chain] in Hchain. cbn [deref_symlinks last].
    destruct (os_lstat os name) as [e|st]; [reflexivity|].
    now rewrite Hchain.
  - destruct fuel as [|fuel]; [inversion Hfuel|].
    cbn [link_chain] in Hchain.
    destruct Hchain as ((st & Hst & Hlnk) & Hread & Hlen & Hchain).
    cbn [deref_symlinks]. rewrite Hst, Hlnk, Hread.
    rewrite firstn_all2 by lia.
    destruct (Nat.eqb_spec (length next) PATH_MAX) as [E|_]; [lia|].
    rewrite (IH next fuel Hchain) by (cbn [length] in Hfuel; lia).
    now rewrite last_cons_default.
Qed.

(** X7.  opendir of /<q>/cur follows the symbolic links of the backing
    store from the name <q> on: when <q> starts a chain of links that
    ends in a name that is no link (or does not exist), the one query
    that opendir creates is over that last name; a <q> that is no link
    is itself the query. *)
Theorem X7_query_is_the_end_of_the_link_chain :
  forall (os : OS) (nm : Notmuch) (cfg : notmuchfs_config) (dbg : bool)
         (fuel : nat) (p_ctx : notmuch_context_t) (q : cstr)
         (rest : list cstr) (topen : list event),
    link_chain os q rest -> (length rest < fuel)%nat ->
    (length q < PATH_MAX)%nat ->
    database_open nm dbg false = (topen, Ret tt) ->
    filter is_query_create
      (fst (notmuchfs_opendir os nm cfg dbg fuel p_ctx
              ("/"%char :: q ++ lit "/cur")))
    = [EvQueryCreate (last rest q)].
Proof.
  intros os nm cfg dbg fuel p_ctx q rest topen Hchain Hfuel Hlen Hopen.
  unfold notmuchfs_opendir.
  assert (Hroot : strcmp_eq ("/"%char :: q ++ lit "/cur") (lit "/") = false).
  { unfold strcmp_eq. cbn [lit list_ascii_of_string cstr_eqb].
    destruct q; reflexivity. }
  rewrite Hroot.
  change (q ++ lit "/cur") with (q ++ "/"%char :: lit "cur").
  rewrite strrchr1_last by (vm_compute; intuition discriminate).
  assert (Hname : skipn (S (S (length q)))
                        ("/"%char :: q ++ "/"%char :: lit "cur")
                  = lit "cur").
  { rewrite skipn_cons.
    change (q ++ "/"%char :: lit "cur") with (q ++ ["/"%char] ++ lit "cur").
    rewrite app_assoc. apply skipn_app_exact.
    rewrite length_app. cbn [length]. lia. }
  rewrite Hname.
  change (strcmp_eq (lit "cur") (lit "new") || strcmp_eq (lit "cur") (lit "tmp"))
    with false.
  change (strcmp_eq (lit "cur") (lit "cur")) with true. cbv iota.
  assert (Hq : firstn (S (length q) - 1)
                      (skipn 1 ("/"%char :: q ++ "/"%char :: lit "cur")) = q).
  { cbn [skipn]. replace (S (length q) - 1)%nat with (length q) by lia.
    rewrite firstn_app, firstn_all, Nat.sub_diag, firstn_O.
    apply app_nil_r. }
  rewrite (opendir_query_run os nm dbg fuel p_ctx _ (S (length q)) 0
             (last rest q) topen).
  - cbv zeta.
    assert (Ho : filter is_query_create topen = []).
    { replace topen with (fst (database_open nm dbg false))
        by now rewrite Hopen.
      apply database_open_filtered. intros e. destruct e; cbn; congruence. }
    assert (Ht : forall tags,
               filter is_query_create (map EvAddTagExclude tags) = []).
    { intros tags. apply filter_none. intros e He.
      apply in_map_iff in He. destruct He as (x & <- & _). reflexivity. }
    rewrite database_close_trace.
    destruct (nm_query_create nm (last rest q));
      [destruct (status_eqb _ NOTMUCH_STATUS_SUCCESS)|];
      io_norm; cbn [fst snd]; rewrite ?app_nil_r;
      rewrite !filter_app, Ho; cbn [filter is_query_create app];
      rewrite ?filter_app, ?Ht; destruct dbg; reflexivity.
  - apply Nat.ltb_ge. lia.
  - rewrite Hq. now apply deref_symlinks_chain.
  - exact Hopen.
Qed.

Lemma X7_witness :
  filter is_query_create
    (fst (notmuchfs_opendir ex_os (ex_nm true NOTMUCH_STATUS_SUCCESS)
            (ex_cfg false) NOTMUCHFS_DEBUG_default 2 (mk_ctx [NUL])
            (lit "/inbox/cur")))
  = [EvQueryCreate (lit "tag:inbox")].
Proof.
  apply (X7_query_is_the_end_of_the_link_chain
           ex_os (ex_nm true NOTMUCH_STATUS_SUCCESS) (ex_cfg false)
           NOTMUCHFS_DEBUG_default 2 (mk_ctx [NUL]) (lit "inbox")
           [lit "tag:inbox"] [EvDatabaseOpen false]).
  - cbn [link_chain]. split; [|split; [|split]].
    + exists (lnk_stat 10). split; reflexivity.
    + reflexivity.
    + vm_compute. repeat constructor.
    + vm_compute. exact I.
  - cbn. lia.
  - vm_compute. repeat constructor.
  - reflexivity.
Defined.

(** opendir of /<q>/cur is the run of [opendir_query] on <q>. *)
Lemma opendir_cur os nm cfg dbg fuel p_ctx (q : cstr) :
  notmuchfs_opendir os nm cfg dbg fuel p_ctx ("/"%char :: q ++ lit "/cur")
  = bind (opendir_query os nm dbg fuel p_ctx
            ("/"%char :: q ++ lit "/cur") (S (length q)))
         (fun r => let '(res, dir_fd, p_ctx) := r in
                   if res =? 0 then ret (res, Some dir_fd, p_ctx)
                   else ret (res, None, p_ctx))
  /\ firstn (S (length q) - 1) (skipn 1 ("/"%char :: q ++ lit "/cur")) = q.
Proof.
  split.
  - unfold notmuchfs_opendir.
    assert (Hroot : strcmp_eq ("/"%char :: q ++ lit "/cur") (lit "/")
                    = false).
    { unfold strcmp_eq. cbn [lit list_ascii_of_string cstr_eqb].
      destruct q; reflexivity. }
    rewrite Hroot.
    change (q ++ lit "/cur") with (q ++ "/"%char :: lit "cur").
    rewrite strrchr1_last by (vm_compute; intuition discriminate).
    assert (Hname : skipn (S (S (length q)))
                          ("/"%char :: q ++ "/"%char :: lit "cur")
                    = lit "cur").
    { rewrite skipn_cons.
      change (q ++ "/"%char :: lit "cur")
        with (q ++ ["/"%char] ++ lit "cur").
      rewrite app_assoc. apply skipn_app_exact.
      rewrite length_app. cbn [length]. lia. }
    rewrite Hname. reflexivity.
  - cbn [skipn]. replace (S (length q) - 1)%nat with (length q) by lia.
    rewrite firstn_app, firstn_all, Nat.sub_diag, firstn_O.
    apply app_nil_r.
Qed.

Lemma closes_app (t1 t2 : list event) :
  closes (t1 ++ t2) = (closes t1 + closes t2)%nat.
Proof. unfold closes. now rewrite filter_app, length_app. Qed.

Lemma closes_cons (e : event) (t : list event) :
  closes (e :: t) = ((if is_close e then 1 else 0) + closes t)%nat.
Proof. unfold closes. cbn [filter]. destruct (is_close e); reflexivity. Qed.

Lemma closes_nil : closes [] = O.
Proof. reflexivity. Qed.

Lemma closes_database_close dbg : closes (fst (database_close dbg)) = 1%nat.
Proof. rewrite database_close_trace. destruct dbg; reflexivity. Qed.

Lemma closes_database_open nm dbg need_write :
  closes (fst (database_open nm dbg need_write)) = O.
Proof.
  unfold closes. rewrite database_open_filtered; [reflexivity|].
  intros e. destruct e; cbn; congruence.
Qed.

Lemma closes_tags (tags : list cstr) :
  closes (map EvAddTagExclude tags) = O.
Proof.
  unfold closes. rewrite filter_none; [reflexivity|].
  intros e He. apply in_map_iff in He. destruct He as (x & <- & _).
  reflexivity.
Qed.

Ltac closes_norm :=
  repeat (rewrite ?closes_app, ?closes_cons, ?closes_nil, ?closes_tags,
                  ?closes_database_close;
          cbn [is_close]).



(** X9.  When <q> is a symbolic link whose [readlink] fails, opendir of
    /<q>/cur goes on after the failure: it opens the index and runs the
    query over <q>.  If that works, opendir returns the errno of
    [readlink], negated, and stores no handle, but the session it opened
    is not closed. *)
Theorem X9_opendir_keeps_the_session_after_a_failed_readlink :
  forall (os : OS) (nm : Notmuch) (cfg : notmuchfs_config) (dbg : bool)
         (fuel : nat) (p_ctx : notmuch_context_t) (q : cstr)
         (st : stat_t) (errno : Z) (topen : list event),
    os_lstat os q = inr st -> S_ISLNK (st_mode st) = true ->
    os_readlink os q = inl errno -> errno <> 0 ->
    (length q < PATH_MAX)%nat ->
    database_open nm dbg false = (topen, Ret tt) ->
    nm_query_create nm q = true ->
    fst (nm_search_messages nm q (fst (exclude_tags (excluded_tags p_ctx))))
    = NOTMUCH_STATUS_SUCCESS ->
    let r := notmuchfs_opendir os nm cfg dbg (S fuel) p_ctx
               ("/"%char :: q ++ lit "/cur") in
    (exists p_ctx', snd r = Ret (- errno, None, p_ctx'))
    /\ filter is_query_create (fst r) = [EvQueryCreate q]
    /\ closes (fst r) = O.
Proof.
  intros os nm cfg dbg fuel p_ctx q st errno topen Hst Hlnk Hread Hne Hlen
         Hopen Hcreate Hsearch r.
  destruct (opendir_cur os nm cfg dbg (S fuel) p_ctx q) as [Hrun Hq].
  assert (Hr : r = bind (opendir_query os nm dbg (S fuel) p_ctx
                           ("/"%char :: q ++ lit "/cur") (S (length q)))
                        (fun r => let '(res, dir_fd, p_ctx) := r in
                                  if res =? 0 then ret (res, Some dir_fd, p_ctx)
                                  else ret (res, None, p_ctx)))
    by exact Hrun.
  rewrite (opendir_query_run os nm dbg (S fuel) p_ctx _ (S (length q))
             (- errno) q topen) in Hr.
  2:{ apply Nat.ltb_ge. lia. }
  2:{ rewrite Hq. cbn [deref_symlinks]. rewrite Hst, Hlnk, Hread.
      destruct (Z.eqb_spec (- errno) 0); [lia|reflexivity]. }
  2:{ exact Hopen. }
  cbv zeta in Hr. rewrite Hcreate, Hsearch in Hr. cbn [status_eqb bind] in Hr.
  destruct (Z.eqb_spec (- errno) 0) as [|_]; [lia|].
  cbn [fst snd ret app] in Hr. rewrite app_nil_r in Hr. rewrite Hr. cbn [fst snd].
  assert (Hto : closes topen = O).
  { replace topen with (fst (database_open nm dbg false))
      by now rewrite Hopen.
    apply closes_database_open. }
  assert (Ho : filter is_query_create topen = []).
  { replace topen with (fst (database_open nm dbg false))
      by now rewrite Hopen.
    apply database_open_filtered. intros e. destruct e; cbn; congruence. }
  split; [eexists; reflexivity|]. split.
  - rewrite filter_app, Ho. cbn [app filter is_query_create].
    rewrite filter_app. cbn [filter is_query_create].
    rewrite filter_none; [reflexivity|].
    intros e He. apply in_map_iff in He. destruct He as (x & <- & _).
    reflexivity.
  - closes_norm. rewrite Hto. reflexivity.
Qed.

Lemma X9_witness :
  notmuchfs_opendir ex_os_broken_link (ex_nm true NOTMUCH_STATUS_SUCCESS)
    (ex_cfg false) NOTMUCHFS_DEBUG_default 1 (mk_ctx [NUL])
    (lit "/inbox/cur")
  = ([EvDatabaseOpen false; EvQueryCreate (lit "inbox"); EvSetOmitExcluded;
      EvSearchMessages], Ret (- EIO, None, mk_ctx [NUL])).
Proof.
  destruct (X9_opendir_keeps_the_session_after_a_failed_readlink
              ex_os_broken_link (ex_nm true NOTMUCH_STATUS_SUCCESS)
              (ex_cfg false) NOTMUCHFS_DEBUG_default 0 (mk_ctx [NUL])
              (lit "inbox") (lnk_stat 10) EIO [EvDatabaseOpen false]
              eq_refl eq_refl eq_refl ltac:(discriminate)
              ltac:(vm_compute; repeat constructor) eq_refl eq_refl eq_refl)
    as (_ & _ & _).
  reflexivity.
Defined.

(** *** The excluded tags: notmuchfs_init and strtok *)

Lemma span_all (f : ascii -> bool) (t : list ascii) c rest :
  (forall x, In x t -> f x = true) -> f c = false ->
  span f (t ++ c :: rest) = length t.
Proof.
  intros Ht Hc. induction t as [|x t IH]; cbn [app span length].
  - now rewrite Hc.
  - rewrite (Ht x (or_introl eq_refl)). f_equal. apply IH.
    intros y Hy. apply Ht. now right.
Qed.

Lemma tag_wf_token (t : cstr) :
  tag_wf t ->
  forall x, In x t ->
    negb (Ascii.eqb x NUL) && negb (is_delim [LF] x) = true.
Proof.
  intros (_ & Hnul & Hlf) x Hx. unfold is_delim. cbn [existsb].
  destruct (Ascii.eqb_spec x NUL) as [->|_]; [contradiction|].
  destruct (Ascii.eqb_spec x LF) as [->|_]; [contradiction|reflexivity].
Qed.

Lemma tag_wf_no_delim (t : cstr) rest :
  tag_wf t -> span (is_delim [LF]) (t ++ rest) = O.
Proof.
  intros (Hne & _ & Hlf). destruct t as [|x t]; [contradiction|].
  cbn [app span]. unfold is_delim. cbn [existsb].
  destruct (Ascii.eqb_spec x LF) as [->|_]; [|reflexivity].
  exfalso. apply Hlf. now left.
Qed.

(** [strtok] on a tag that is followed by a newline: the newline becomes
    NUL and the scan resumes behind it. *)
Lemma strtok_at_newline (pre t rest : list ascii) :
  tag_wf t ->
  strtok_at (pre ++ t ++ LF :: rest) (length pre) [LF]
  = (Some t, pre ++ t ++ NUL :: rest, S (length pre + length t)).
Proof.
  intros Hwf. unfold strtok_at. cbv zeta.
  rewrite (skipn_app_exact pre (t ++ LF :: rest) (length pre) eq_refl).
  rewrite (tag_wf_no_delim t (LF :: rest) Hwf), Nat.add_0_r.
  rewrite (skipn_app_exact pre (t ++ LF :: rest) (length pre) eq_refl).
  rewrite (span_all _ t LF rest (tag_wf_token t Hwf)) by reflexivity.
  destruct Hwf as (Hne & _).
  destruct (Nat.eqb_spec (length t) 0) as [E|_];
    [destruct t; [contradiction|discriminate]|].
  rewrite firstn_app, firstn_all, Nat.sub_diag, firstn_O, app_nil_r.
  rewrite app_assoc.
  rewrite nth_error_app2 by (rewrite length_app; lia).
  rewrite length_app, Nat.sub_diag. cbn [nth_error].
  change (Ascii.eqb LF NUL) with false. cbv iota.
  unfold store. rewrite <- length_app.
  change (LF :: rest) with ([LF] ++ rest).
  rewrite (memcpy_at_app (pre ++ t) [LF] rest [NUL]) by reflexivity.
  rewrite <- app_assoc. reflexivity.
Qed.

(** [strtok] on a tag that is followed by NUL: nothing is written and the
    scan stays on the NUL. *)
Lemma strtok_at_last (pre t rest : list ascii) :
  tag_wf t ->
  strtok_at (pre ++ t ++ NUL :: rest) (length pre) [LF]
  = (Some t, pre ++ t ++ NUL :: rest, (length pre + length t)%nat).
Proof.
  intros Hwf. unfold strtok_at. cbv zeta.
  rewrite (skipn_app_exact pre (t ++ NUL :: rest) (length pre) eq_refl).
  rewrite (tag_wf_no_delim t (NUL :: rest) Hwf), Nat.add_0_r.
  rewrite (skipn_app_exact pre (t ++ NUL :: rest) (length pre) eq_refl).
  rewrite (span_all _ t NUL rest (tag_wf_token t Hwf)) by reflexivity.
  destruct Hwf as (Hne & _).
  destruct (Nat.eqb_spec (length t) 0) as [E|_];
    [destruct t; [contradiction|discriminate]|].
  rewrite firstn_app, firstn_all, Nat.sub_diag, firstn_O, app_nil_r.
  rewrite app_assoc.
  rewrite nth_error_app2 by (rewrite length_app; lia).
  rewrite length_app, Nat.sub_diag. cbn [nth_error].
  change (Ascii.eqb NUL NUL) with true. cbv iota.
  rewrite <- app_assoc. reflexivity.
Qed.

(** [strtok] on NUL: no token. *)
Lemma strtok_at_end (pre rest : list ascii) :
  strtok_at (pre ++ NUL :: rest) (length pre) [LF]
  = (None, pre ++ NUL :: rest, length pre).
Proof.
  unfold strtok_at. cbv zeta.
  rewrite (skipn_app_exact pre (NUL :: rest) (length pre) eq_refl).
  cbn [span is_delim existsb]. change (Ascii.eqb NUL LF) with false.
  cbn [orb]. rewrite Nat.add_0_r.
  rewrite (skipn_app_exact pre (NUL :: rest) (length pre) eq_refl).
  reflexivity.
Qed.

Lemma join_with_cons2 sep (t r : cstr) rs :
  join_with sep (t :: r :: rs) = t ++ sep :: join_with sep (r :: rs).
Proof. reflexivity. Qed.

(** The first walk over a buffer of newline-separated tags. *)
Lemma exclude_tags_loop_first tags : forall pre fuel,
  Forall tag_wf tags -> (length tags < fuel)%nat ->
  exclude_tags_loop fuel (pre ++ join_with LF tags ++ [NUL]) (length pre)
  = (tags, pre ++ join_with NUL tags ++ [NUL]).
Proof.
  induction tags as [|t rest IH]; intros pre fuel Hwf Hfuel.
  - destruct fuel as [|fuel]; [inversion Hfuel|].
    cbn [exclude_tags_loop join_with app].
    now rewrite strtok_at_end.
  - destruct fuel as [|fuel]; [inversion Hfuel|].
    inversion Hwf as [|? ? Ht Hrest]; subst.
    cbn [length] in Hfuel. cbn [exclude_tags_loop].
    destruct rest as [|r rs].
    + cbn [join_with]. rewrite (strtok_at_last pre t [] Ht).
      rewrite <- length_app.
      replace (pre ++ t ++ [NUL]) with ((pre ++ t) ++ join_with LF [] ++ [NUL])
        by (cbn [join_with app]; now rewrite <- app_assoc).
      rewrite (IH (pre ++ t) fuel) by (auto; cbn; lia).
      cbn [join_with app]. now rewrite <- app_assoc.
    + rewrite !join_with_cons2.
      rewrite <- (app_assoc t (LF :: join_with LF (r :: rs)) [NUL]).
      cbn [app].
      rewrite (strtok_at_newline pre t (join_with LF (r :: rs) ++ [NUL]) Ht).
      replace (S (length pre + length t)) with (length (pre ++ t ++ [NUL]))
        by (rewrite !length_app; cbn [length]; lia).
      replace (pre ++ t ++ NUL :: join_with LF (r :: rs) ++ [NUL])
        with ((pre ++ t ++ [NUL]) ++ join_with LF (r :: rs) ++ [NUL])
        by (rewrite <- !app_assoc; reflexivity).
      rewrite (IH (pre ++ t ++ [NUL]) fuel Hrest) by (cbn [length] in *; lia).
      rewrite <- !app_assoc. reflexivity.
Qed.

(** A later walk over the buffer that the first one left. *)
Lemma exclude_tags_loop_again tags fuel :
  Forall tag_wf tags -> (1 < fuel)%nat ->
  exclude_tags_loop fuel (join_with NUL tags ++ [NUL]) 0
  = (firstn 1 tags, join_with NUL tags ++ [NUL]).
Proof.
  intros Hwf Hfuel.
  destruct fuel as [|[|fuel]]; [inversion Hfuel|lia|].
  destruct tags as [|t rest].
  - reflexivity.
  - inversion Hwf as [|? ? Ht Hrest]; subst.
    assert (Hshape : exists tail,
               join_with NUL (t :: rest) ++ [NUL] = t ++ NUL :: tail).
    { destruct rest as [|r rs].
      - exists []. reflexivity.
      - exists (join_with NUL (r :: rs) ++ [NUL]).
        rewrite join_with_cons2, <- app_assoc. reflexivity. }
    destruct Hshape as [tail Htail]. rewrite Htail.
    cbn [exclude_tags_loop firstn].
    pose proof (strtok_at_last [] t tail Ht) as H1.
    cbn [app length Nat.add] in H1. rewrite H1.
    rewrite (strtok_at_end t tail). reflexivity.
Qed.

Lemma join_with_length_ge sep tags :
  Forall tag_wf tags -> (length tags <= length (join_with sep tags))%nat.
Proof.
  induction 1 as [|t rest (Hne & _) Hrest IH]; [cbn; lia|].
  destruct rest as [|r rs].
  - cbn [join_with length]. destruct t; [contradiction|cbn; lia].
  - rewrite join_with_cons2, length_app. cbn [length] in *. lia.
Qed.

Lemma init_buffer (out : list ascii) :
  out <> [] ->
  notmuchfs_init true true (Some out)
  = Some (mk_ctx (firstn (Nat.min (length out) EXCLUDED_TAGS_MAX_LENGTH - 1)
                         out ++ [NUL])).
Proof.
  intros Hne. unfold notmuchfs_init. cbn [negb].
  set (bytes := firstn EXCLUDED_TAGS_MAX_LENGTH out).
  assert (Hb : length bytes = Nat.min EXCLUDED_TAGS_MAX_LENGTH (length out))
    by apply length_firstn.
  assert (Hpos : (0 < length bytes)%nat).
  { rewrite Hb. destruct out; [contradiction|].
    unfold EXCLUDED_TAGS_MAX_LENGTH. cbn [length]. lia. }
  destruct (Nat.ltb_spec 0 (length bytes)) as [_|]; [|lia].
  do 2 f_equal. unfold store, memcpy_at. cbn [length].
  rewrite (skipn_all2 bytes) by lia. f_equal.
  unfold bytes at 2. rewrite firstn_firstn. f_equal.
  rewrite Hb. unfold EXCLUDED_TAGS_MAX_LENGTH. lia.
Qed.

(** X10.  The buffer of excluded tags that [notmuchfs_init] captures is
    what the pipe delivered, cut to 128 bytes, with its last byte
    replaced by the terminator: an output shorter than 128 bytes loses
    its trailing newline, a longer one keeps its first 127 bytes only.
    An empty output, or a pipe that could not be opened, gives the empty
    string. *)
Theorem X10_init_captures_at_most_127_bytes :
  forall (out : list ascii),
    notmuchfs_init true true (Some out)
    = Some (mk_ctx (firstn (Nat.min (length out) 128 - 1) out ++ [NUL]))
    /\ notmuchfs_init true true None = Some (mk_ctx [NUL])
    /\ ((128 <= length out)%nat ->
        notmuchfs_init true true (Some out)
        = Some (mk_ctx (firstn 127 out ++ [NUL]))).
Proof.
  intros out.
  assert (H : notmuchfs_init true true (Some out)
              = Some (mk_ctx (firstn (Nat.min (length out) 128 - 1) out
                                     ++ [NUL]))).
  { destruct out as [|c out]; [reflexivity|].
    apply init_buffer. discriminate. }
  split; [exact H|]. split; [reflexivity|].
  intros Hlong. rewrite H.
  replace (Nat.min (length out) 128 - 1)%nat with 127%nat by lia.
  reflexivity.
Qed.

Lemma X10_witness :
  notmuchfs_init true true (Some (repeat "x"%char 130))
  = Some (mk_ctx (repeat "x"%char 127 ++ [NUL])).
Proof.
  destruct (X10_init_captures_at_most_127_bytes (repeat "x"%char 130))
    as (_ & _ & H).
  rewrite H; [reflexivity|]. vm_compute. repeat constructor.
Defined.

Lemma registered_tags_app (t1 t2 : list event) :
  registered_tags (t1 ++ t2) = registered_tags t1 ++ registered_tags t2.
Proof.
  induction t1 as [|e t1 IH]; [reflexivity|].
  destruct e; cbn [app registered_tags]; rewrite ?IH; reflexivity.
Qed.

Lemma registered_tags_map (tags : list cstr) :
  registered_tags (map EvAddTagExclude tags) = tags.
Proof.
  induction tags as [|t tags IH]; [reflexivity|].
  cbn [map registered_tags]. now rewrite IH.
Qed.

Lemma registered_tags_steps (t : list event) :
  Forall (fun e => is_open_step e = true) t -> registered_tags t = [].
Proof.
  induction 1 as [|e t He _ IH]; [reflexivity|].
  destruct e; try discriminate He; exact IH.
Qed.

(** What an opendir of /<q>/cur registers on its query, and the context
    it leaves, once the query could be created. *)
Lemma opendir_cur_registers os nm cfg dbg fuel p_ctx (q : cstr) rest topen :
  link_chain os q rest -> (length rest < fuel)%nat ->
  (length q < PATH_MAX)%nat ->
  database_open nm dbg false = (topen, Ret tt) ->
  nm_query_create nm (last rest q) = true ->
  let r := notmuchfs_opendir os nm cfg dbg fuel p_ctx
             ("/"%char :: q ++ lit "/cur") in
  registered_tags (fst r) = fst (exclude_tags (excluded_tags p_ctx))
  /\ exists res h,
       snd r = Ret (res, h, mk_ctx (snd (exclude_tags (excluded_tags p_ctx)))).
Proof.
  intros Hchain Hfuel Hlen Hopen Hcreate r.
  destruct (opendir_cur os nm cfg dbg fuel p_ctx q) as [Hrun Hq].
  assert (Hr : r = bind (opendir_query os nm dbg fuel p_ctx
                           ("/"%char :: q ++ lit "/cur") (S (length q)))
                        (fun r => let '(res, dir_fd, p_ctx) := r in
                                  if res =? 0 then ret (res, Some dir_fd, p_ctx)
                                  else ret (res, None, p_ctx)))
    by exact Hrun.
  rewrite (opendir_query_run os nm dbg fuel p_ctx _ (S (length q)) 0
             (last rest q) topen) in Hr.
  2:{ apply Nat.ltb_ge. lia. }
  2:{ rewrite Hq. now apply deref_symlinks_chain. }
  2:{ exact Hopen. }
  cbv zeta in Hr. rewrite Hcreate in Hr.
  assert (Hto : registered_tags topen = []).
  { apply registered_tags_steps.
    replace topen with (fst (database_open nm dbg false))
      by now rewrite Hopen.
    apply database_open_steps. }
  destruct (status_eqb _ NOTMUCH_STATUS_SUCCESS).
  - cbn [bind] in Hr. change (0 =? 0) with true in Hr.
    cbn [fst snd ret app] in Hr. rewrite app_nil_r in Hr.
    rewrite Hr. cbn [fst snd]. split; [|eauto].
    rewrite registered_tags_app, Hto. cbn [app registered_tags].
    rewrite registered_tags_app, registered_tags_map. cbn [registered_tags].
    apply app_nil_r.
  - cbn [bind] in Hr. change (- EIO =? 0) with false in Hr.
    cbn [fst snd ret app] in Hr. rewrite app_nil_r in Hr.
    rewrite Hr. cbn [fst snd]. split; [|eauto].
    rewrite registered_tags_app, Hto. cbn [app registered_tags].
    rewrite registered_tags_app, registered_tags_map.
    rewrite database_close_trace. destruct dbg; cbn; apply app_nil_r.
Qed.

(** X11.  The first opendir of a cur/ directory after the mount
    registers every excluded tag: when the configuration printed the tags
    one per line, in fewer than 128 bytes, the tags that opendir excludes
    on its query are exactly those, in order.  It leaves the buffer with a
    NUL in the place of every newline. *)
Theorem X11_first_opendir_registers_every_excluded_tag :
  forall (os : OS) (nm : Notmuch) (cfg : notmuchfs_config) (dbg : bool)
         (fuel : nat) (q : cstr) (rest : list cstr) (topen : list event)
         (tags : list cstr),
    Forall tag_wf tags ->
    (length (join_with LF tags) < 128)%nat ->
    link_chain os q rest -> (length rest < fuel)%nat ->
    (length q < PATH_MAX)%nat ->
    database_open nm dbg false = (topen, Ret tt) ->
    nm_query_create nm (last rest q) = true ->
    exists p_ctx res h,
      notmuchfs_init true true (Some (join_with LF tags ++ [LF]))
      = Some p_ctx
      /\ registered_tags
           (fst (notmuchfs_opendir os nm cfg dbg fuel p_ctx
                   ("/"%char :: q ++ lit "/cur")))
         = tags
      /\ snd (notmuchfs_opendir os nm cfg dbg fuel p_ctx
                ("/"%char :: q ++ lit "/cur"))
         = Ret (res, h, mk_ctx (join_with NUL tags ++ [NUL])).
Proof.
  intros os nm cfg dbg fuel q rest topen tags Hwf Hshort Hchain Hfuel Hlen
         Hopen Hcreate.
  assert (Hinit : notmuchfs_init true true (Some (join_with LF tags ++ [LF]))
                  = Some (mk_ctx (join_with LF tags ++ [NUL]))).
  { rewrite init_buffer by (destruct (join_with LF tags); discriminate).
    do 2 f_equal. f_equal.
    rewrite length_app. cbn [length]. unfold EXCLUDED_TAGS_MAX_LENGTH.
    replace (Nat.min (length (join_with LF tags) + 1) 128 - 1)%nat
      with (length (join_with LF tags)) by lia.
    rewrite firstn_app, firstn_all, Nat.sub_diag, firstn_O.
    apply app_nil_r. }
  assert (Hwalk : exclude_tags (join_with LF tags ++ [NUL])
                  = (tags, join_with NUL tags ++ [NUL])).
  { unfold exclude_tags.
    apply (exclude_tags_loop_first tags [] _ Hwf).
    rewrite length_app. cbn [length].
    pose proof (join_with_length_ge LF tags Hwf). lia. }
  destruct (opendir_cur_registers os nm cfg dbg fuel
              (mk_ctx (join_with LF tags ++ [NUL])) q rest topen
              Hchain Hfuel Hlen Hopen Hcreate) as (Hreg & res & h & Hsnd).
  cbn [excluded_tags] in Hreg, Hsnd. rewrite Hwalk in Hreg, Hsnd.
  exists (mk_ctx (join_with LF tags ++ [NUL])), res, h.
  split; [exact Hinit|]. split; [exact Hreg|exact Hsnd].
Qed.

Lemma X11_witness :
  exists p_ctx res h,
    notmuchfs_init true true (Some two_excluded) = Some p_ctx
    /\ registered_tags
         (fst (notmuchfs_opendir ex_os (ex_nm true NOTMUCH_STATUS_SUCCESS)
                 (ex_cfg false) NOTMUCHFS_DEBUG_default 2 p_ctx
                 (lit "/inbox/cur")))
       = [lit "deleted"; lit "spam"]
    /\ snd (notmuchfs_opendir ex_os (ex_nm true NOTMUCH_STATUS_SUCCESS)
              (ex_cfg false) NOTMUCHFS_DEBUG_default 2 p_ctx
              (lit "/inbox/cur"))
       = Ret (res, h,
              mk_ctx (lit "deleted" ++ [NUL] ++ lit "spam" ++ [NUL])).
Proof.
  refine (X11_first_opendir_registers_every_excluded_tag
            ex_os (ex_nm true NOTMUCH_STATUS_SUCCESS) (ex_cfg false)
            NOTMUCHFS_DEBUG_default 2 (lit "inbox") [lit "tag:inbox"]
            [EvDatabaseOpen false] [lit "deleted"; lit "spam"]
            _ _ _ _ _ eq_refl eq_refl).
  - repeat constructor; vm_compute; intuition discriminate.
  - vm_compute. repeat constructor.
  - cbn [link_chain]. split; [|split; [|split]].
    + exists (lnk_stat 10). split; reflexivity.
    + reflexivity.
    + vm_compute. repeat constructor.
    + vm_compute. exact I.
  - cbn. lia.
  - vm_compute. repeat constructor.
Defined.

(** X12.  Every later opendir registers the first excluded tag only.
    On the buffer that a walk has left (a NUL behind every tag), opendir
    of a cur/ directory excludes just the first tag on its query, and
    leaves the buffer as it found it, so that this repeats at each
    opendir until the unmount. *)
Theorem X12_later_opendirs_register_the_first_tag_only :
  forall (os : OS) (nm : Notmuch) (cfg : notmuchfs_config) (dbg : bool)
         (fuel : nat) (q : cstr) (rest : list cstr) (topen : list event)
         (tags : list cstr),
    Forall tag_wf tags ->
    link_chain os q rest -> (length rest < fuel)%nat ->
    (length q < PATH_MAX)%nat ->
    database_open nm dbg false = (topen, Ret tt) ->
    nm_query_create nm (last rest q) = true ->
    let p_ctx := mk_ctx (join_with NUL tags ++ [NUL]) in
    registered_tags
      (fst (notmuchfs_opendir os nm cfg dbg fuel p_ctx
              ("/"%char :: q ++ lit "/cur")))
    = firstn 1 tags
    /\ exists res h,
         snd (notmuchfs_opendir os nm cfg dbg fuel p_ctx
                ("/"%char :: q ++ lit "/cur"))
         = Ret (res, h, p_ctx).
Proof.
  intros os nm cfg dbg fuel q rest topen tags Hwf Hchain Hfuel Hlen Hopen
         Hcreate p_ctx.
  assert (Hwalk : exclude_tags (join_with NUL tags ++ [NUL])
                  = (firstn 1 tags, join_with NUL tags ++ [NUL])).
  { unfold exclude_tags. apply exclude_tags_loop_again; [exact Hwf|].
    rewrite length_app. cbn [length]. lia. }
  destruct (opendir_cur_registers os nm cfg dbg fuel p_ctx q rest topen
              Hchain Hfuel Hlen Hopen Hcreate) as (Hreg & res & h & Hsnd).
  unfold p_ctx in Hreg, Hsnd. cbn [excluded_tags] in Hreg, Hsnd.
  rewrite Hwalk in Hreg, Hsnd. split; [exact Hreg|].
  exists res, h. exact Hsnd.
Qed.

Lemma X12_witness :
  registered_tags
    (fst (notmuchfs_opendir ex_os (ex_nm true NOTMUCH_STATUS_SUCCESS)
            (ex_cfg false) NOTMUCHFS_DEBUG_default 2
            (mk_ctx (lit "deleted" ++ [NUL] ++ lit "spam" ++ [NUL]))
            (lit "/inbox/cur")))
  = [lit "deleted"].
Proof.
  refine (proj1 (X12_later_opendirs_register_the_first_tag_only
                   ex_os (ex_nm true NOTMUCH_STATUS_SUCCESS) (ex_cfg false)
                   NOTMUCHFS_DEBUG_default 2 (lit "inbox") [lit "tag:inbox"]
                   [EvDatabaseOpen false] [lit "deleted"; lit "spam"]
                   _ _ _ _ eq_refl eq_refl)).
  - repeat constructor; vm_compute; intuition discriminate.
  - cbn [link_chain]. split; [|split; [|split]].
    + exists (lnk_stat 10). split; reflexivity.
    + reflexivity.
    + vm_compute. repeat constructor.
    + vm_compute. exact I.
  - cbn. lia.
  - vm_compute. repeat constructor.
Defined.

(* ===================================================================== *)
(** ** notmuchfs_rename: refusals, pass-through and the index session *)
(* ===================================================================== *)

(** X13.  The renames that are refused by name alone: '#' in exactly one
    of the two names; the last '#' at different positions; and, with the
    workaround off, different bytes before the last '#'.  Each returns
    -ENOTSUP, and nothing has touched the backing store or the index. *)
Theorem X13_rename_refused_by_name :
  forall (os : OS) (nm : Notmuch) (cfg : notmuchfs_config) (dbg : bool)
         (from to : cstr),
    match strrchr1 from "#"%char, strrchr1 to "#"%char with
    | None, None => False
    | Some pf, Some pt =>
        pf <> pt
        \/ (firstn pf from <> firstn pf to
            /\ mutt_2476_workaround_allowed cfg = false)
    | _, _ => True
    end ->
    snd (notmuchfs_rename os nm cfg dbg from to) = Ret (- ENOTSUP)
    /\ Forall (fun e => touches_store e = false)
              (fst (notmuchfs_rename os nm cfg dbg from to)).
Proof.
  intros os nm cfg dbg from to H.
  destruct (strrchr1 from "#"%char) as [pf|] eqn:Ef,
           (strrchr1 to "#"%char) as [pt|] eqn:Et.
  - destruct (Nat.eq_dec pf pt) as [->|Hne].
    + destruct H as [H|[H Hoff]]; [congruence|].
      now apply (rename_rejects_different_prefix os nm cfg dbg from to pt).
    + now apply (rename_rejects_different_positions os nm cfg dbg from to
                   pf pt).
  - apply rename_rejects_one_sided. rewrite Ef, Et.
    split; [discriminate|intros Hn; now elim Hn].
  - apply rename_rejects_one_sided. rewrite Ef, Et.
    split; [discriminate|reflexivity].
  - destruct H.
Qed.

Lemma X13_witness :
  snd (notmuchfs_rename ex_os (ex_nm true NOTMUCH_STATUS_SUCCESS)
         (ex_cfg false) NOTMUCHFS_DEBUG_default
         (lit "/inbox/cur/#m#a#cur#1:2,") (lit "/work/cur/#m#a#cur#1:2,S"))
  = Ret (- ENOTSUP).
Proof.
  refine (proj1 (X13_rename_refused_by_name ex_os
                   (ex_nm true NOTMUCH_STATUS_SUCCESS) (ex_cfg false)
                   NOTMUCHFS_DEBUG_default
                   (lit "/inbox/cur/#m#a#cur#1:2,")
                   (lit "/work/cur/#m#a#cur#1:2,S") _)).
  vm_compute. left. discriminate.
Defined.

Lemma strrchr1_absent (s : cstr) c :
  ~ In c (skipn 1 s) -> strrchr1 s c = None.
Proof.
  intros H. unfold strrchr1. now rewrite strrchr_absent.
Qed.

(** X14.  A rename between two names without '#' is the backing store's
    rename of the two paths without their leading '/', and nothing more:
    the result is 0 or minus its errno, and no session with the index is
    opened. *)
Theorem X14_rename_of_plain_names_passes_through :
  forall (os : OS) (nm : Notmuch) (cfg : notmuchfs_config) (dbg : bool)
         (from to : cstr),
    ~ In "#"%char (skipn 1 from) -> ~ In "#"%char (skipn 1 to) ->
    let r := notmuchfs_rename os nm cfg dbg from to in
    snd r = Ret match os_rename os (skipn 1 from) (skipn 1 to) with
                | None => 0
                | Some errno => - errno
                end
    /\ filter touches_store (fst r) = [EvRename (skipn 1 from) (skipn 1 to)]
    /\ session_events (fst r) = [].
Proof.
  intros os nm cfg dbg from to Hf Ht r. subst r.
  unfold notmuchfs_rename, rename_validate.
  rewrite (strrchr1_absent _ _ Hf), (strrchr1_absent _ _ Ht). io_norm.
  destruct (os_rename os (skipn 1 from) (skipn 1 to)); io_norm;
    destruct dbg; repeat split.
Qed.

Lemma X14_witness :
  snd (notmuchfs_rename ex_os (ex_nm true NOTMUCH_STATUS_SUCCESS)
         (ex_cfg false) NOTMUCHFS_DEBUG_default
         (lit "/inbox") (lit "/archive"))
  = Ret match os_rename ex_os (lit "inbox") (lit "archive") with
        | None => 0
        | Some errno => - errno
        end.
Proof.
  refine (proj1 (X14_rename_of_plain_names_passes_through ex_os
                   (ex_nm true NOTMUCH_STATUS_SUCCESS) (ex_cfg false)
                   NOTMUCHFS_DEBUG_default (lit "/inbox") (lit "/archive")
                   _ _));
    vm_compute; intuition discriminate.
Defined.

Lemma session_events_app (t1 t2 : list event) :
  session_events (t1 ++ t2) = session_events t1 ++ session_events t2.
Proof. apply filter_app. Qed.

(** The validation never talks to the index, however it ends. *)
Lemma rename_validate_no_session os cfg dbg from to lsf lst :
  session_events (fst (rename_validate os cfg dbg from to lsf lst)) = [].
Proof.
  unfold rename_validate.
  destruct (strrchr1 from "#"%char) as [pf|], (strrchr1 to "#"%char) as [pt|];
    io_norm; try (destruct dbg; reflexivity).
  - destruct (negb (pf =? pt)%nat); io_norm; [destruct dbg; reflexivity|].
    destruct (negb (strncmp_eq from to pf)); io_norm; [|reflexivity].
    destruct (mutt_2476_workaround_allowed cfg); io_norm; [|reflexivity].
    unfold mutt_2476_case.
    destruct lsf as [lsf|]; io_norm; [|reflexivity].
    destruct ((3 <=? lsf)%nat && memcmp_eq from 0 to (lsf - 3));
      io_norm; [|reflexivity].
    destruct (memcmp_eq from (lsf - 3) (lit "cur") 3);
      [|destruct (memcmp_eq from (lsf - 3) (lit "new") 3)];
      io_norm;
      try (destruct lst as [lst|]; io_norm; [|reflexivity];
           destruct (lst <? 3)%nat; io_norm; [reflexivity|];
           destruct (memcmp_eq to (lst - 3) _ 3); io_norm);
      destruct dbg; reflexivity.
  - destruct (os_rename os (skipn 1 from) (skipn 1 to)); io_norm;
      destruct dbg; reflexivity.
Qed.

(** X15.  notmuchfs_rename talks to the index only after it has renamed
    the file in the backing store: whenever its trace holds an event of an
    index session, both names have a last '/', and the backing store has
    renamed the decoded name behind the one to the decoded name behind the
    other with success. *)
Theorem X15_rename_moves_the_file_before_the_index :
  forall (os : OS) (nm : Notmuch) (cfg : notmuchfs_config) (dbg : bool)
         (from to : cstr),
    session_events (fst (notmuchfs_rename os nm cfg dbg from to)) <> [] ->
    exists lsf lst,
      strrchr1 from "/"%char = Some lsf /\ strrchr1 to "/"%char = Some lst
      /\ os_rename os (trans_name_of from lsf) (trans_name_of to lst) = None
      /\ In (EvRename (trans_name_of from lsf) (trans_name_of to lst))
            (fst (notmuchfs_rename os nm cfg dbg from to)).
Proof.
  intros os nm cfg dbg from to. unfold notmuchfs_rename. cbv zeta.
  pose proof (rename_validate_no_session os cfg dbg from to
                (strrchr1 from "/"%char) (strrchr1 to "/"%char)) as Hv.
  rewrite fst_bind, session_events_app, Hv. cbn [app].
  destruct (snd (rename_validate os cfg dbg from to (strrchr1 from "/"%char)
                   (strrchr1 to "/"%char))) as [[res|w]| | | |];
    try (intros H; now elim H).
  destruct (strrchr1 from "/"%char) as [lsf|],
           (strrchr1 to "/"%char) as [lst|];
    try (intros H; now elim H).
  set (F := trans_name_of from lsf). set (T := trans_name_of to lst).
  destruct (os_rename os F T) as [errno|] eqn:Emv.
  - io_norm. destruct dbg; intros H; now elim H.
  - intros _. exists lsf, lst. repeat split; [exact Emv|]. fold F T.
    io_norm. apply in_or_app. right. apply in_or_app. right.
    left. reflexivity.
Qed.

Lemma X15_witness :
  exists lsf lst,
    strrchr1 (lit "/inbox/cur/#m#a#cur#1:2,") "/"%char = Some lsf
    /\ strrchr1 (lit "/inbox/cur/#m#a#cur#1:2,S") "/"%char = Some lst
    /\ os_rename ex_os (trans_name_of (lit "/inbox/cur/#m#a#cur#1:2,") lsf)
                 (trans_name_of (lit "/inbox/cur/#m#a#cur#1:2,S") lst) = None
    /\ In (EvRename (trans_name_of (lit "/inbox/cur/#m#a#cur#1:2,") lsf)
                    (trans_name_of (lit "/inbox/cur/#m#a#cur#1:2,S") lst))
          (fst (notmuchfs_rename ex_os (ex_nm true NOTMUCH_STATUS_SUCCESS)
                  (ex_cfg false) NOTMUCHFS_DEBUG_default
                  (lit "/inbox/cur/#m#a#cur#1:2,")
                  (lit "/inbox/cur/#m#a#cur#1:2,S"))).
Proof.
  apply (X15_rename_moves_the_file_before_the_index ex_os
           (ex_nm true NOTMUCH_STATUS_SUCCESS) (ex_cfg false)
           NOTMUCHFS_DEBUG_default).
  vm_compute. discriminate.
Defined.






